(** * goscraper: a shallow embedding of the link-preview scraper

    The development follows the Go package [goscraper] (the variant with
    [Icon], [Name], [Type] and [ScraperOptions]; [goscraper.go] is its
    earlier form, without them).  Go strings are byte
    strings and are modelled by [string]; [int] is a 64-bit integer
    carried by [Z] with its wrap-around written out; [*url.URL] is a
    record, [nil] being [None].  The packages the scraper imports
    ([net/url], [strings], [net/http], [x/net/html]) are outside the
    repository: what cannot be written down exactly is taken as a
    parameter ([GoLib], [Transport]), the rest is transcribed. *)

From Stdlib Require Import ZArith List Bool String Ascii Lia.
Import ListNotations.
Open Scope string_scope.
Open Scope Z_scope.

Set Implicit Arguments.

(* ================================================================== *)
(** ** Byte strings *)

Module Str.

Definition byteOf (c : ascii) : Z := Z.of_N (N_of_ascii c).
Definition ofByte (b : Z) : ascii := ascii_of_N (Z.to_N (b mod 256)).

Definition len (s : string) : Z := Z.of_nat (String.length s).

Fixpoint drop (n : nat) (s : string) : string :=
  match n, s with
  | O, _ => s
  | S n', String _ s' => drop n' s'
  | S _, EmptyString => EmptyString
  end.

(** [strings.HasPrefix]. *)
Definition HasPrefix (s p : string) : bool := String.prefix p s.

(** [strings.Contains]. *)
Fixpoint Contains (s sub : string) : bool :=
  HasPrefix s sub ||
  match s with
  | EmptyString => false
  | String _ s' => Contains s' sub
  end.

(** [strings.Replace(s, old, new, 1)]: the leftmost occurrence only. *)
Fixpoint Replace1 (s old new : string) : string :=
  if HasPrefix s old then new ++ drop (String.length old) s
  else match s with
       | EmptyString => EmptyString
       | String c s' => String c (Replace1 s' old new)
       end.

Definition concat (l : list string) : string := String.concat "" l.

End Str.

(* ================================================================== *)
(** ** Runes: [for _, r := range s] and [string(r)] *)

Module Utf8.

Definition rune := Z.
Definition RuneError : rune := 0xFFFD.
Definition MaxRune : rune := 0x10FFFF.

Definition cont (b : Z) : bool := (0x80 <=? b) && (b <=? 0xBF).

(** The [first] table of [unicode/utf8]: for a leading byte, the length
    of the sequence and the range accepted for the second byte. *)
Definition first (p0 : Z) : option (nat * Z * Z) :=
  if p0 <? 0xC2 then None
  else if p0 <=? 0xDF then Some (2%nat, 0x80, 0xBF)
  else if p0 =? 0xE0 then Some (3%nat, 0xA0, 0xBF)
  else if p0 <=? 0xEC then Some (3%nat, 0x80, 0xBF)
  else if p0 =? 0xED then Some (3%nat, 0x80, 0x9F)
  else if p0 <=? 0xEF then Some (3%nat, 0x80, 0xBF)
  else if p0 =? 0xF0 then Some (4%nat, 0x90, 0xBF)
  else if p0 <=? 0xF3 then Some (4%nat, 0x80, 0xBF)
  else if p0 =? 0xF4 then Some (4%nat, 0x80, 0x8F)
  else None.

Definition mk2 (p0 b1 : Z) : rune :=
  Z.lor (Z.shiftl (Z.land p0 0x1F) 6) (Z.land b1 0x3F).
Definition mk3 (p0 b1 b2 : Z) : rune :=
  Z.lor (Z.lor (Z.shiftl (Z.land p0 0x0F) 12) (Z.shiftl (Z.land b1 0x3F) 6))
        (Z.land b2 0x3F).
Definition mk4 (p0 b1 b2 b3 : Z) : rune :=
  Z.lor (Z.lor (Z.lor (Z.shiftl (Z.land p0 0x07) 18) (Z.shiftl (Z.land b1 0x3F) 12))
               (Z.shiftl (Z.land b2 0x3F) 6))
        (Z.land b3 0x3F).

(** The runes a [range] loop over [s] yields: a byte that does not start
    a well-formed sequence yields [RuneError] and advances by one. *)
Fixpoint runes (s : string) : list rune :=
  match s with
  | EmptyString => []
  | String c0 s1 =>
    let p0 := Str.byteOf c0 in
    if p0 <? 0x80 then p0 :: runes s1
    else
      match first p0 with
      | None => RuneError :: runes s1
      | Some (sz, lo, hi) =>
        match s1 with
        | EmptyString => RuneError :: runes s1
        | String c1 s2 =>
          let b1 := Str.byteOf c1 in
          if (b1 <? lo) || (hi <? b1) then RuneError :: runes s1
          else if Nat.leb sz 2 then mk2 p0 b1 :: runes s2
          else
            match s2 with
            | EmptyString => RuneError :: runes s1
            | String c2 s3 =>
              let b2 := Str.byteOf c2 in
              if negb (cont b2) then RuneError :: runes s1
              else if Nat.leb sz 3 then mk3 p0 b1 b2 :: runes s3
              else
                match s3 with
                | EmptyString => RuneError :: runes s1
                | String c3 s4 =>
                  let b3 := Str.byteOf c3 in
                  if negb (cont b3) then RuneError :: runes s1
                  else mk4 p0 b1 b2 b3 :: runes s4
                end
            end
        end
      end
  end.

Definition b (x : Z) : string := String (Str.ofByte x) EmptyString.

(** [string(r)]: the UTF-8 encoding of [r], of [RuneError] when [r] is
    not a valid code point. *)
Definition encode (r : rune) : string :=
  let r := if (r <? 0) || (MaxRune <? r) || ((0xD800 <=? r) && (r <=? 0xDFFF))
           then RuneError else r in
  if r <=? 0x7F then b r
  else if r <=? 0x7FF then
    b (Z.lor 0xC0 (Z.shiftr r 6)) ++ b (Z.lor 0x80 (Z.land r 0x3F))
  else if r <=? 0xFFFF then
    b (Z.lor 0xE0 (Z.shiftr r 12)) ++ b (Z.lor 0x80 (Z.land (Z.shiftr r 6) 0x3F))
      ++ b (Z.lor 0x80 (Z.land r 0x3F))
  else
    b (Z.lor 0xF0 (Z.shiftr r 18)) ++ b (Z.lor 0x80 (Z.land (Z.shiftr r 12) 0x3F))
      ++ b (Z.lor 0x80 (Z.land (Z.shiftr r 6) 0x3F))
      ++ b (Z.lor 0x80 (Z.land r 0x3F)).

(** [byte(r)]: the conversion keeps the low eight bits. *)
Definition byteOfRune (r : rune) : Z := r mod 256.

End Utf8.

(* ================================================================== *)
(** ** Errors and results *)

Inductive error : Type :=
| EscapeError (s : string)            (* net/url: invalid URL escape *)
| UrlError (op url : string)          (* net/url: *url.Error *)
| HttpError (msg : string)            (* net/http, io, charset *)
| ErrorString (msg : string).         (* errors.New *)

(** The outcome of a Go call that returns [(T, error)] and may panic. *)
Inductive result (A : Type) : Type :=
| Ok (a : A)
| Err (e : error)
| Panic (msg : string).
Arguments Ok {A} a.
Arguments Err {A} e.
Arguments Panic {A} msg.

Definition bind {A B} (r : result A) (k : A -> result B) : result B :=
  match r with
  | Ok a => k a
  | Err e => Err e
  | Panic m => Panic m
  end.

Notation "x <- r ;; k" := (bind r (fun x => k))
  (at level 61, r at next level, right associativity).

Definition indexOutOfRange : string := "runtime error: index out of range".
Definition nilDereference : string := "runtime error: invalid memory address or nil pointer dereference".

(* ================================================================== *)
(** ** [net/url] *)

Record Userinfo := { username : string; password : string; passwordSet : bool }.

Record URL := {
  Scheme : string;
  Opaque : string;
  User : option Userinfo;
  Host : string;
  Path : string;
  RawPath : string;
  OmitHost : bool;
  ForceQuery : bool;
  RawQuery : string;
  Fragment : string;
  RawFragment : string
}.

(** [u.IsAbs()]. *)
Definition IsAbs (u : URL) : bool := negb (Scheme u =? "")%string.

Definition setHost (u : URL) (h : string) : URL :=
  {| Scheme := Scheme u; Opaque := Opaque u; User := User u; Host := h;
     Path := Path u; RawPath := RawPath u; OmitHost := OmitHost u;
     ForceQuery := ForceQuery u; RawQuery := RawQuery u;
     Fragment := Fragment u; RawFragment := RawFragment u |}.

Definition setScheme (u : URL) (s : string) : URL :=
  {| Scheme := s; Opaque := Opaque u; User := User u; Host := Host u;
     Path := Path u; RawPath := RawPath u; OmitHost := OmitHost u;
     ForceQuery := ForceQuery u; RawQuery := RawQuery u;
     Fragment := Fragment u; RawFragment := RawFragment u |}.

Module Url.

Definition ishex (c : Z) : bool :=
  ((48 <=? c) && (c <=? 57)) || ((97 <=? c) && (c <=? 102)) || ((65 <=? c) && (c <=? 70)).

Definition unhex (c : Z) : Z :=
  if (48 <=? c) && (c <=? 57) then c - 48
  else if (97 <=? c) && (c <=? 102) then c - 97 + 10
  else if (65 <=? c) && (c <=? 70) then c - 65 + 10
  else 0.

Definition upperhex (n : Z) : ascii :=
  Str.ofByte (if n <? 10 then 48 + n else 65 + (n - 10)).

(** [shouldEscape(c, encodeQueryComponent)]: letters, digits and
    [-_.~] are the only bytes left alone. *)
Definition shouldEscape (c : Z) : bool :=
  negb (((97 <=? c) && (c <=? 122)) || ((65 <=? c) && (c <=? 90))
        || ((48 <=? c) && (c <=? 57))
        || (c =? 45) || (c =? 95) || (c =? 46) || (c =? 126)).

Definition escapeOne (c : ascii) : string :=
  let n := Str.byteOf c in
  if n =? 32 then "+"
  else if shouldEscape n
       then String "%" (String (upperhex (Z.shiftr n 4))
              (String (upperhex (Z.land n 15)) EmptyString))
       else String c EmptyString.

(** [url.QueryEscape]. *)
Fixpoint QueryEscape (s : string) : string :=
  match s with
  | EmptyString => EmptyString
  | String c s' => escapeOne c ++ QueryEscape s'
  end.

(** The text of the [EscapeError]: at most three bytes from the [%]. *)
Definition escapeErrorText (s : string) : string :=
  match s with
  | String a (String b (String c _)) => String a (String b (String c EmptyString))
  | _ => s
  end.

(** [url.QueryUnescape]: [%XX] is decoded, [+] becomes a space, and a
    [%] that is not followed by two hexadecimal digits is an
    [EscapeError]. *)
Fixpoint QueryUnescape (s : string) : result string :=
  match s with
  | EmptyString => Ok EmptyString
  | String c s1 =>
    if Str.byteOf c =? 37 then
      match s1 with
      | String h1 (String h2 s3) =>
        if ishex (Str.byteOf h1) && ishex (Str.byteOf h2) then
          r <- QueryUnescape s3 ;;
          Ok (String (Str.ofByte (Z.lor (Z.shiftl (unhex (Str.byteOf h1)) 4)
                                        (unhex (Str.byteOf h2)))) r)
        else Err (EscapeError (escapeErrorText s))
      | _ => Err (EscapeError (escapeErrorText s))
      end
    else if Str.byteOf c =? 43 then
      r <- QueryUnescape s1 ;; Ok (String " " r)
    else
      r <- QueryUnescape s1 ;; Ok (String c r)
  end.

End Url.

(** What the scraper needs of [net/url] and [strings] and that is not
    transcribed above: parsing and printing of URLs, the number of keys
    of the parsed query, Unicode case folding and trimming. *)
Record GoLib := {
  url_Parse : string -> result URL;
  url_String : URL -> string;
  url_Query_len : URL -> Z;
  strings_ToLower : string -> string;
  strings_TrimSpace : string -> string
}.

(* ================================================================== *)
(** ** [x/net/html]: the token stream *)

Inductive TokenType :=
| ErrorToken | TextToken | StartTagToken | EndTagToken
| SelfClosingTagToken | CommentToken | DoctypeToken.

Definition TokenType_eqb (a b : TokenType) : bool :=
  match a, b with
  | ErrorToken, ErrorToken | TextToken, TextToken
  | StartTagToken, StartTagToken | EndTagToken, EndTagToken
  | SelfClosingTagToken, SelfClosingTagToken
  | CommentToken, CommentToken | DoctypeToken, DoctypeToken => true
  | _, _ => false
  end.

Record Attribute := { Key : string; Val : string }.

Record Token := { Type_ : TokenType; Data : string; Attr : list Attribute }.

(** [Token()] once [Next()] has returned [ErrorToken]. *)
Definition errorTok : Token := {| Type_ := ErrorToken; Data := ""; Attr := [] |}.

(** A tokenizer is the list of the tokens it has yet to return.  [Next]
    at the end of the input returns [ErrorToken] and keeps doing so. *)
Definition Tokenizer := list Token.

Definition Next (t : Tokenizer) : Token * Tokenizer :=
  match t with
  | [] => (errorTok, [])
  | tok :: rest =>
    match Type_ tok with
    | ErrorToken => (errorTok, [])
    | _ => (tok, rest)
    end
  end.

(* ================================================================== *)
(** ** The scraper's types *)

Definition EscapedFragment : string := "_escaped_fragment_=".

Record ScraperOptions := { MaxDocumentLength : Z; UserAgent : string }.

Record Scraper := {
  Url : URL;
  EscapedFragmentUrl : option URL;
  MaxRedirect : Z;
  Options : ScraperOptions
}.

Record DocumentPreview := {
  Icon : string;
  Name : string;
  Title : string;
  Description : string;
  PreviewType : string;
  Images : list string;
  Link : string
}.

Record ResHeaders := { ContentType : string }.

(** [Body] holds the tokens the tokenizer reads out of the buffer. *)
Record Document := {
  Body : list Token;
  Preview : DocumentPreview;
  ResHeader : ResHeaders
}.

(** Go's [int]: 64 bits, two's complement. *)
Definition minInt : Z := - 2 ^ 63.
Definition maxInt : Z := 2 ^ 63 - 1.
Definition wrapInt (x : Z) : Z := (x + 2 ^ 63) mod 2 ^ 64 - 2 ^ 63.

(** Field updates of the preview. *)
Definition setIcon (p : DocumentPreview) (v : string) : DocumentPreview :=
  {| Icon := v; Name := Name p; Title := Title p; Description := Description p;
     PreviewType := PreviewType p; Images := Images p; Link := Link p |}.
Definition setName (p : DocumentPreview) (v : string) : DocumentPreview :=
  {| Icon := Icon p; Name := v; Title := Title p; Description := Description p;
     PreviewType := PreviewType p; Images := Images p; Link := Link p |}.
Definition setTitle (p : DocumentPreview) (v : string) : DocumentPreview :=
  {| Icon := Icon p; Name := Name p; Title := v; Description := Description p;
     PreviewType := PreviewType p; Images := Images p; Link := Link p |}.
Definition setDescription (p : DocumentPreview) (v : string) : DocumentPreview :=
  {| Icon := Icon p; Name := Name p; Title := Title p; Description := v;
     PreviewType := PreviewType p; Images := Images p; Link := Link p |}.
Definition setType (p : DocumentPreview) (v : string) : DocumentPreview :=
  {| Icon := Icon p; Name := Name p; Title := Title p; Description := Description p;
     PreviewType := v; Images := Images p; Link := Link p |}.
Definition setImages (p : DocumentPreview) (v : list string) : DocumentPreview :=
  {| Icon := Icon p; Name := Name p; Title := Title p; Description := Description p;
     PreviewType := PreviewType p; Images := v; Link := Link p |}.
Definition setLink (p : DocumentPreview) (v : string) : DocumentPreview :=
  {| Icon := Icon p; Name := Name p; Title := Title p; Description := Description p;
     PreviewType := PreviewType p; Images := Images p; Link := v |}.

Definition setPreview (d : Document) (p : DocumentPreview) : Document :=
  {| Body := Body d; Preview := p; ResHeader := ResHeader d |}.

Definition setUrl (s : Scraper) (u : URL) : Scraper :=
  {| Url := u; EscapedFragmentUrl := EscapedFragmentUrl s;
     MaxRedirect := MaxRedirect s; Options := Options s |}.
Definition setEscapedFragmentUrl (s : Scraper) (u : option URL) : Scraper :=
  {| Url := Url s; EscapedFragmentUrl := u;
     MaxRedirect := MaxRedirect s; Options := Options s |}.
Definition setMaxRedirect (s : Scraper) (n : Z) : Scraper :=
  {| Url := Url s; EscapedFragmentUrl := EscapedFragmentUrl s;
     MaxRedirect := n; Options := Options s |}.

(** The variables [parseDocument] declares before its loop, together
    with the preview they are read and written with. *)
Record ScanState := {
  ogImage : bool;
  headPassed : bool;
  hasFragment : bool;
  hasCanonical : bool;
  canonicalUrl : option URL;
  link : string;
  preview : DocumentPreview
}.

Definition withPreview (st : ScanState) (p : DocumentPreview) : ScanState :=
  {| ogImage := ogImage st; headPassed := headPassed st;
     hasFragment := hasFragment st; hasCanonical := hasCanonical st;
     canonicalUrl := canonicalUrl st; link := link st; preview := p |}.
Definition setOgImage (st : ScanState) : ScanState :=
  {| ogImage := true; headPassed := headPassed st;
     hasFragment := hasFragment st; hasCanonical := hasCanonical st;
     canonicalUrl := canonicalUrl st; link := link st; preview := preview st |}.
Definition setHeadPassed (st : ScanState) : ScanState :=
  {| ogImage := ogImage st; headPassed := true;
     hasFragment := hasFragment st; hasCanonical := hasCanonical st;
     canonicalUrl := canonicalUrl st; link := link st; preview := preview st |}.
Definition setHasFragment (st : ScanState) : ScanState :=
  {| ogImage := ogImage st; headPassed := headPassed st;
     hasFragment := true; hasCanonical := hasCanonical st;
     canonicalUrl := canonicalUrl st; link := link st; preview := preview st |}.
Definition setCanonical (st : ScanState) (u : URL) : ScanState :=
  {| ogImage := ogImage st; headPassed := headPassed st;
     hasFragment := hasFragment st; hasCanonical := true;
     canonicalUrl := Some u; link := link st; preview := preview st |}.

(** ** [net/http] *)

Record Request := { Method : string; RequestURI : string; HeaderUserAgent : string }.

Record Response := {
  RequestURL : URL;           (* resp.Request.URL: where the transport ended up *)
  ContentLength : Z;
  HeaderContentType : string;
  BodyLength : Z;             (* number of bytes the body stream holds *)
  BodyError : option error;   (* a failure of the charset reader or of the copy *)
  BodyTokens : list Token     (* the tokens of the body, decoded to UTF-8 *)
}.

(** [http.NewRequest] and [http.DefaultClient.Do]; the answer of the
    network may depend on the requests made before. *)
Record Transport := {
  http_NewRequest : string -> string -> option error;
  http_Do : list Request -> Request -> result Response
}.

(** The requests made so far, oldest first. *)
Definition World := list Request.

(* ================================================================== *)
(** ** The scraper *)

Definition avoidByte (b : Z) : bool :=
  let i := b in
  if (i =? 127) || ((0 <=? i) && (i <=? 31)) then true else false.

Definition escapeByte (b : Z) : bool :=
  let i := b in
  if (i =? 32) || (i =? 35) || (i =? 37) || (i =? 38) || (i =? 43)
     || ((127 <=? i) && (i <=? 255)) then true else false.

(** [fragmentRegexp.FindStringSubmatch]: the leftmost [#!] with what
    follows it up to the end of the line ([.] does not match a newline),
    as the whole match and the group. *)
Definition newline : string := String (Str.ofByte 10) EmptyString.

Fixpoint takeLine (s : string) : string :=
  match s with
  | EmptyString => EmptyString
  | String c s' => if Str.byteOf c =? 10 then EmptyString else String c (takeLine s')
  end.

Fixpoint FindStringSubmatch (s : string) : option (string * string) :=
  if Str.HasPrefix s "#!" then
    let g := takeLine (Str.drop 2 s) in Some ("#!" ++ g, g)
  else
    match s with
    | EmptyString => None
    | String _ s' => FindStringSubmatch s'
    end.

(** One turn of the loop over the runes of the fragment. *)
Definition escapeRune (r : Utf8.rune) : string :=
  let b := Utf8.byteOfRune r in
  if avoidByte b then ""
  else if escapeByte b then Url.QueryEscape (Utf8.encode r)
  else Utf8.encode r.

Fixpoint escapeRunes (rs : list Utf8.rune) (escapedFragment : string) : string :=
  match rs with
  | [] => escapedFragment
  | r :: rs' => escapeRunes rs' (escapedFragment ++ escapeRune r)
  end.

Section Scraper.

Variable lib : GoLib.
Variable net : Transport.

Definition cleanStr (str : string) : string :=
  strings_ToLower lib (strings_TrimSpace lib str).

Definition getUrl (scraper : Scraper) : string :=
  match EscapedFragmentUrl scraper with
  | Some u => url_String lib u
  | None => url_String lib (Url scraper)
  end.

(** [toFragmentUrl] returns an error or sets [EscapedFragmentUrl]. *)
Definition toFragmentUrl (scraper : Scraper) : result Scraper :=
  unescapedurl <- Url.QueryUnescape (url_String lib (Url scraper)) ;;
  let p := if url_Query_len lib (Url scraper) >? 0 then "&" else "?" in
  match FindStringSubmatch unescapedurl with
  | Some (m0, m1) =>
    let escapedFragment := escapeRunes (Utf8.runes m1) EscapedFragment in
    fragmentUrl <- url_Parse lib (Str.Replace1 unescapedurl m0 (p ++ escapedFragment)) ;;
    Ok (setEscapedFragmentUrl scraper (Some fragmentUrl))
  | None =>
    fragmentUrl <- url_Parse lib (unescapedurl ++ p ++ EscapedFragment) ;;
    Ok (setEscapedFragmentUrl scraper (Some fragmentUrl))
  end.

(** A call [scraper.toFragmentUrl()] whose result is not looked at. *)
Definition toFragmentUrl_ (scraper : Scraper) : Scraper :=
  match toFragmentUrl scraper with
  | Ok scraper' => scraper'
  | _ => scraper
  end.

Definition userAgent (scraper : Scraper) : string :=
  if negb (Str.len (UserAgent (Options scraper)) =? 0)
  then UserAgent (Options scraper) else "GoScraper".

(** [http.MaxBytesReader] when a limit is set, then [convertUTF8]: the
    copy fails when the body is longer than the limit or cannot be read
    or decoded. *)
Definition convertUTF8 (limit : Z) (resp : Response) : result (list Token) :=
  if (0 <? limit) && (limit <? BodyLength resp)
  then Err (HttpError "http: request body too large")
  else match BodyError resp with
       | Some e => Err e
       | None => Ok (BodyTokens resp)
       end.

Definition emptyPreview (l : string) : DocumentPreview :=
  {| Icon := ""; Name := ""; Title := ""; Description := "";
     PreviewType := ""; Images := []; Link := l |}.

(** The HEAD probe of [getDocument]: [Some e] when it makes the
    function return. *)
Definition headProbe (w : World) (scraper : Scraper) : World * option error :=
  if MaxDocumentLength (Options scraper) >? 0 then
    match http_NewRequest net "HEAD" (getUrl scraper) with
    | None =>
      let req := {| Method := "HEAD"; RequestURI := getUrl scraper;
                    HeaderUserAgent := userAgent scraper |} in
      match http_Do net w req with
      | Ok resp =>
        if ContentLength resp >? MaxDocumentLength (Options scraper)
        then ((w ++ [req])%list, Some (ErrorString "Content-Length exceed limits"))
        else ((w ++ [req])%list, None)
      | _ => ((w ++ [req])%list, None)
      end
    | Some _ => (w, None)
    end
  else (w, None).

Definition getDocument (w : World) (scraper : Scraper)
  : World * Scraper * result Document :=
  let scraper := setMaxRedirect scraper (wrapInt (MaxRedirect scraper - 1)) in
  let scraper :=
    if Str.Contains (url_String lib (Url scraper)) "#!"
    then toFragmentUrl_ scraper else scraper in
  let scraper :=
    if Str.Contains (url_String lib (Url scraper)) EscapedFragment
    then setEscapedFragmentUrl scraper (Some (Url scraper)) else scraper in
  match headProbe w scraper with
  | (w, Some e) => (w, scraper, Err e)
  | (w, None) =>
    match http_NewRequest net "GET" (getUrl scraper) with
    | Some e => (w, scraper, Err e)
    | None =>
      let req := {| Method := "GET"; RequestURI := getUrl scraper;
                    HeaderUserAgent := userAgent scraper |} in
      match http_Do net w req with
      | Err e => ((w ++ [req])%list, scraper, Err e)
      | Panic m => ((w ++ [req])%list, scraper, Panic m)
      | Ok resp =>
        let scraper :=
          if negb (url_String lib (RequestURL resp) =? getUrl scraper)%string
          then setUrl (setEscapedFragmentUrl scraper None) (RequestURL resp)
          else scraper in
        match convertUTF8 (MaxDocumentLength (Options scraper)) resp with
        | Ok b =>
          ((w ++ [req])%list, scraper,
           Ok {| Body := b;
                 Preview := emptyPreview (url_String lib (Url scraper));
                 ResHeader := {| ContentType := HeaderContentType resp |} |})
        | Err e => ((w ++ [req])%list, scraper, Err e)
        | Panic m => ((w ++ [req])%list, scraper, Panic m)
        end
      end
    end
  end.

(** *** [parseDocument]: the cases of the switch on [token.Data] *)

Definition metaFragment (token : Token) : bool :=
  let name :=
    fold_left (fun name attr =>
                 if (cleanStr (Key attr) =? "name")%string then Val attr else name)
              (Attr token) "" in
  let content :=
    fold_left (fun content attr =>
                 if (cleanStr (Key attr) =? "content")%string then Val attr else content)
              (Attr token) "" in
  if (name =? "fragment")%string && (content =? "!")%string then true else false.

(** [fmt.Sprintf("%s://%s%s", ...)]. *)
Definition sprintf3 (a b c : string) : string := a ++ "://" ++ b ++ c.
(** [fmt.Sprintf("%s://%s/%s", ...)]. *)
Definition sprintf3slash (a b c : string) : string := a ++ "://" ++ b ++ "/" ++ c.

(** The locals of [case "link"]. *)
Record LinkVars := { canonical : bool; hasIcon : bool; href : string }.

Fixpoint linkAttrs (attrs : list Attribute) (v : LinkVars) (st : ScanState)
  : result ScanState :=
  match attrs with
  | [] => Ok st
  | attr :: attrs' =>
    let canonical :=
      if (cleanStr (Key attr) =? "rel")%string && (cleanStr (Val attr) =? "canonical")%string
      then true else canonical v in
    let hasIcon :=
      if (cleanStr (Key attr) =? "rel")%string && Str.Contains (cleanStr (Val attr)) "icon"
      then true else hasIcon v in
    let href :=
      if (cleanStr (Key attr) =? "href")%string then Val attr else href v in
    st <- (if (Str.len href >? 0) && canonical && negb (link st =? href)%string
           then u <- url_Parse lib href ;; Ok (setCanonical st u)
           else Ok st) ;;
    let st :=
      if (Str.len href >? 0) && hasIcon
      then withPreview st (setIcon (preview st) href) else st in
    linkAttrs attrs' {| canonical := canonical; hasIcon := hasIcon; href := href |} st
  end.

Definition caseLink (st : ScanState) (token : Token) : result ScanState :=
  linkAttrs (Attr token) {| canonical := false; hasIcon := false; href := "" |} st.

(** The locals of [case "meta"]. *)
Definition metaProperty (token : Token) : string :=
  fold_left (fun property attr =>
               if (cleanStr (Key attr) =? "property")%string
                  || (cleanStr (Key attr) =? "name")%string
               then Val attr else property)
            (Attr token) "".

Definition metaContent (token : Token) : string :=
  fold_left (fun content attr =>
               if (cleanStr (Key attr) =? "content")%string then Val attr else content)
            (Attr token) "".

(** The first test of [case "meta"]: the AJAX-crawling marker, when no
    escaped-fragment URL is in use. *)
Definition marked (scraper : Scraper) (st : ScanState) (token : Token) : ScanState :=
  if metaFragment token
     && (match EscapedFragmentUrl scraper with None => true | Some _ => false end)
  then setHasFragment st else st.

Definition caseMeta (scraper : Scraper) (st : ScanState) (token : Token)
  : result ScanState :=
  if negb (Nat.eqb (List.length (Attr token)) 2) then Ok st
  else
    let st := marked scraper st token in
    let property := metaProperty token in
    let content := metaContent token in
    let p := preview st in
    let prop := cleanStr property in
    if (prop =? "og:site_name")%string then Ok (withPreview st (setName p content))
    else if (prop =? "og:title")%string then Ok (withPreview st (setTitle p content))
    else if (prop =? "og:type")%string then Ok (withPreview st (setType p content))
    else if (prop =? "og:description")%string
    then Ok (withPreview st (setDescription p content))
    else if (prop =? "description")%string
    then (if Str.len (Description p) =? 0
          then Ok (withPreview st (setDescription p content)) else Ok st)
    else if (prop =? "og:url")%string then Ok (withPreview st (setLink p content))
    else if (prop =? "og:image")%string then
      let st := setOgImage st in
      ogImgUrl <- url_Parse lib content ;;
      let ogImgUrl :=
        if negb (IsAbs ogImgUrl)
        then setScheme (setHost ogImgUrl (Host (Url scraper))) (Scheme (Url scraper))
        else ogImgUrl in
      Ok (withPreview st (setImages p [url_String lib ogImgUrl]))
    else Ok st.

(** [case "title"], for a start tag: [token] is the one the second
    [t.Next()] produced. *)
Definition caseTitle (st : ScanState) (token : Token) : ScanState :=
  if Str.len (Title (preview st)) =? 0
  then withPreview st (setTitle (preview st) (Data token))
  else st.

(** What one [src] attribute appends. *)
Definition imgSrc (scraper : Scraper) (val : string) : result string :=
  imgUrl <- url_Parse lib val ;;
  if negb (IsAbs imgUrl) then
    match Path imgUrl with
    | EmptyString => Panic indexOutOfRange
    | String c _ =>
      if (Utf8.encode (Str.byteOf c) =? "/")%string
      then Ok (sprintf3 (Scheme (Url scraper)) (Host (Url scraper)) (Path imgUrl))
      else Ok (sprintf3slash (Scheme (Url scraper)) (Host (Url scraper)) (Path imgUrl))
    end
  else Ok val.

Definition isSrc (attr : Attribute) : bool :=
  (cleanStr (Key attr) =? "src")%string.

Fixpoint imgAttrs (scraper : Scraper) (attrs : list Attribute) (st : ScanState)
  : result ScanState :=
  match attrs with
  | [] => Ok st
  | attr :: attrs' =>
    if isSrc attr then
      i <- imgSrc scraper (Val attr) ;;
      imgAttrs scraper attrs'
               (withPreview st (setImages (preview st) (Images (preview st) ++ [i])%list))
    else imgAttrs scraper attrs' st
  end.

Definition caseImg (scraper : Scraper) (st : ScanState) (token : Token)
  : result ScanState :=
  imgAttrs scraper (Attr token) st.

Definition isTitleStart (token : Token) : bool :=
  (Data token =? "title")%string && TokenType_eqb (Type_ token) StartTagToken.

(** The switch.  [next] is the token a [title] start tag reads. *)
Definition switchData (scraper : Scraper) (st : ScanState) (token next : Token)
  : result ScanState :=
  let d := Data token in
  if (d =? "head")%string then
    Ok (if TokenType_eqb (Type_ token) EndTagToken then setHeadPassed st else st)
  else if (d =? "body")%string then Ok (setHeadPassed st)
  else if (d =? "link")%string then caseLink st token
  else if (d =? "meta")%string then caseMeta scraper st token
  else if (d =? "title")%string then
    Ok (if TokenType_eqb (Type_ token) StartTagToken then caseTitle st next else st)
  else if (d =? "img")%string then caseImg scraper st token
  else Ok st.

(** *** [parseDocument]: the loop *)

(** How a scan ends: [return nil], [return err], a panic, or a new
    fetch of the scraper's URL followed by a scan of what it brings. *)
Inductive ScanOutcome :=
| Finished (st : ScanState) (rest : Tokenizer)
| Failed (e : error)
| Panicked (msg : string)
| Refetch (scraper : Scraper).

(** The last test of a turn: title, description and [og:image] are
    there and the head is behind. *)
Definition enough (st : ScanState) : bool :=
  (Str.len (Title (preview st)) >? 0)
  && (Str.len (Description (preview st)) >? 0)
  && ogImage st && headPassed st.

(** The three tests that close each turn of the loop; [None] lets the
    loop go on. *)
Definition endOfTurn (scraper : Scraper) (st : ScanState) (rest : Tokenizer)
  : option ScanOutcome :=
  if hasCanonical st && headPassed st && (MaxRedirect scraper >? 0) then
    match canonicalUrl st with
    | None => Some (Panicked nilDereference)
    | Some canonicalUrl =>
      if negb (IsAbs canonicalUrl) then
        match url_Parse lib (sprintf3 (Scheme (Url scraper)) (Host (Url scraper))
                                      (Path canonicalUrl)) with
        | Ok absCanonical =>
          Some (Refetch (setEscapedFragmentUrl (setUrl scraper absCanonical) None))
        | Err e => Some (Failed e)
        | Panic m => Some (Panicked m)
        end
      else Some (Refetch (setEscapedFragmentUrl (setUrl scraper canonicalUrl) None))
    end
  else if hasFragment st && headPassed st && (MaxRedirect scraper >? 0) then
    Some (Refetch (toFragmentUrl_ scraper))
  else if enough st then Some (Finished st rest)
  else None.

(** The tokens left once a [title] start tag has called [t.Next()]. *)
Definition advance (t : Tokenizer) : Tokenizer :=
  match t with
  | [] => t
  | tok :: rest =>
    match Type_ tok with
    | ErrorToken => t
    | _ => rest
    end
  end.

Definition isTag (tokenType : TokenType) : bool :=
  match tokenType with
  | SelfClosingTagToken | StartTagToken | EndTagToken => true
  | _ => false
  end.

(** The token the switch may read after [token], and the tokens left
    after the turn: only a [title] start tag reads ahead. *)
Definition lookahead (token : Token) (rest : Tokenizer) : Token :=
  if isTitleStart token then fst (Next rest) else token.

Definition remaining (token : Token) (rest : Tokenizer) : Tokenizer :=
  if isTitleStart token then advance rest else rest.

Fixpoint scanLoop (scraper : Scraper) (st : ScanState) (t : Tokenizer)
  : ScanOutcome :=
  match t with
  | [] => Finished st []
  | token :: rest =>
    match Type_ token with
    | ErrorToken => Finished st []
    | tokenType =>
      if negb (isTag tokenType) then scanLoop scraper st rest
      else
        let next := lookahead token rest in
        let rest := remaining token rest in
        match switchData scraper st token next with
        | Err e => Failed e
        | Panic m => Panicked m
        | Ok st =>
          match endOfTurn scraper st rest with
          | Some out => out
          | None => scanLoop scraper st rest
          end
        end
    end
  end.

(** The assignments [parseDocument] makes before the loop. *)
Definition initScan (scraper : Scraper) (doc : Document) : ScanState :=
  {| ogImage := false; headPassed := false; hasFragment := false;
     hasCanonical := false; canonicalUrl := None;
     link := Link (Preview doc);
     preview :=
       setIcon (setName (setImages (Preview doc) []) (Host (Url scraper)))
               (sprintf3 (Scheme (Url scraper)) (Host (Url scraper)) "/favicon.ico") |}.

(** [parseDocument].  The recursion of the source is on a fresh
    document after a fetch; [fuel] bounds the number of scans and [None]
    means that it ran out. *)
Fixpoint parseDocument (fuel : nat) (w : World) (scraper : Scraper) (doc : Document)
  : option (World * Scraper * result Document) :=
  match fuel with
  | O => None
  | S fuel' =>
    match scanLoop scraper (initScan scraper doc) (Body doc) with
    | Finished st _ => Some (w, scraper, Ok (setPreview doc (preview st)))
    | Failed e => Some (w, scraper, Err e)
    | Panicked m => Some (w, scraper, Panic m)
    | Refetch scraper =>
      match getDocument w scraper with
      | (w, scraper, Ok fdoc) => parseDocument fuel' w scraper fdoc
      | (w, scraper, Err e) => Some (w, scraper, Err e)
      | (w, scraper, Panic m) => Some (w, scraper, Panic m)
      end
    end
  end.

(** Scans a budget allows: each re-fetch happens with a positive budget
    and takes one unit of it. *)
Definition scans (scraper : Scraper) : nat := S (Z.to_nat (MaxRedirect scraper)).

(** [scraper.ParseDocument(doc)]. *)
Definition ParseDocument (w : World) (scraper : Scraper) (doc : Document)
  : option (World * Scraper * result Document) :=
  parseDocument (scans scraper) w scraper doc.

(** [scraper.Scrape()]. *)
Definition Scrape_ (w : World) (scraper : Scraper)
  : option (World * Scraper * result Document) :=
  match getDocument w scraper with
  | (w, scraper, Ok doc) => ParseDocument w scraper doc
  | (w, scraper, Err e) => Some (w, scraper, Err e)
  | (w, scraper, Panic m) => Some (w, scraper, Panic m)
  end.

(** [Scrape(uri, maxRedirect, options)]. *)
Definition Scrape (w : World) (uri : string) (maxRedirect : Z) (options : ScraperOptions)
  : option (World * result Document) :=
  match url_Parse lib uri with
  | Ok u =>
    match Scrape_ w {| Url := u; EscapedFragmentUrl := None;
                       MaxRedirect := maxRedirect; Options := options |} with
    | Some (w, _, r) => Some (w, r)
    | None => None
    end
  | Err e => Some (w, Err e)
  | Panic m => Some (w, Panic m)
  end.

(** [Turns st t st' t']: from the state [st] with the tokens [t] left,
    the loop comes round to its top with [st'] and [t'] left. *)
Inductive Turns (scraper : Scraper)
  : ScanState -> Tokenizer -> ScanState -> Tokenizer -> Prop :=
| TurnsHere st t : Turns scraper st t st t
| TurnsSkip st token rest st' t' :
    Type_ token <> ErrorToken ->
    isTag (Type_ token) = false ->
    Turns scraper st rest st' t' ->
    Turns scraper st (token :: rest) st' t'
| TurnsTag st token rest st1 st' t' :
    isTag (Type_ token) = true ->
    switchData scraper st token (lookahead token rest) = Ok st1 ->
    endOfTurn scraper st1 (remaining token rest) = None ->
    Turns scraper st1 (remaining token rest) st' t' ->
    Turns scraper st (token :: rest) st' t'.

(** What a scan that fetches nothing hands back. *)
Definition scanResult (doc : Document) (out : ScanOutcome) : result Document :=
  match out with
  | Finished st _ => Ok (setPreview doc (preview st))
  | Failed e => Err e
  | Panicked m => Panic m
  | Refetch _ => Ok doc
  end.

Definition isRefetch (out : ScanOutcome) : bool :=
  match out with
  | Refetch _ => true
  | _ => false
  end.

End Scraper.

(* ================================================================== *)
(** ** A reference library and a reference network

    The statements below hold for every [GoLib] and [Transport].  To run
    the scraper on concrete pages the examples use [GoRef.lib]: it
    follows [net/url] on references without userinfo, without a
    bracketed host and without percent escapes outside the query, and
    [strings] on ASCII text. *)

Module GoRef.

(** [strings.Cut(s, sep)] for a one-byte separator. *)
Fixpoint cut (sep : Z) (s : string) : string * string * bool :=
  match s with
  | EmptyString => (EmptyString, EmptyString, false)
  | String c s' =>
    if Str.byteOf c =? sep then (EmptyString, s', true)
    else let '(a, b, f) := cut sep s' in (String c a, b, f)
  end.

Fixpoint containsCTLByte (s : string) : bool :=
  match s with
  | EmptyString => false
  | String c s' =>
    (Str.byteOf c <? 32) || (Str.byteOf c =? 127) || containsCTLByte s'
  end.

Definition isAlpha (c : Z) : bool :=
  ((97 <=? c) && (c <=? 122)) || ((65 <=? c) && (c <=? 90)).

(** [getScheme]: [i] tells whether the first byte is being read. *)
Fixpoint getSchemeFrom (i0 : bool) (acc rawURL whole : string)
  : option (string * string) :=
  match rawURL with
  | EmptyString => Some (EmptyString, whole)
  | String c s' =>
    let n := Str.byteOf c in
    if isAlpha n then getSchemeFrom false (acc ++ String c EmptyString) s' whole
    else if ((48 <=? n) && (n <=? 57)) || (n =? 43) || (n =? 45) || (n =? 46) then
      if i0 then Some (EmptyString, whole)
      else getSchemeFrom false (acc ++ String c EmptyString) s' whole
    else if n =? 58 then
      if i0 then None else Some (acc, s')
    else Some (EmptyString, whole)
  end.

Definition getScheme (rawURL : string) : option (string * string) :=
  getSchemeFrom true EmptyString rawURL rawURL.

Definition lowerByte (c : ascii) : ascii :=
  let n := Str.byteOf c in
  if (65 <=? n) && (n <=? 90) then Str.ofByte (n + 32) else c.

Fixpoint ToLower (s : string) : string :=
  match s with
  | EmptyString => EmptyString
  | String c s' => String (lowerByte c) (ToLower s')
  end.

Definition isSpace (c : ascii) : bool :=
  let n := Str.byteOf c in ((9 <=? n) && (n <=? 13)) || (n =? 32).

Fixpoint trimLeft (s : string) : string :=
  match s with
  | EmptyString => EmptyString
  | String c s' => if isSpace c then trimLeft s' else s
  end.

Fixpoint trimRight (s : string) : string :=
  match s with
  | EmptyString => EmptyString
  | String c s' =>
    match trimRight s' with
    | EmptyString => if isSpace c then EmptyString else String c EmptyString
    | t => String c t
    end
  end.

Definition TrimSpace (s : string) : string := trimRight (trimLeft s).

Definition mkURL (scheme opaque host path : string) (force : bool)
           (query fragment : string) : URL :=
  {| Scheme := scheme; Opaque := opaque; User := None; Host := host;
     Path := path; RawPath := "";
     OmitHost := negb (scheme =? "")%string && (host =? "")%string
                 && Str.HasPrefix path "/";
     ForceQuery := force;
     RawQuery := query; Fragment := fragment; RawFragment := "" |}.

(** [url.Parse]. *)
Definition Parse (rawURL : string) : result URL :=
  let '(u, frag, _) := cut 35 rawURL in
  if containsCTLByte u then Err (UrlError "parse" u)
  else if (u =? "*")%string then Ok (mkURL "" "" "" "*" false "" frag)
  else
    match getScheme u with
    | None => Err (UrlError "parse" u)
    | Some (scheme, rest) =>
      let scheme := ToLower scheme in
      let '(rest, query, hasQ) := cut 63 rest in
      let force := hasQ && (query =? "")%string in
      if negb (Str.HasPrefix rest "/") && negb (scheme =? "")%string
      then Ok (mkURL scheme rest "" "" force query frag)
      else if negb (Str.HasPrefix rest "/")
              && Str.Contains (fst (fst (cut 47 rest))) ":"
      then Err (UrlError "parse" u)
      else if (negb (scheme =? "")%string || negb (Str.HasPrefix rest "///"))
              && Str.HasPrefix rest "//"
      then
        let '(authority, path, hasSlash) := cut 47 (Str.drop 2 rest) in
        Ok (mkURL scheme "" authority (if hasSlash then "/" ++ path else "")
                  force query frag)
      else Ok (mkURL scheme "" "" rest force query frag)
    end.

(** [u.String()]. *)
Definition String_ (u : URL) : string :=
  let buf := if negb (Scheme u =? "")%string then Scheme u ++ ":" else "" in
  let buf :=
    if negb (Opaque u =? "")%string then buf ++ Opaque u
    else
      let buf :=
        if negb (Scheme u =? "")%string || negb (Host u =? "")%string then
          if OmitHost u && (Host u =? "")%string then buf
          else (if negb (Host u =? "")%string || negb (Path u =? "")%string
                then buf ++ "//" else buf) ++ Host u
        else buf in
      let buf :=
        if negb (Path u =? "")%string && negb (Str.HasPrefix (Path u) "/")
           && negb (Host u =? "")%string
        then buf ++ "/" else buf in
      let buf :=
        if (buf =? "")%string && Str.Contains (fst (fst (cut 47 (Path u)))) ":"
        then buf ++ "./" else buf in
      buf ++ Path u in
  let buf :=
    if ForceQuery u || negb (RawQuery u =? "")%string
    then buf ++ "?" ++ RawQuery u else buf in
  if negb (Fragment u =? "")%string then buf ++ "#" ++ Fragment u else buf.

(** [len(u.Query())]: the keys of the pairs that parse. *)
Fixpoint splitAmp (s cur : string) : list string :=
  match s with
  | EmptyString => [cur]
  | String c s' =>
    if Str.byteOf c =? 38 then cur :: splitAmp s' EmptyString
    else splitAmp s' (cur ++ String c EmptyString)
  end.

Definition queryKey (pair : string) : option string :=
  if Str.Contains pair ";" || (pair =? "")%string then None
  else
    let '(k, v, _) := cut 61 pair in
    match Url.QueryUnescape k, Url.QueryUnescape v with
    | Ok k', Ok _ => Some k'
    | _, _ => None
    end.

Fixpoint keys (pairs : list string) (seen : list string) : list string :=
  match pairs with
  | [] => seen
  | p :: ps =>
    match queryKey p with
    | Some k => if existsb (String.eqb k) seen then keys ps seen else keys ps (k :: seen)
    | None => keys ps seen
    end
  end.

Definition Query_len (u : URL) : Z :=
  Z.of_nat (List.length (keys (splitAmp (RawQuery u) EmptyString) [])).

Definition lib : GoLib :=
  {| url_Parse := Parse; url_String := String_; url_Query_len := Query_len;
     strings_ToLower := ToLower; strings_TrimSpace := TrimSpace |}.

(** A network that serves one page for every request, from the URL
    that was asked for. *)
Definition serve (page : list Token) : Transport :=
  {| http_NewRequest := fun _ _ => None;
     http_Do := fun _ req =>
       r <- Parse (RequestURI req) ;;
       Ok {| RequestURL := r; ContentLength := 0;
             HeaderContentType := "text/html; charset=utf-8";
             BodyLength := 0; BodyError := None; BodyTokens := page |} |}.

(** Tokens as the tokenizer hands them out. *)
Definition start (name : string) (attrs : list (string * string)) : Token :=
  {| Type_ := StartTagToken; Data := name;
     Attr := map (fun kv => {| Key := fst kv; Val := snd kv |}) attrs |}.
Definition close (name : string) : Token :=
  {| Type_ := EndTagToken; Data := name; Attr := [] |}.
Definition text (s : string) : Token :=
  {| Type_ := TextToken; Data := s; Attr := [] |}.

Definition options : ScraperOptions := {| MaxDocumentLength := 0; UserAgent := "" |}.

End GoRef.


(** Pages and sessions for the examples. *)
Module Pages.

Import GoRef.

(** A session on [https://ex.com/p] with [budget] left, and the
    document [getDocument] builds for it out of [page]. *)
Definition site : URL := mkURL "https" "" "ex.com" "/p" false "" "".

Definition session (budget : Z) : Scraper :=
  {| Url := site; EscapedFragmentUrl := None;
     MaxRedirect := budget; Options := options |}.

Definition fetched (page : list Token) : Document :=
  {| Body := page; Preview := emptyPreview "https://ex.com/p";
     ResHeader := {| ContentType := "text/html; charset=utf-8" |} |}.

Definition meta (property content : string) : Token :=
  start "meta" [("property", property); ("content", content)].

(** The preview of a scan of [page], when the scan returns one. *)
Definition previewOf (budget : Z) (page : list Token) : option DocumentPreview :=
  match ParseDocument lib (serve page) [] (session budget) (fetched page) with
  | Some (_, _, Ok doc) => Some (Preview doc)
  | _ => None
  end.

(** [<title>Hello</title>] and then an [og:title]. *)
Definition titleThenOg : list Token :=
  [start "head" []; start "title" []; text "Hello"; close "title";
   meta "og:title" "T"; close "head"; start "body" []; close "body"].

(** The three Open Graph tags in the head, and a body. *)
Definition ogHead (image : string) : list Token :=
  [start "head" []; meta "og:title" "T"; meta "og:description" "D";
   meta "og:image" image; close "head";
   start "body" []; meta "og:title" "late"; start "img" [("src", "/a.png")];
   close "body"].

(** A canonical link and the AJAX-crawling marker. *)
Definition canonicalPage : list Token :=
  [start "head" [];
   start "link" [("rel", "canonical"); ("href", "https://other.example/x")];
   start "meta" [("name", "fragment"); ("content", "!")];
   start "title" []; text "Here"; close "title";
   close "head"; start "body" []; close "body"].

(** An [og:image] and images in the body, without a description. *)
Definition ogThenImgs : list Token :=
  [start "head" []; meta "og:image" "https://cdn.x/og.png"; close "head";
   start "body" []; start "img" [("src", "/a.png")];
   start "img" [("src", "https://cdn.x/y.png")]; start "img" [("src", "b.png")];
   close "body"].

Definition emptyTitle : list Token :=
  [start "head" []; start "title" []; close "title"; close "head"].

Definition iconPage : list Token :=
  [start "head" []; start "link" [("rel", "shortcut icon"); ("href", "/fav.png")];
   close "head"].

Definition imgPage (src : string) : list Token :=
  [start "body" []; start "img" [("src", src)]; close "body"].

(** A session on another URL. *)
Definition visiting (u : URL) (budget : Z) : Scraper :=
  {| Url := u; EscapedFragmentUrl := None;
     MaxRedirect := budget; Options := options |}.

(** [http://ex.com/#!a+b], as [url.Parse] returns it. *)
Definition hashBang : URL := mkURL "http" "" "ex.com" "/" false "" "!a+b".

(** The escaped-fragment URL [toFragmentUrl] sets, printed. *)
Definition fragmentUrlOf (scraper : Scraper) : option string :=
  match toFragmentUrl lib scraper with
  | Ok scraper' => option_map String_ (EscapedFragmentUrl scraper')
  | _ => None
  end.

(** A URL that parses and whose query does not decode. *)
Definition badEscape : string := "http://ex.com/?q=%zz#!a".
Definition badQuery : string := "http://ex.com/?q=%zz".

Definition titled : list Token :=
  [start "head" []; start "title" []; text "x"; close "title"; close "head"].

Definition crawlable : list Token :=
  [start "head" []; start "meta" [("name", "fragment"); ("content", "!")];
   start "title" []; text "x"; close "title"; close "head"].

Definition get (uri : string) : Request :=
  {| Method := "GET"; RequestURI := uri; HeaderUserAgent := "GoScraper" |}.

End Pages.

(* ================================================================== *)
(** ** The words of the specification, for comparison *)

Module SpecWords.

(** "percent-encode it": [%] and the two hexadecimal digits of the byte. *)
Definition percentEncode (c : ascii) : string :=
  String "%" (String (Url.upperhex (Z.shiftr (Str.byteOf c) 4))
    (String (Url.upperhex (Z.land (Str.byteOf c) 15)) EmptyString)).

(** "for each character in the payload, drop it if its byte value is a
    C0 control character or DEL; otherwise percent-encode it if its
    byte value is one of: space, #, %, &, +, or any byte >= 127;
    otherwise keep it literal". *)
Fixpoint escapePayload (payload : string) : string :=
  match payload with
  | EmptyString => EmptyString
  | String c s =>
    let n := Str.byteOf c in
    (if ((0 <=? n) && (n <=? 31)) || (n =? 127) then ""
     else if (n =? 32) || (n =? 35) || (n =? 37) || (n =? 38) || (n =? 43) || (127 <=? n)
          then percentEncode c
          else String c EmptyString) ++ escapePayload s
  end.

(** "Prefix the result with the literal parameter name". *)
Definition escapedFragmentToken (payload : string) : string :=
  "_escaped_fragment_=" ++ escapePayload payload.

End SpecWords.

(* ================================================================== *)
(** ** The builder *)

Module Builder.

Record scrapeSettings := {
  userAgent : string;
  maxDocumentLength : Z;
  url : string;
  maxRedirect : Z
}.

Record scrapeBuilder := { settings : scrapeSettings }.

(** [NewScrapeBuilder]. *)
Definition NewScrapeBuilder : scrapeBuilder :=
  {| settings := {| userAgent := "GoScraper"; maxDocumentLength := 0;
                    url := ""; maxRedirect := 0 |} |}.

Definition SetUrl (s : string) (b : scrapeBuilder) : scrapeBuilder :=
  {| settings := {| userAgent := userAgent (settings b);
                    maxDocumentLength := maxDocumentLength (settings b);
                    url := s; maxRedirect := maxRedirect (settings b) |} |}.

Definition SetMaxRedirect (i : Z) (b : scrapeBuilder) : scrapeBuilder :=
  {| settings := {| userAgent := userAgent (settings b);
                    maxDocumentLength := maxDocumentLength (settings b);
                    url := url (settings b); maxRedirect := i |} |}.

Definition SetMaxDocumentLength (maxDocLength : Z) (b : scrapeBuilder) : scrapeBuilder :=
  {| settings := {| userAgent := userAgent (settings b);
                    maxDocumentLength := maxDocLength;
                    url := url (settings b);
                    maxRedirect := maxRedirect (settings b) |} |}.

Definition SetUserAgent (s : string) (b : scrapeBuilder) : scrapeBuilder :=
  {| settings := {| userAgent := s;
                    maxDocumentLength := maxDocumentLength (settings b);
                    url := url (settings b);
                    maxRedirect := maxRedirect (settings b) |} |}.

(** [Build]: the scraper, or the error of [url.Parse]. *)
Definition Build (lib : GoLib) (b : scrapeBuilder) : result Scraper :=
  u <- url_Parse lib (url (settings b)) ;;
  Ok {| Url := u; EscapedFragmentUrl := None;
        MaxRedirect := maxRedirect (settings b);
        Options := {| MaxDocumentLength := maxDocumentLength (settings b);
                      UserAgent := userAgent (settings b) |} |}.

End Builder.

(** [scraper.GetDocument()]. *)
Definition GetDocument (lib : GoLib) (net : Transport) (w : World) (scraper : Scraper)
  : World * Scraper * result Document :=
  getDocument lib net w scraper.

(* ================================================================== *)
(** ** Vocabulary of the statements *)

(** All the bytes of a string pass a test. *)
Fixpoint allBytes (f : Z -> bool) (s : string) : bool :=
  match s with
  | EmptyString => true
  | String c s' => f (Str.byteOf c) && allBytes f s'
  end.

(** A byte that cannot end or split a query parameter: no control byte,
    no space, no [#], no [&]. *)
Definition querySafe (n : Z) : bool :=
  negb ((n <=? 32) || (n =? 35) || (n =? 38) || (n =? 127)).

(** The runes the loop of [toFragmentUrl] does not skip. *)
Definition kept (r : Utf8.rune) : bool := negb (avoidByte (Utf8.byteOfRune r)).

(** ASCII other than the space. *)
Definition plainAscii (n : Z) : bool := (n <? 128) && negb (n =? 32).

Definition isMethod (m : string) (req : Request) : bool := (Method req =? m)%string.

(** [grows st st']: from [st] to [st'] the link saved before the loop is
    the same and no mark has been taken back. *)
Definition grows (st st' : ScanState) : Prop :=
  link st' = link st
  /\ (ogImage st = true -> ogImage st' = true)
  /\ (headPassed st = true -> headPassed st' = true)
  /\ (hasFragment st = true -> hasFragment st' = true)
  /\ (hasCanonical st = true -> hasCanonical st' = true).

(** The canonical URL is there whenever the canonical mark is set. *)
Definition canonicalSet (st : ScanState) : Prop :=
  hasCanonical st = true -> canonicalUrl st <> None.

(** A tag none of the cases of the switch reads anything from but the
    position in the document. *)
Definition plainTag (token : Token) : bool :=
  negb ((Data token =? "link")%string || (Data token =? "meta")%string
        || (Data token =? "title")%string || (Data token =? "img")%string).



(** No mark that makes a turn end is set. *)
Definition quiet (st : ScanState) : Prop :=
  ogImage st = false /\ hasCanonical st = false /\ hasFragment st = false.

(** The tags of a page are all plain. *)
Definition plainPage (page : list Token) : bool :=
  forallb (fun token => negb (isTag (Type_ token)) || plainTag token) page.

(** The two halves of [getDocument]: what it does to the scraper before
    it asks the network, and the requests it makes for a scraper so
    prepared. *)
Definition prepare (lib : GoLib) (scraper : Scraper) : Scraper :=
  let scraper := setMaxRedirect scraper (wrapInt (MaxRedirect scraper - 1)) in
  let scraper :=
    if Str.Contains (url_String lib (Url scraper)) "#!"
    then toFragmentUrl_ lib scraper else scraper in
  if Str.Contains (url_String lib (Url scraper)) EscapedFragment
  then setEscapedFragmentUrl scraper (Some (Url scraper)) else scraper.

Definition headRequest (lib : GoLib) (scraper : Scraper) : Request :=
  {| Method := "HEAD"; RequestURI := getUrl lib scraper;
     HeaderUserAgent := userAgent scraper |}.

Definition getRequest (lib : GoLib) (scraper : Scraper) : Request :=
  {| Method := "GET"; RequestURI := getUrl lib scraper;
     HeaderUserAgent := userAgent scraper |}.

(** The number of GET requests in a log. *)
Definition gets (reqs : list Request) : nat :=
  List.length (filter (isMethod "GET") reqs).

Definition fetch (lib : GoLib) (net : Transport) (w : World) (s : Scraper)
  : World * Scraper * result Document :=
  match headProbe lib net w s with
  | (w, Some e) => (w, s, Err e)
  | (w, None) =>
    match http_NewRequest net "GET" (getUrl lib s) with
    | Some e => (w, s, Err e)
    | None =>
      match http_Do net w (getRequest lib s) with
      | Err e => ((w ++ [getRequest lib s])%list, s, Err e)
      | Panic m => ((w ++ [getRequest lib s])%list, s, Panic m)
      | Ok resp =>
        let s' :=
          if negb (url_String lib (RequestURL resp) =? getUrl lib s)%string
          then setUrl (setEscapedFragmentUrl s None) (RequestURL resp)
          else s in
        match convertUTF8 (MaxDocumentLength (Options s')) resp with
        | Ok b =>
          ((w ++ [getRequest lib s])%list, s',
           Ok {| Body := b;
                 Preview := emptyPreview (url_String lib (Url s'));
                 ResHeader := {| ContentType := HeaderContentType resp |} |})
        | Err e => ((w ++ [getRequest lib s])%list, s', Err e)
        | Panic m => ((w ++ [getRequest lib s])%list, s', Panic m)
        end
      end
    end
  end.

(** The shape of what one call of [getDocument] adds to the log: at most
    a HEAD request, sent only under a length limit, and then at most a GET
    request. *)
Inductive OneFetch (lib : GoLib) (scraper : Scraper) : list Request -> Prop :=
| FetchNone : OneFetch lib scraper []
| FetchHead : 0 < MaxDocumentLength (Options scraper) ->
              OneFetch lib scraper [headRequest lib scraper]
| FetchGet : OneFetch lib scraper [getRequest lib scraper]
| FetchBoth : 0 < MaxDocumentLength (Options scraper) ->
              OneFetch lib scraper [headRequest lib scraper; getRequest lib scraper].

(** [Pages.badQuery], as [url.Parse] returns it. *)
Definition badQueryUrl : URL := GoRef.mkURL "http" "" "ex.com" "/" false "q=%zz" "".

(** Two scrapers the network cannot tell apart: all but the spelling of
    the default User-Agent is the same. *)
Definition sameWire (s1 s2 : Scraper) : Prop :=
  Url s1 = Url s2
  /\ EscapedFragmentUrl s1 = EscapedFragmentUrl s2
  /\ MaxRedirect s1 = MaxRedirect s2
  /\ MaxDocumentLength (Options s1) = MaxDocumentLength (Options s2)
  /\ userAgent s1 = userAgent s2.

Definition sameOutcome (o1 o2 : ScanOutcome) : Prop :=
  match o1, o2 with
  | Refetch s1, Refetch s2 => sameWire s1 s2
  | Refetch _, _ | _, Refetch _ => False
  | _, _ => o1 = o2
  end.

Definition sameRun (r1 r2 : option (World * Scraper * result Document)) : Prop :=
  match r1, r2 with
  | Some (w1, s1, d1), Some (w2, s2, d2) => w1 = w2 /\ sameWire s1 s2 /\ d1 = d2
  | None, None => True
  | _, _ => False
  end.

(** A [meta] tag with two attributes and the given property. *)
Definition isMeta (lib : GoLib) (property : string) (token : Token) : Prop :=
  Data token = "meta" /\ List.length (Attr token) = 2%nat
  /\ cleanStr lib (metaProperty lib token) = property.

(** What the caller of [Scrape] sees of a run: the requests made and the
    result, not the scraper. *)
Definition forget (r : option (World * Scraper * result Document))
  : option (World * result Document) :=
  match r with
  | Some (w, _, d) => Some (w, d)
  | None => None
  end.

(** A [link] tag whose [href] attributes all are the given link. *)
Definition namesItself (lib : GoLib) (l : string) (token : Token) : bool :=
  forallb (fun attr => negb (cleanStr lib (Key attr) =? "href")%string
                       || (Val attr =? l)%string)
          (Attr token).

(** The [link] tags of a page all name the given link. *)
Definition selfCanonical (lib : GoLib) (l : string) (page : list Token) : Prop :=
  forall token, In token page -> Data token = "link" -> namesItself lib l token = true.

(* ================================================================== *)
(** * Properties *)

Unset Implicit Arguments.

(** ** Strings *)

Module StrFacts.

Lemma append_nil_r (s : string) : s ++ "" = s.
Proof. induction s as [|c s IH]; simpl; [reflexivity | now rewrite IH]. Qed.

Lemma append_assoc (a b c : string) : (a ++ b) ++ c = a ++ (b ++ c).
Proof. induction a as [|x a IH]; simpl; [reflexivity | now rewrite IH]. Qed.

Lemma prefix_append (p s : string) : String.prefix p (p ++ s) = true.
Proof.
  induction p as [|c p IH]; simpl.
  - now destruct s.
  - destruct (ascii_dec c c) as [_|n]; [exact IH | now elim n].
Qed.

Lemma drop_append (p s : string) : Str.drop (String.length p) (p ++ s) = s.
Proof. induction p as [|c p IH]; simpl; [reflexivity | exact IH]. Qed.

Lemma byteOf_range (c : ascii) : 0 <= Str.byteOf c < 256.
Proof.
  unfold Str.byteOf. pose proof (N_ascii_bounded c) as H. lia.
Qed.

End StrFacts.

(** ** The loop *)

Section LoopFacts.

Variable lib : GoLib.
Variable scraper : Scraper.

Lemma scanLoop_skip st token rest :
  Type_ token <> ErrorToken -> isTag (Type_ token) = false ->
  scanLoop lib scraper st (token :: rest) = scanLoop lib scraper st rest.
Proof.
  intros Hne Htag. simpl.
  destruct (Type_ token); simpl in *; congruence.
Qed.

Lemma scanLoop_tag st token rest :
  isTag (Type_ token) = true ->
  scanLoop lib scraper st (token :: rest) =
  match switchData lib scraper st token (lookahead token rest) with
  | Err e => Failed e
  | Panic m => Panicked m
  | Ok st1 =>
    match endOfTurn lib scraper st1 (remaining token rest) with
    | Some out => out
    | None => scanLoop lib scraper st1 (remaining token rest)
    end
  end.
Proof.
  intros Htag. simpl.
  destruct (Type_ token); simpl in *; try discriminate; reflexivity.
Qed.

(** Turns of the loop do not change what the scan returns. *)
Lemma Turns_scanLoop st t st' t' :
  Turns lib scraper st t st' t' ->
  scanLoop lib scraper st t = scanLoop lib scraper st' t'.
Proof.
  induction 1 as [| st token rest st' t' Hne Htag _ IH
                  | st token rest st1 st' t' Htag Hsw Hend _ IH].
  - reflexivity.
  - rewrite scanLoop_skip by assumption. exact IH.
  - rewrite scanLoop_tag by assumption. rewrite Hsw, Hend. exact IH.
Qed.

Lemma Turns_trans st t st1 t1 st2 t2 :
  Turns lib scraper st t st1 t1 -> Turns lib scraper st1 t1 st2 t2 ->
  Turns lib scraper st t st2 t2.
Proof.
  induction 1; intros Hnext; [assumption | |].
  - apply TurnsSkip; auto.
  - eapply TurnsTag; eauto.
Qed.

(** With no budget left the end of a turn only tests [enough]. *)
Lemma endOfTurn_no_budget st rest :
  MaxRedirect scraper <= 0 ->
  endOfTurn lib scraper st rest =
  if enough st then Some (Finished st rest) else None.
Proof.
  intros Hb. unfold endOfTurn.
  assert (Hgt : (MaxRedirect scraper >? 0) = false) by lia.
  rewrite Hgt, !andb_false_r. reflexivity.
Qed.

(** A re-fetch is asked for with a positive budget only, and the
    scraper it is asked for has the same budget. *)
Lemma toFragmentUrl__MaxRedirect s :
  MaxRedirect (toFragmentUrl_ lib s) = MaxRedirect s.
Proof.
  unfold toFragmentUrl_, toFragmentUrl.
  destruct (Url.QueryUnescape _) as [u| |]; simpl; try reflexivity.
  destruct (FindStringSubmatch u) as [[m0 m1]|];
    destruct (url_Parse lib _); reflexivity.
Qed.

Lemma endOfTurn_Refetch st rest s' :
  endOfTurn lib scraper st rest = Some (Refetch s') ->
  0 < MaxRedirect scraper /\ MaxRedirect s' = MaxRedirect scraper.
Proof.
  unfold endOfTurn.
  destruct (hasCanonical st && headPassed st && (MaxRedirect scraper >? 0)) eqn:Hc.
  - apply andb_prop in Hc as [_ Hc].
    destruct (canonicalUrl st) as [cu|]; [|discriminate].
    destruct (negb (IsAbs cu)).
    + destruct (url_Parse lib _); intros [= <-]; simpl; split; [lia | reflexivity].
    + intros [= <-]; simpl; split; [lia | reflexivity].
  - destruct (hasFragment st && headPassed st && (MaxRedirect scraper >? 0)) eqn:Hf.
    + apply andb_prop in Hf as [_ Hf].
      intros [= <-]. rewrite toFragmentUrl__MaxRedirect. split; [lia | reflexivity].
    + destruct (enough st); discriminate.
Qed.

Lemma remaining_length token rest :
  (List.length (remaining token rest) <= List.length rest)%nat.
Proof.
  unfold remaining, advance.
  destruct (isTitleStart token); [|lia].
  destruct rest as [|x r]; simpl; [lia|].
  destruct (Type_ x); simpl; lia.
Qed.

(** Induction on the loop: a property of scans that is kept by skipped
    tokens and by turns that go on holds of every scan. *)
Lemma scanLoop_ind' (P : ScanState -> Tokenizer -> Prop) :
  (forall st, P st []) ->
  (forall st token rest, Type_ token = ErrorToken -> P st (token :: rest)) ->
  (forall st token rest,
      Type_ token <> ErrorToken -> isTag (Type_ token) = false ->
      P st rest -> P st (token :: rest)) ->
  (forall st token rest,
      isTag (Type_ token) = true ->
      (forall st1, P st1 (remaining token rest)) ->
      P st (token :: rest)) ->
  forall t st, P st t.
Proof.
  intros Hnil Herr Hskip Htag t.
  assert (H : forall n t, (List.length t <= n)%nat -> forall st, P st t).
  { induction n as [|n IH]; intros t' Hlen st.
    - destruct t'; [apply Hnil | simpl in Hlen; lia].
    - destruct t' as [|token rest]; [apply Hnil|].
      simpl in Hlen.
      destruct (Type_ token) eqn:Hty.
      + apply Herr; assumption.
      + apply Hskip; [congruence | rewrite Hty; reflexivity | apply IH; lia].
      + apply Htag; [rewrite Hty; reflexivity|].
        intros st1. apply IH. pose proof (remaining_length token rest). lia.
      + apply Htag; [rewrite Hty; reflexivity|].
        intros st1. apply IH. pose proof (remaining_length token rest). lia.
      + apply Htag; [rewrite Hty; reflexivity|].
        intros st1. apply IH. pose proof (remaining_length token rest). lia.
      + apply Hskip; [congruence | rewrite Hty; reflexivity | apply IH; lia].
      + apply Hskip; [congruence | rewrite Hty; reflexivity | apply IH; lia]. }
  intros st. apply (H (List.length t)). lia.
Qed.

Lemma scanLoop_error st token rest :
  Type_ token = ErrorToken ->
  scanLoop lib scraper st (token :: rest) = Finished st [].
Proof. intros H. simpl. rewrite H. reflexivity. Qed.

Lemma scanLoop_Refetch t st s' :
  scanLoop lib scraper st t = Refetch s' ->
  0 < MaxRedirect scraper /\ MaxRedirect s' = MaxRedirect scraper.
Proof.
  revert s'. pattern st, t. revert st. revert t. apply scanLoop_ind'.
  - intros st s' H. discriminate.
  - intros st token rest Hty s' H. rewrite scanLoop_error in H by assumption.
    discriminate.
  - intros st token rest Hne Htag IH s' H.
    rewrite scanLoop_skip in H by assumption. auto.
  - intros st token rest Htag IH s' H.
    rewrite scanLoop_tag in H by assumption.
    destruct (switchData lib scraper st token _) as [st1| |]; try discriminate.
    destruct (endOfTurn lib scraper st1 _) as [out|] eqn:He.
    + subst out. eapply endOfTurn_Refetch; eassumption.
    + eauto.
Qed.

(** Without budget a scan fetches nothing. *)
Lemma scanLoop_no_budget t st :
  MaxRedirect scraper <= 0 ->
  isRefetch (scanLoop lib scraper st t) = false.
Proof.
  intros Hb. destruct (scanLoop lib scraper st t) eqn:H; try reflexivity.
  apply scanLoop_Refetch in H. lia.
Qed.

End LoopFacts.

(** ** Fetching and the budget *)

Lemma wrapInt_le (x : Z) : 0 <= x -> wrapInt x <= x.
Proof.
  intros Hx. unfold wrapInt.
  assert (H : (x + 2 ^ 63) mod 2 ^ 64 <= x + 2 ^ 63) by (apply Z.mod_le; lia).
  lia.
Qed.

Lemma wrapInt_id (x : Z) : minInt <= x <= maxInt -> wrapInt x = x.
Proof.
  unfold wrapInt, minInt, maxInt. intros Hx.
  rewrite Z.mod_small by lia. lia.
Qed.

Section FetchFacts.

Variable lib : GoLib.
Variable net : Transport.

(** [getDocument] takes one unit of the budget, whatever else happens. *)
Lemma getDocument_MaxRedirect w scraper :
  MaxRedirect (snd (fst (getDocument lib net w scraper))) =
  wrapInt (MaxRedirect scraper - 1).
Proof.
  unfold getDocument.
  repeat match goal with
         | |- context [match ?x with _ => _ end] => destruct x; simpl
         end;
    rewrite ?toFragmentUrl__MaxRedirect; reflexivity.
Qed.

(** Every scan after the first follows a fetch made with a positive
    budget: [scans] of them are enough. *)
Lemma parseDocument_total fuel : forall w scraper doc,
  (Z.to_nat (MaxRedirect scraper) < fuel)%nat ->
  exists out, parseDocument lib net fuel w scraper doc = Some out.
Proof.
  induction fuel as [|fuel IH]; intros w scraper doc Hfuel; [lia|].
  simpl.
  destruct (scanLoop lib scraper _ _) as [st rest|e|m|s'] eqn:Hscan; eauto.
  apply scanLoop_Refetch in Hscan as [Hpos Hsame].
  pose proof (getDocument_MaxRedirect w s') as Hget.
  destruct (getDocument lib net w s') as [[w1 s1] [fdoc|e|m]]; simpl in Hget; eauto.
  apply IH. rewrite Hget, Hsame.
  pose proof (wrapInt_le (MaxRedirect scraper - 1)). lia.
Qed.

(** A scan and all that follows it never raise the budget. *)
Lemma parseDocument_budget fuel : forall w scraper doc w' scraper' r,
  parseDocument lib net fuel w scraper doc = Some (w', scraper', r) ->
  MaxRedirect scraper' <= MaxRedirect scraper.
Proof.
  induction fuel as [|fuel IH]; intros w scraper doc w' scraper' r H; [discriminate|].
  simpl in H.
  destruct (scanLoop lib scraper _ _) as [st rest|e|m|s'] eqn:Hscan;
    try (injection H as <- <- <-; lia).
  apply scanLoop_Refetch in Hscan as [Hpos Hsame].
  pose proof (getDocument_MaxRedirect w s') as Hget.
  pose proof (wrapInt_le (MaxRedirect scraper - 1)) as Hle.
  destruct (getDocument lib net w s') as [[w1 s1] [fdoc|e|m]]; simpl in Hget;
    rewrite Hsame in Hget.
  - apply IH in H. lia.
  - injection H as <- <- <-. lia.
  - injection H as <- <- <-. lia.
Qed.

(** Without budget [parseDocument] is the scan of the document it was
    given: the network is not asked and the scraper is not touched. *)
Lemma parseDocument_no_budget fuel w scraper doc :
  MaxRedirect scraper <= 0 ->
  parseDocument lib net (S fuel) w scraper doc =
  Some (w, scraper,
        scanResult doc (scanLoop lib scraper (initScan scraper doc) (Body doc))).
Proof.
  intros Hb. simpl.
  pose proof (scanLoop_no_budget lib scraper (Body doc) (initScan scraper doc) Hb) as Hno.
  destruct (scanLoop lib scraper _ _); simpl in *; [reflexivity.. | discriminate].
Qed.

End FetchFacts.

(* ================================================================== *)
(** * The claims *)

(** ** C3: an exhausted budget *)

(** A scan that asks for no fetch is all [parseDocument] does. *)
Lemma parseDocument_no_refetch lib net fuel w scraper doc :
  isRefetch (scanLoop lib scraper (initScan scraper doc) (Body doc)) = false ->
  parseDocument lib net (S fuel) w scraper doc =
  Some (w, scraper,
        scanResult doc (scanLoop lib scraper (initScan scraper doc) (Body doc))).
Proof.
  intros Hno. cbn [parseDocument].
  destruct (scanLoop lib scraper _ _); simpl in *; [reflexivity.. | discriminate].
Qed.

(** C3 as stated fails in its last part: the budget is a 64-bit integer
    and [getDocument] lowers it by one without a test, so at the smallest
    integer the budget it leaves is the largest one.  This is so for
    [getDocument], for the exported [GetDocument] and for a scrape. *)
Lemma C3_budget_wraps_at_min_int :
  MaxRedirect (snd (fst (getDocument GoRef.lib (GoRef.serve Pages.titled) []
                                     (Pages.session minInt)))) = maxInt
  /\ MaxRedirect (snd (fst (GetDocument GoRef.lib (GoRef.serve Pages.titled) []
                                        (Pages.session minInt)))) = maxInt
  /\ (exists w' scraper' r,
         Scrape_ GoRef.lib (GoRef.serve Pages.titled) [] (Pages.session minInt)
         = Some (w', scraper', r)
         /\ MaxRedirect scraper' = maxInt)
  /\ MaxRedirect (Pages.session minInt) < maxInt.
Proof.
  split; [vm_compute; reflexivity|].
  split; [vm_compute; reflexivity|].
  split; [|vm_compute; reflexivity].
  unfold Scrape_.
  destruct (getDocument GoRef.lib (GoRef.serve Pages.titled) []
                        (Pages.session minInt)) as [[w1 s1] r1] eqn:Hg.
  vm_compute in Hg. injection Hg as <- <- <-.
  unfold ParseDocument, scans.
  rewrite parseDocument_no_refetch by (vm_compute; reflexivity).
  eexists. eexists. eexists. split; [reflexivity|]. vm_compute. reflexivity.
Qed.

(** C3, amended.  When the budget the scan starts with is not positive, the
    end of a turn never asks for a fetch, whatever is pending: it only
    tests whether enough was collected.  The scan of the document
    therefore asks for no fetch, and [ParseDocument] returns the result of
    scanning the document it was given, with the same requests made and
    the same scraper.  For any budget, [ParseDocument] returns and the
    budget it leaves is not larger than the one it started with.  A scrape
    that starts with a budget of one or less, and above the smallest
    integer, makes its one call of [getDocument], which takes one unit,
    and returns the scan of what that call brought.  And for every budget
    that is an [int] above the smallest one, [getDocument] leaves the
    budget less one, and a scrape leaves a budget that is smaller than the
    one it started with: the budget is raised by no operation but the
    decrement at the smallest integer. *)
Theorem C3_no_budget_no_refetch :
  forall (lib : GoLib) (net : Transport) (w : World) (scraper : Scraper)
         (doc : Document),
    (MaxRedirect scraper <= 0 ->
     (forall st rest,
         endOfTurn lib scraper st rest =
         if enough st then Some (Finished st rest) else None)
     /\ isRefetch (scanLoop lib scraper (initScan scraper doc) (Body doc)) = false
     /\ ParseDocument lib net w scraper doc =
        Some (w, scraper,
              scanResult doc (scanLoop lib scraper (initScan scraper doc) (Body doc))))
    /\ (exists w' scraper' r,
          ParseDocument lib net w scraper doc = Some (w', scraper', r)
          /\ MaxRedirect scraper' <= MaxRedirect scraper)
    /\ (minInt < MaxRedirect scraper <= 1 ->
        forall w1 scraper1 r,
          getDocument lib net w scraper = (w1, scraper1, r) ->
          MaxRedirect scraper1 = MaxRedirect scraper - 1
          /\ Scrape_ lib net w scraper =
             Some (w1, scraper1,
                   match r with
                   | Ok fetched =>
                     scanResult fetched
                       (scanLoop lib scraper1 (initScan scraper1 fetched) (Body fetched))
                   | Err e => Err e
                   | Panic m => Panic m
                   end))
    /\ (minInt < MaxRedirect scraper <= maxInt ->
        MaxRedirect (snd (fst (getDocument lib net w scraper)))
        = MaxRedirect scraper - 1
        /\ MaxRedirect (snd (fst (GetDocument lib net w scraper)))
           = MaxRedirect scraper - 1
        /\ forall w' scraper' r,
             Scrape_ lib net w scraper = Some (w', scraper', r) ->
             MaxRedirect scraper' < MaxRedirect scraper).
Proof.
  intros lib net w scraper doc. split; [|split; [|split]].
  - intros Hb. split; [|split].
    + intros st rest. apply endOfTurn_no_budget. exact Hb.
    + apply scanLoop_no_budget. exact Hb.
    + unfold ParseDocument, scans. apply parseDocument_no_budget. exact Hb.
  - destruct (parseDocument_total lib net (scans scraper) w scraper doc)
      as [[[w' scraper'] r] H].
    + unfold scans. lia.
    + exists w', scraper', r. split; [exact H|].
      eapply parseDocument_budget. exact H.
  - intros Hb w1 scraper1 r Hget.
    pose proof (getDocument_MaxRedirect lib net w scraper) as Hdec.
    rewrite Hget in Hdec. simpl in Hdec.
    rewrite wrapInt_id in Hdec by (unfold minInt, maxInt in *; lia).
    split; [exact Hdec|].
    unfold Scrape_. rewrite Hget.
    destruct r as [fetched|e|m]; try reflexivity.
    unfold ParseDocument, scans. apply parseDocument_no_budget. lia.
  - intros Hb.
    pose proof (getDocument_MaxRedirect lib net w scraper) as Hdec.
    rewrite wrapInt_id in Hdec by (unfold minInt, maxInt in *; lia).
    split; [exact Hdec|]. split; [exact Hdec|].
    intros w' scraper' r H. unfold Scrape_ in H.
    destruct (getDocument lib net w scraper) as [[w1 s1] [fetched|e|m]];
      simpl in Hdec.
    + unfold ParseDocument in H. apply parseDocument_budget in H. lia.
    + injection H as <- <- <-. lia.
    + injection H as <- <- <-. lia.
Qed.

Lemma C3_witness :
  MaxRedirect (Pages.session 0) <= 0
  /\ ParseDocument GoRef.lib (GoRef.serve Pages.canonicalPage) []
                   (Pages.session 0) (Pages.fetched Pages.canonicalPage)
     = Some ([], Pages.session 0,
             scanResult (Pages.fetched Pages.canonicalPage)
               (scanLoop GoRef.lib (Pages.session 0)
                  (initScan (Pages.session 0) (Pages.fetched Pages.canonicalPage))
                  Pages.canonicalPage))
  /\ minInt < MaxRedirect (Pages.session 0) <= maxInt
  /\ MaxRedirect (snd (fst (getDocument GoRef.lib (GoRef.serve Pages.canonicalPage)
                                        [] (Pages.session 0))))
     = MaxRedirect (Pages.session 0) - 1.
Proof.
  assert (Hb : MaxRedirect (Pages.session 0) <= 0) by (simpl; lia).
  assert (Hi : minInt < MaxRedirect (Pages.session 0) <= maxInt)
    by (simpl; unfold minInt, maxInt; lia).
  split; [exact Hb|].
  split.
  - exact (proj2 (proj2 (proj1 (C3_no_budget_no_refetch GoRef.lib
                                  (GoRef.serve Pages.canonicalPage) []
                                  (Pages.session 0)
                                  (Pages.fetched Pages.canonicalPage)) Hb))).
  - split; [exact Hi|].
    exact (proj1 (proj2 (proj2 (proj2 (C3_no_budget_no_refetch GoRef.lib
                                         (GoRef.serve Pages.canonicalPage) []
                                         (Pages.session 0)
                                         (Pages.fetched Pages.canonicalPage))))
                   Hi)).
Defined.

(** ** The switch, case by case *)

Section SwitchFacts.

Variable lib : GoLib.
Variable scraper : Scraper.

Lemma switchData_meta st token next :
  Data token = "meta" ->
  switchData lib scraper st token next = caseMeta lib scraper st token.
Proof. intros H. unfold switchData. rewrite H. reflexivity. Qed.


Lemma switchData_title st token next :
  Data token = "title" -> Type_ token = StartTagToken ->
  switchData lib scraper st token next = Ok (caseTitle st next).
Proof. intros H Hty. unfold switchData. rewrite H, Hty. reflexivity. Qed.

Lemma isTitleStart_true token :
  Data token = "title" -> Type_ token = StartTagToken ->
  isTitleStart token = true.
Proof. intros H Hty. unfold isTitleStart. rewrite H, Hty. reflexivity. Qed.

Lemma caseMeta_ogTitle st token :
  List.length (Attr token) = 2%nat ->
  cleanStr lib (metaProperty lib token) = "og:title" ->
  caseMeta lib scraper st token =
  Ok (withPreview (marked lib scraper st token)
                  (setTitle (preview (marked lib scraper st token)) (metaContent lib token))).
Proof.
  intros Hlen Hprop. unfold caseMeta. rewrite Hlen, Hprop. reflexivity.
Qed.

Lemma caseMeta_ogImage st token u :
  List.length (Attr token) = 2%nat ->
  cleanStr lib (metaProperty lib token) = "og:image" ->
  url_Parse lib (metaContent lib token) = Ok u ->
  caseMeta lib scraper st token =
  Ok (withPreview (setOgImage (marked lib scraper st token))
        (setImages (preview (marked lib scraper st token))
           [url_String lib
              (if negb (IsAbs u)
               then setScheme (setHost u (Host (Url scraper))) (Scheme (Url scraper))
               else u)])).
Proof.
  intros Hlen Hprop Hparse. unfold caseMeta. rewrite Hlen, Hprop. simpl.
  rewrite Hparse. reflexivity.
Qed.

Lemma caseTitle_set st next :
  Title (preview st) = "" -> Title (preview (caseTitle st next)) = Data next.
Proof. intros H. unfold caseTitle. rewrite H. reflexivity. Qed.

Lemma caseTitle_keep st next :
  Title (preview st) <> "" -> caseTitle st next = st.
Proof.
  intros H. unfold caseTitle. destruct (Title (preview st)); [congruence | reflexivity].
Qed.

Lemma enough_true st :
  Title (preview st) <> "" -> Description (preview st) <> "" ->
  ogImage st = true -> headPassed st = true -> enough st = true.
Proof.
  intros Ht Hd Ho Hh. unfold enough. rewrite Ho, Hh.
  destruct (Title (preview st)); [congruence|].
  destruct (Description (preview st)); [congruence|]. reflexivity.
Qed.

Lemma endOfTurn_enough st rest :
  hasCanonical st = false -> hasFragment st = false -> enough st = true ->
  endOfTurn lib scraper st rest = Some (Finished st rest).
Proof.
  intros Hc Hf He. unfold endOfTurn. rewrite Hc, Hf, He. reflexivity.
Qed.

End SwitchFacts.

(** ** C10: the token after a [title] start tag *)

(** C10.  A [title] start tag makes the loop read the token that follows,
    whatever its kind, and that token is not dispatched: the turn ends on
    the state [caseTitle] builds from it and the scan goes on with the
    tokens after it.  If the title was empty it becomes the [Data] of that
    token, otherwise nothing changes; so when the token is the end tag of
    an empty [title] element the title becomes the string ["title"]. *)
Theorem C10_title_takes_next_token :
  forall (lib : GoLib) (scraper : Scraper) (st : ScanState)
         (token next : Token) (rest : list Token),
    Data token = "title" -> Type_ token = StartTagToken ->
    Type_ next <> ErrorToken ->
    scanLoop lib scraper st (token :: next :: rest) =
      match endOfTurn lib scraper (caseTitle st next) rest with
      | Some out => out
      | None => scanLoop lib scraper (caseTitle st next) rest
      end
    /\ (Title (preview st) = "" ->
        Title (preview (caseTitle st next)) = Data next)
    /\ (Title (preview st) = "" -> Type_ next = EndTagToken -> Data next = "title" ->
        Title (preview (caseTitle st next)) = "title")
    /\ (Title (preview st) <> "" -> caseTitle st next = st).
Proof.
  intros lib scraper st token next rest Hd Hty Hne.
  split; [|split; [|split]].
  - rewrite scanLoop_tag by (rewrite Hty; reflexivity).
    unfold lookahead, remaining. rewrite (isTitleStart_true token Hd Hty).
    rewrite (switchData_title lib scraper st token _ Hd Hty).
    assert (Hn : Next (next :: rest) = (next, rest)).
    { unfold Next. destruct (Type_ next); congruence. }
    assert (Ha : advance (next :: rest) = rest).
    { unfold advance. destruct (Type_ next); congruence. }
    rewrite Hn, Ha. reflexivity.
  - apply caseTitle_set.
  - intros He _ Hdn. rewrite caseTitle_set by exact He. exact Hdn.
  - apply caseTitle_keep.
Qed.

Lemma C10_witness :
  Pages.previewOf 0 Pages.emptyTitle =
  Some {| Icon := "https://ex.com/favicon.ico"; Name := "ex.com";
          Title := "title"; Description := ""; PreviewType := "";
          Images := []; Link := "https://ex.com/p" |}
  /\ Title (preview (caseTitle (initScan (Pages.session 0) (Pages.fetched Pages.emptyTitle))
                               (GoRef.close "title"))) = "title".
Proof.
  split; [vm_compute; reflexivity|].
  refine (proj1 (proj2 (proj2
    (C10_title_takes_next_token GoRef.lib (Pages.session 0)
       (initScan (Pages.session 0) (Pages.fetched Pages.emptyTitle))
       (GoRef.start "title" []) (GoRef.close "title") [GoRef.close "head"]
       _ _ _))) _ _ _).
  - reflexivity.
  - reflexivity.
  - simpl. discriminate.
  - reflexivity.
  - reflexivity.
  - reflexivity.
Defined.

(** ** C1: [title] against [og:title] *)

(** C1 as stated fails: a [title] element read first does not keep the
    title against an [og:title] that comes later in the same scan. *)
Lemma C1_og_title_replaces_title :
  option_map Title (Pages.previewOf 0 Pages.titleThenOg) = Some "T"
  /\ option_map Title (Pages.previewOf 0 Pages.titleThenOg) <> Some "Hello".
Proof. split; [vm_compute; reflexivity | vm_compute; discriminate]. Qed.

(** C1, amended.  The two writers of the title are not treated alike.  A
    [title] tag leaves a title that is already set as it is, and a [title]
    start tag fills an empty title with the data of the next token.  An
    [og:title] meta tag with two attributes replaces the title with its
    content, whatever the title was. *)
Theorem C1_title_writers :
  forall (lib : GoLib) (scraper : Scraper) (st : ScanState) (token next : Token),
    (Data token = "title" -> Title (preview st) <> "" ->
     switchData lib scraper st token next = Ok st)
    /\ (Data token = "title" -> Type_ token = StartTagToken ->
        Title (preview st) = "" ->
        exists st1, switchData lib scraper st token next = Ok st1
                    /\ Title (preview st1) = Data next)
    /\ (Data token = "meta" -> List.length (Attr token) = 2%nat ->
        cleanStr lib (metaProperty lib token) = "og:title" ->
        exists st1, switchData lib scraper st token next = Ok st1
                    /\ Title (preview st1) = metaContent lib token).
Proof.
  intros lib scraper st token next. split; [|split].
  - intros Hd Ht. unfold switchData. rewrite Hd. simpl.
    rewrite (caseTitle_keep st next Ht). destruct (TokenType_eqb _ _); reflexivity.
  - intros Hd Hty He. exists (caseTitle st next). split.
    + apply switchData_title; assumption.
    + apply caseTitle_set. exact He.
  - intros Hd Hlen Hprop. eexists. split.
    + rewrite switchData_meta by exact Hd.
      apply caseMeta_ogTitle; assumption.
    + reflexivity.
Qed.

Lemma C1_witness :
  exists st1,
    switchData GoRef.lib (Pages.session 0)
      (caseTitle (initScan (Pages.session 0) (Pages.fetched Pages.titleThenOg))
                 (GoRef.text "Hello"))
      (Pages.meta "og:title" "T") (Pages.meta "og:title" "T") = Ok st1
    /\ Title (preview st1) = "T".
Proof.
  refine (proj2 (proj2
    (C1_title_writers GoRef.lib (Pages.session 0)
       (caseTitle (initScan (Pages.session 0) (Pages.fetched Pages.titleThenOg))
                  (GoRef.text "Hello"))
       (Pages.meta "og:title" "T") (Pages.meta "og:title" "T"))) _ _ _).
  - reflexivity.
  - reflexivity.
  - vm_compute. reflexivity.
Defined.

(** ** C2: stopping early *)

(** C2 as stated fails in its example: the [og:image] value is parsed,
    completed with the scheme and host of the page when it is relative,
    and printed back, so the image list of the example is not [["I"]]. *)
Lemma C2_og_image_is_resolved :
  option_map Images (Pages.previewOf 3 (Pages.ogHead "I")) = Some ["https://ex.com/I"]
  /\ option_map Images (Pages.previewOf 3 (Pages.ogHead "I")) <> Some ["I"].
Proof. split; [vm_compute; reflexivity | vm_compute; discriminate]. Qed.

(** C2, amended.  Let a scan come to a tag token and let the switch leave
    a state in which the head is passed, no redirect is pending, title and
    description are not empty and [og:image] was seen.  Then the scan
    returns that state at once, with the tokens after it unread, and
    [ParseDocument] returns its preview without a request.  The image an
    [og:image] meta tag leaves in the list is its content parsed, given the
    scheme and host of the page when it has no scheme, and printed; with
    [og:title] "T", [og:description] "D" and [og:image] "I" in the head of a
    page at https://ex.com/p the preview has the title "T", the description
    "D" and the one image "https://ex.com/I", and nothing of the body. *)
Theorem C2_early_stop :
  (forall (lib : GoLib) (net : Transport) (w : World) (scraper : Scraper)
          (doc : Document) (st : ScanState) (token : Token) (rest : list Token)
          (st1 : ScanState),
      Turns lib scraper (initScan scraper doc) (Body doc) st (token :: rest) ->
      isTag (Type_ token) = true ->
      switchData lib scraper st token (lookahead token rest) = Ok st1 ->
      headPassed st1 = true ->
      hasCanonical st1 = false -> hasFragment st1 = false ->
      Title (preview st1) <> "" -> Description (preview st1) <> "" ->
      ogImage st1 = true ->
      scanLoop lib scraper (initScan scraper doc) (Body doc)
        = Finished st1 (remaining token rest)
      /\ ParseDocument lib net w scraper doc
        = Some (w, scraper, Ok (setPreview doc (preview st1))))
  /\ (forall (lib : GoLib) (scraper : Scraper) (st : ScanState)
             (token next : Token) (u : URL),
         Data token = "meta" -> List.length (Attr token) = 2%nat ->
         cleanStr lib (metaProperty lib token) = "og:image" ->
         url_Parse lib (metaContent lib token) = Ok u ->
         exists st1,
           switchData lib scraper st token next = Ok st1
           /\ ogImage st1 = true
           /\ Images (preview st1) =
              [url_String lib
                 (if IsAbs u then u
                  else setScheme (setHost u (Host (Url scraper)))
                                 (Scheme (Url scraper)))])
  /\ Pages.previewOf 3 (Pages.ogHead "I") =
     Some {| Icon := "https://ex.com/favicon.ico"; Name := "ex.com";
             Title := "T"; Description := "D"; PreviewType := "";
             Images := ["https://ex.com/I"]; Link := "https://ex.com/p" |}.
Proof.
  split; [|split].
  - intros lib net w scraper doc st token rest st1
           Hturns Htag Hsw Hhead Hcan Hfrag Ht Hd Hog.
    assert (Hscan : scanLoop lib scraper (initScan scraper doc) (Body doc)
                    = Finished st1 (remaining token rest)).
    { rewrite (Turns_scanLoop lib scraper _ _ _ _ Hturns).
      rewrite scanLoop_tag by exact Htag. rewrite Hsw.
      rewrite endOfTurn_enough; auto using enough_true. }
    split; [exact Hscan|].
    unfold ParseDocument, scans. simpl. rewrite Hscan. reflexivity.
  - intros lib scraper st token next u Hd Hlen Hprop Hparse. eexists. split.
    + rewrite switchData_meta by exact Hd.
      apply caseMeta_ogImage; eassumption.
    + split; [reflexivity|]. simpl. destruct (IsAbs u); reflexivity.
  - vm_compute. reflexivity.
Qed.

Lemma C2_witness :
  ParseDocument GoRef.lib (GoRef.serve (Pages.ogHead "https://cdn.x/i.png")) []
    (Pages.session 3) (Pages.fetched (Pages.ogHead "https://cdn.x/i.png"))
  = Some ([], Pages.session 3,
          Ok (setPreview (Pages.fetched (Pages.ogHead "https://cdn.x/i.png"))
                {| Icon := "https://ex.com/favicon.ico"; Name := "ex.com";
                   Title := "T"; Description := "D"; PreviewType := "";
                   Images := ["https://cdn.x/i.png"];
                   Link := "https://ex.com/p" |})).
Proof.
  edestruct (proj1 C2_early_stop GoRef.lib
               (GoRef.serve (Pages.ogHead "https://cdn.x/i.png")) []
               (Pages.session 3)
               (Pages.fetched (Pages.ogHead "https://cdn.x/i.png")))
    as [_ H].
  - eapply TurnsTag; [reflexivity | vm_compute; reflexivity | vm_compute; reflexivity |].
    eapply TurnsTag; [reflexivity | vm_compute; reflexivity | vm_compute; reflexivity |].
    eapply TurnsTag; [reflexivity | vm_compute; reflexivity | vm_compute; reflexivity |].
    eapply TurnsTag; [reflexivity | vm_compute; reflexivity | vm_compute; reflexivity |].
    apply TurnsHere.
  - reflexivity.
  - vm_compute. reflexivity.
  - reflexivity.
  - reflexivity.
  - reflexivity.
  - simpl. discriminate.
  - simpl. discriminate.
  - reflexivity.
  - exact H.
Defined.

(** ** Images and icons *)

Section ImgFacts.

Variable lib : GoLib.
Variable scraper : Scraper.

(** [string(b) == "/"] holds for the byte of the slash only. *)
Lemma encode_byte_slash (c : ascii) :
  (Utf8.encode (Str.byteOf c) =? "/")%string = true <-> c = "/"%char.
Proof.
  split.
  - destruct c as [[] [] [] [] [] [] [] []]; vm_compute; intros H;
      first [discriminate H | reflexivity].
  - intros ->. reflexivity.
Qed.

Lemma imgSrc_absolute val u :
  url_Parse lib val = Ok u -> IsAbs u = true ->
  imgSrc lib scraper val = Ok val.
Proof. intros Hp Ha. unfold imgSrc. rewrite Hp. simpl. rewrite Ha. reflexivity. Qed.

Lemma imgSrc_rooted val u p :
  url_Parse lib val = Ok u -> IsAbs u = false -> Path u = String "/" p ->
  imgSrc lib scraper val =
  Ok (Scheme (Url scraper) ++ "://" ++ Host (Url scraper) ++ Path u).
Proof.
  intros Hp Ha Hpath. unfold imgSrc. rewrite Hp. simpl. rewrite Ha, Hpath. reflexivity.
Qed.

Lemma imgSrc_rootless val u c p :
  url_Parse lib val = Ok u -> IsAbs u = false -> Path u = String c p ->
  c <> "/"%char ->
  imgSrc lib scraper val =
  Ok (Scheme (Url scraper) ++ "://" ++ Host (Url scraper) ++ "/" ++ Path u).
Proof.
  intros Hp Ha Hpath Hc. unfold imgSrc. rewrite Hp. simpl. rewrite Ha, Hpath. simpl.
  destruct (Utf8.encode (Str.byteOf c) =? "/")%string eqn:He.
  - apply encode_byte_slash in He. contradiction.
  - reflexivity.
Qed.

(** A reference without a scheme and with an empty path stops the
    program: its first byte is read without a test. *)
Lemma imgSrc_empty_path val u :
  url_Parse lib val = Ok u -> IsAbs u = false -> Path u = "" ->
  imgSrc lib scraper val = Panic indexOutOfRange.
Proof.
  intros Hp Ha Hpath. unfold imgSrc. rewrite Hp. simpl. rewrite Ha, Hpath. reflexivity.
Qed.



(** The icon a [link] tag leaves is one of its attribute values as it
    was written, when it is not the icon there was before. *)
Lemma linkAttrs_icon_verbatim attrs : forall v st st1,
  linkAttrs lib attrs v st = Ok st1 ->
  Icon (preview st1) = Icon (preview st)
  \/ Icon (preview st1) = href v
  \/ exists attr, In attr attrs /\ Icon (preview st1) = Val attr.
Proof.
  induction attrs as [|attr attrs IH]; intros v st st1 H; simpl in H.
  - injection H as <-. auto.
  - set (h := if (cleanStr lib (Key attr) =? "href")%string
              then Val attr else href v) in *.
    assert (Hh : h = href v \/ h = Val attr).
    { unfold h. destruct (_ =? _)%string; auto. }
    assert (Hfin : forall st',
               Icon (preview st') = Icon (preview st) \/ Icon (preview st') = h ->
               linkAttrs lib attrs
                 {| canonical :=
                      if (cleanStr lib (Key attr) =? "rel")%string
                         && (cleanStr lib (Val attr) =? "canonical")%string
                      then true else canonical v;
                    hasIcon :=
                      if (cleanStr lib (Key attr) =? "rel")%string
                         && Str.Contains (cleanStr lib (Val attr)) "icon"
                      then true else hasIcon v;
                    href := h |} st' = Ok st1 ->
               Icon (preview st1) = Icon (preview st)
               \/ Icon (preview st1) = href v
               \/ exists a, In a (attr :: attrs) /\ Icon (preview st1) = Val a).
    { intros st' Hst' Hrun. apply IH in Hrun. simpl in Hrun.
      assert (Hcase : Icon (preview st1) = Icon (preview st)
                      \/ Icon (preview st1) = h
                      \/ exists a, In a attrs /\ Icon (preview st1) = Val a).
      { destruct Hrun as [Hrun | [Hrun | Hrun]]; auto.
        rewrite Hrun. destruct Hst' as [-> | ->]; auto. }
      destruct Hcase as [Hc | [Hc | (a & Ha & Hc)]].
      - left. exact Hc.
      - destruct Hh as [Hh | Hh]; rewrite Hh in Hc.
        + right. left. exact Hc.
        + right. right. exists attr. split; [left; reflexivity | exact Hc].
      - right. right. exists a. split; [right; exact Ha | exact Hc]. }
    destruct ((Str.len h >? 0) && _ && negb (link st =? h)%string).
    + destruct (url_Parse lib h) as [u| |]; simpl in H; try discriminate.
      destruct ((Str.len h >? 0) && _) in H;
        (eapply Hfin; [|exact H]); simpl; auto.
    + simpl in H.
      destruct ((Str.len h >? 0) && _) in H;
        (eapply Hfin; [|exact H]); simpl; auto.
Qed.

End ImgFacts.

(** ** C4: [img] tags after [og:image] *)




(** ** C5: the first byte of the path of an image *)

(** C5.  The code does not have the property: on an [img] tag whose [src]
    is [?q=1], [#frag] or empty, the reference parses, has no scheme and
    has an empty path, and reading its first byte stops the program with
    an index out of range. *)
Theorem C5_img_empty_path_panics :
  ParseDocument GoRef.lib (GoRef.serve (Pages.imgPage "?q=1")) []
                (Pages.session 0) (Pages.fetched (Pages.imgPage "?q=1"))
  = Some ([], Pages.session 0, Panic indexOutOfRange)
  /\ ParseDocument GoRef.lib (GoRef.serve (Pages.imgPage "#frag")) []
                   (Pages.session 0) (Pages.fetched (Pages.imgPage "#frag"))
     = Some ([], Pages.session 0, Panic indexOutOfRange)
  /\ ParseDocument GoRef.lib (GoRef.serve (Pages.imgPage "")) []
                   (Pages.session 0) (Pages.fetched (Pages.imgPage ""))
     = Some ([], Pages.session 0, Panic indexOutOfRange).
Proof. repeat split; vm_compute; reflexivity. Qed.

(** ** C8: the icon *)

(** C8.  The code does not resolve the icon: [<link rel="shortcut icon"
    href="/fav.png">] on a page at https://ex.com/p leaves the reference
    as it was written in the [Icon] field. *)
Theorem C8_icon_left_relative :
  option_map Icon (Pages.previewOf 0 Pages.iconPage) = Some "/fav.png"
  /\ option_map Icon (Pages.previewOf 0 Pages.iconPage)
     <> Some "https://ex.com/fav.png".
Proof. split; [vm_compute; reflexivity | vm_compute; discriminate]. Qed.

(** ** C9: the URL of an image *)

(** C9.  For a [src] that parses, the code does what the claim says when
    the reference has a scheme and when its path is not empty: the value
    as written, scheme://host and the path when the path starts with a
    slash, scheme://host/ and the path otherwise.  A reference without a
    scheme whose path is empty, which the claim sends to scheme://host/,
    stops the program instead. *)
Theorem C9_img_resolution_and_empty_path :
  (forall (lib : GoLib) (scraper : Scraper) (val : string) (u : URL),
      url_Parse lib val = Ok u ->
      (IsAbs u = true -> imgSrc lib scraper val = Ok val)
      /\ (IsAbs u = false -> forall p, Path u = String "/" p ->
          imgSrc lib scraper val =
          Ok (Scheme (Url scraper) ++ "://" ++ Host (Url scraper) ++ Path u))
      /\ (IsAbs u = false -> forall c p, Path u = String c p -> c <> "/"%char ->
          imgSrc lib scraper val =
          Ok (Scheme (Url scraper) ++ "://" ++ Host (Url scraper) ++ "/" ++ Path u))
      /\ (IsAbs u = false -> Path u = "" ->
          imgSrc lib scraper val = Panic indexOutOfRange))
  /\ option_map Images (Pages.previewOf 0 (Pages.imgPage "/a.png"))
     = Some ["https://ex.com/a.png"]
  /\ option_map Images (Pages.previewOf 0 (Pages.imgPage "https://cdn.x/y.png"))
     = Some ["https://cdn.x/y.png"]
  /\ option_map Images (Pages.previewOf 0 (Pages.imgPage "b.png"))
     = Some ["https://ex.com/b.png"]
  /\ ParseDocument GoRef.lib (GoRef.serve (Pages.imgPage "")) []
                   (Pages.session 0) (Pages.fetched (Pages.imgPage ""))
     = Some ([], Pages.session 0, Panic indexOutOfRange).
Proof.
  split.
  - intros lib scraper val u Hp. repeat split.
    + intros Ha. eapply imgSrc_absolute; eassumption.
    + intros Ha p Hpath. eapply imgSrc_rooted; eassumption.
    + intros Ha c p Hpath Hc. eapply imgSrc_rootless; eassumption.
    + intros Ha Hpath. eapply imgSrc_empty_path; eassumption.
  - repeat split; vm_compute; reflexivity.
Qed.

Lemma C9_witness :
  imgSrc GoRef.lib (Pages.session 0) "" = Panic indexOutOfRange.
Proof.
  refine (proj2 (proj2 (proj2
    (proj1 C9_img_resolution_and_empty_path GoRef.lib (Pages.session 0) ""
           (GoRef.mkURL "" "" "" "" false "" "") _))) _ _).
  - vm_compute. reflexivity.
  - reflexivity.
  - reflexivity.
Defined.

(** ** The fragment rewrite *)

Module FragmentFacts.

Local Arguments ascii_dec : simpl never.

Lemma escapeRunes_concat rs : forall acc,
  escapeRunes rs acc = acc ++ Str.concat (map escapeRune rs).
Proof.
  induction rs as [|r rs IH]; intros acc; simpl.
  - symmetry. apply StrFacts.append_nil_r.
  - rewrite IH. unfold Str.concat. simpl.
    destruct (map escapeRune rs) as [|x xs] eqn:Hm.
    + simpl. rewrite StrFacts.append_nil_r. reflexivity.
    + rewrite StrFacts.append_assoc. reflexivity.
Qed.

Lemma takeLine_append line tail :
  Str.Contains line newline = false ->
  tail = "" \/ Str.HasPrefix tail newline = true ->
  takeLine (line ++ tail) = line.
Proof.
  induction line as [|c line IH]; intros Hl Ht; simpl.
  - destruct Ht as [-> | Ht]; [reflexivity|].
    destruct tail as [|d tail]; [reflexivity|].
    unfold Str.HasPrefix, newline in Ht. simpl in Ht.
    destruct (ascii_dec (Str.ofByte 10) d) as [<- | _]; [reflexivity | discriminate].
  - simpl in Hl. apply orb_false_elim in Hl as [Hp Hl].
    unfold Str.HasPrefix, newline in Hp. simpl in Hp.
    destruct (Str.byteOf c =? 10) eqn:Hc.
    + exfalso. apply Z.eqb_eq in Hc.
      assert (Hc' : c = Str.ofByte 10).
      { unfold Str.ofByte, Str.byteOf in *. rewrite <- (ascii_N_embedding c).
        f_equal. change (Z.to_N (10 mod 256)) with 10%N. lia. }
      subst c. destruct (ascii_dec (Str.ofByte 10) (Str.ofByte 10)) as [_ | n];
        [destruct line; discriminate | now apply n].
    + rewrite IH by assumption. reflexivity.
Qed.

(** Where the text does not start with [#!] before the mark, it does
    not start with it once the mark and more are appended. *)
Lemma HasPrefix_hashbang_append c pre rest :
  Str.HasPrefix (String c pre) "#!" = false ->
  Str.HasPrefix (String c pre ++ "#!" ++ rest) "#!" = false.
Proof.
  unfold Str.HasPrefix. simpl.
  destruct (ascii_dec "#" c) as [_ | _]; [|reflexivity].
  destruct pre as [|d pre]; simpl; [reflexivity|].
  destruct (ascii_dec "!" d); [|reflexivity].
  destruct pre; simpl; auto.
Qed.

Lemma prefix_append_l a b s :
  String.prefix (a ++ b) s = true -> String.prefix a s = true.
Proof.
  revert s. induction a as [|x a IH]; intros s H.
  - destruct s; reflexivity.
  - destruct s as [|y s]; simpl in *; [discriminate|].
    destruct (ascii_dec x y); [auto | discriminate].
Qed.

Lemma FindStringSubmatch_eq s :
  FindStringSubmatch s =
  if Str.HasPrefix s "#!" then
    let g := takeLine (Str.drop 2 s) in Some ("#!" ++ g, g)
  else match s with
       | EmptyString => None
       | String _ s' => FindStringSubmatch s'
       end.
Proof. destruct s; reflexivity. Qed.

Lemma Replace1_eq s old new :
  Str.Replace1 s old new =
  if Str.HasPrefix s old then new ++ Str.drop (String.length old) s
  else match s with
       | EmptyString => EmptyString
       | String c s' => String c (Str.Replace1 s' old new)
       end.
Proof. destruct s; reflexivity. Qed.

Lemma FindStringSubmatch_leftmost pre line tail :
  Str.Contains pre "#!" = false ->
  Str.Contains line newline = false ->
  tail = "" \/ Str.HasPrefix tail newline = true ->
  FindStringSubmatch (pre ++ "#!" ++ line ++ tail) = Some ("#!" ++ line, line).
Proof.
  intros Hpre Hl Ht. induction pre as [|c pre IH].
  - rewrite FindStringSubmatch_eq.
    change ("" ++ "#!" ++ line ++ tail) with ("#!" ++ (line ++ tail)).
    unfold Str.HasPrefix. rewrite StrFacts.prefix_append.
    change (Str.drop 2 ("#!" ++ (line ++ tail))) with (line ++ tail).
    cbv zeta. rewrite takeLine_append by assumption. reflexivity.
  - simpl in Hpre. apply orb_false_elim in Hpre as [Hp Hpre].
    rewrite FindStringSubmatch_eq.
    rewrite HasPrefix_hashbang_append by exact Hp. apply IH. exact Hpre.
Qed.

Lemma Replace1_leftmost pre line tail new :
  Str.Contains pre "#!" = false ->
  Str.Replace1 (pre ++ "#!" ++ line ++ tail) ("#!" ++ line) new = pre ++ new ++ tail.
Proof.
  intros Hpre. induction pre as [|c pre IH].
  - rewrite Replace1_eq.
    change ("" ++ "#!" ++ line ++ tail) with (("#!" ++ line) ++ tail).
    unfold Str.HasPrefix. rewrite StrFacts.prefix_append.
    rewrite StrFacts.drop_append. reflexivity.
  - simpl in Hpre. apply orb_false_elim in Hpre as [Hp Hpre].
    assert (Hno : Str.HasPrefix (String c pre ++ "#!" ++ line ++ tail)
                                ("#!" ++ line) = false).
    { destruct (Str.HasPrefix _ ("#!" ++ line)) eqn:H; [|reflexivity].
      apply prefix_append_l in H.
      pose proof (HasPrefix_hashbang_append c pre (line ++ tail) Hp) as Hn.
      unfold Str.HasPrefix in Hn. congruence. }
    rewrite Replace1_eq, Hno.
    change (String c pre ++ "#!" ++ line ++ tail)
      with (String c (pre ++ "#!" ++ line ++ tail)).
    cbv beta iota. rewrite IH by exact Hpre. reflexivity.
Qed.

End FragmentFacts.

(** ** C6: the escaped-fragment token *)

(** C6 as stated fails for the space: the code hands the character to
    [url.QueryEscape], which writes a space as [+] and not as a percent
    escape. *)
Lemma C6_space_is_written_as_plus :
  Url.QueryUnescape (GoRef.String_ Pages.hashBang) = Ok "http://ex.com/#!a b"
  /\ Pages.fragmentUrlOf (Pages.visiting Pages.hashBang 1)
     = Some "http://ex.com/?_escaped_fragment_=a+b"
  /\ "http://ex.com/" ++ "?" ++ SpecWords.escapedFragmentToken "a b"
     = "http://ex.com/?_escaped_fragment_=a%20b"
  /\ Pages.fragmentUrlOf (Pages.visiting Pages.hashBang 1)
     <> Some ("http://ex.com/" ++ "?" ++ SpecWords.escapedFragmentToken "a b").
Proof.
  repeat split; try (vm_compute; reflexivity). vm_compute. discriminate.
Qed.

(** C6, amended.  Let the percent-decoded URL be [pre], the first [#!],
    the rest of that line [line], and what follows the line.  The rewrite
    parses [pre], then [&] when the parsed query of the URL has a key and
    [?] when it has none, then [_escaped_fragment_=], then the runes of
    [line] each rewritten, then what follows the line; and it sets the
    escaped-fragment URL to the result when that parses.  A rune is
    rewritten by its low eight bits [b]: it is dropped when [b] is 0 to 31
    or 127; it is replaced by [url.QueryEscape] of its UTF-8 text when [b]
    is the space, [#], [%], [&], [+] or 128 and more; it is kept
    otherwise.  [url.QueryEscape] writes the space as [+], the four other
    characters as %23, %25, %26 and %2B, and a byte from 128 as its
    percent escape. *)
Theorem C6_fragment_rewrite :
  (forall (lib : GoLib) (scraper : Scraper) (s pre line tail : string),
      Url.QueryUnescape (url_String lib (Url scraper)) = Ok s ->
      s = pre ++ "#!" ++ line ++ tail ->
      Str.Contains pre "#!" = false ->
      Str.Contains line newline = false ->
      tail = "" \/ Str.HasPrefix tail newline = true ->
      toFragmentUrl lib scraper =
      (fragmentUrl <-
         url_Parse lib
           (pre ++ ((if url_Query_len lib (Url scraper) >? 0 then "&" else "?")
                    ++ EscapedFragment
                    ++ Str.concat (map escapeRune (Utf8.runes line)))
                ++ tail) ;;
       Ok (setEscapedFragmentUrl scraper (Some fragmentUrl))))
  /\ (forall r : Utf8.rune,
         let b := Utf8.byteOfRune r in
         escapeRune r =
         if ((0 <=? b) && (b <=? 31)) || (b =? 127) then ""
         else if (b =? 32) || (b =? 35) || (b =? 37) || (b =? 38) || (b =? 43)
                 || (128 <=? b)
              then Url.QueryEscape (Utf8.encode r)
              else Utf8.encode r)
  /\ (Url.QueryEscape " " = "+"
      /\ Url.QueryEscape "#" = "%23" /\ Url.QueryEscape "%" = "%25"
      /\ Url.QueryEscape "&" = "%26" /\ Url.QueryEscape "+" = "%2B"
      /\ forall c : ascii,
           128 <= Str.byteOf c ->
           Url.QueryEscape (String c "") = SpecWords.percentEncode c).
Proof.
  split; [|split].
  - intros lib scraper s pre line tail Hdec -> Hpre Hline Htail.
    unfold toFragmentUrl. rewrite Hdec. cbn [bind].
    rewrite FragmentFacts.FindStringSubmatch_leftmost by assumption.
    rewrite FragmentFacts.Replace1_leftmost by assumption.
    rewrite FragmentFacts.escapeRunes_concat.
    rewrite !StrFacts.append_assoc. reflexivity.
  - intros r b. unfold escapeRune, avoidByte, escapeByte. fold b.
    assert (Hb : 0 <= b < 256) by (apply Z.mod_pos_bound; lia).
    destruct (Z.eqb_spec b 127); destruct (Z.leb_spec 0 b); destruct (Z.leb_spec b 31);
      destruct (Z.eqb_spec b 32); destruct (Z.eqb_spec b 35);
      destruct (Z.eqb_spec b 37); destruct (Z.eqb_spec b 38);
      destruct (Z.eqb_spec b 43); destruct (Z.leb_spec 127 b);
      destruct (Z.leb_spec b 255); destruct (Z.leb_spec 128 b);
      simpl; try reflexivity; lia.
  - repeat split; try reflexivity.
    intros c Hc. pose proof (StrFacts.byteOf_range c) as Hr.
    simpl. unfold Url.escapeOne, Url.shouldEscape, SpecWords.percentEncode.
    destruct (Z.eqb_spec (Str.byteOf c) 32); [lia|].
    destruct (Z.leb_spec 97 (Str.byteOf c)); destruct (Z.leb_spec (Str.byteOf c) 122);
      destruct (Z.leb_spec 65 (Str.byteOf c)); destruct (Z.leb_spec (Str.byteOf c) 90);
      destruct (Z.leb_spec 48 (Str.byteOf c)); destruct (Z.leb_spec (Str.byteOf c) 57);
      destruct (Z.eqb_spec (Str.byteOf c) 45); destruct (Z.eqb_spec (Str.byteOf c) 95);
      destruct (Z.eqb_spec (Str.byteOf c) 46); destruct (Z.eqb_spec (Str.byteOf c) 126);
      simpl; try reflexivity; lia.
Qed.

Lemma C6_witness :
  toFragmentUrl GoRef.lib (Pages.visiting Pages.hashBang 1) =
  (fragmentUrl <-
     GoRef.Parse ("http://ex.com/"
                  ++ ("?" ++ EscapedFragment
                      ++ Str.concat (map escapeRune (Utf8.runes "a b"))) ++ "") ;;
   Ok (setEscapedFragmentUrl (Pages.visiting Pages.hashBang 1) (Some fragmentUrl))).
Proof.
  refine (proj1 C6_fragment_rewrite GoRef.lib (Pages.visiting Pages.hashBang 1)
            "http://ex.com/#!a b" "http://ex.com/" "a b" "" _ _ _ _ _).
  - vm_compute. reflexivity.
  - reflexivity.
  - vm_compute. reflexivity.
  - vm_compute. reflexivity.
  - left. reflexivity.
Defined.

(** ** C7: a URL that does not decode *)

(** C7.  The code does not report the error.  For a URL with [#!] whose
    query holds [%zz], [toFragmentUrl] returns the [EscapeError], but
    [getDocument] does not look at what it returns: the page is fetched
    from the URL as it was given and its preview is returned.  The call
    in [parseDocument] does the same: a page with the AJAX-crawling marker
    is fetched again from the same URL until the budget is used up, and
    its preview is returned. *)
Theorem C7_decode_error_is_dropped :
  (exists u, GoRef.Parse Pages.badEscape = Ok u
             /\ toFragmentUrl GoRef.lib (Pages.visiting u 2) = Err (EscapeError "%zz"))
  /\ (exists doc,
        Scrape GoRef.lib (GoRef.serve Pages.titled) [] Pages.badEscape 3 GoRef.options
        = Some ([Pages.get Pages.badEscape], Ok doc)
        /\ Title (Preview doc) = "x")
  /\ (exists doc,
        Scrape GoRef.lib (GoRef.serve Pages.crawlable) [] Pages.badQuery 3 GoRef.options
        = Some ([Pages.get Pages.badQuery; Pages.get Pages.badQuery;
                 Pages.get Pages.badQuery], Ok doc)
        /\ Title (Preview doc) = "x").
Proof.
  split; [|split].
  - eexists. split; vm_compute; reflexivity.
  - eexists. split; vm_compute; reflexivity.
  - eexists. split; vm_compute; reflexivity.
Qed.

(* ================================================================== *)
(** * Further properties *)

(** ** Bytes *)

Module ByteFacts.

Lemma byteOf_ofByte (v : Z) : Str.byteOf (Str.ofByte v) = v mod 256.
Proof.
  unfold Str.byteOf, Str.ofByte.
  assert (H : 0 <= v mod 256 < 256) by (apply Z.mod_pos_bound; lia).
  rewrite N_ascii_embedding by lia. lia.
Qed.

Lemma ofByte_byteOf (c : ascii) : Str.ofByte (Str.byteOf c) = c.
Proof.
  unfold Str.byteOf, Str.ofByte.
  pose proof (N_ascii_bounded c) as H.
  rewrite Z.mod_small by lia. rewrite N2Z.id. apply ascii_N_embedding.
Qed.

(** A byte built by [lor] on a constant with the top bit set is 128 or more. *)
Lemma lor_high (k y : Z) :
  Z.testbit k 7 = true -> 128 <= Str.byteOf (Str.ofByte (Z.lor k y)).
Proof.
  intros Hk. rewrite byteOf_ofByte.
  assert (Hbit : Z.testbit (Z.lor k y mod 2 ^ 8) 7 = true).
  { rewrite Z.mod_pow2_bits_low by lia. rewrite Z.lor_spec, Hk. reflexivity. }
  change (2 ^ 8) with 256 in Hbit.
  assert (Hr : 0 <= Z.lor k y mod 256 < 256) by (apply Z.mod_pos_bound; lia).
  destruct (Z_lt_le_dec (Z.lor k y mod 256) 128) as [Hlt | Hle]; [|exact Hle].
  exfalso. apply Z.testbit_true in Hbit; [|lia].
  change (2 ^ 7) with 128 in Hbit.
  rewrite Z.div_small in Hbit by lia. discriminate Hbit.
Qed.

Lemma allBytes_append f a b :
  allBytes f (a ++ b) = allBytes f a && allBytes f b.
Proof.
  induction a as [|c a IH]; simpl; [reflexivity|].
  rewrite IH. apply andb_assoc.
Qed.

Lemma allBytes_weaken (f g : Z -> bool) s :
  (forall n, f n = true -> g n = true) ->
  allBytes f s = true -> allBytes g s = true.
Proof.
  intros Hfg. induction s as [|c s IH]; simpl; [reflexivity|].
  intros H. apply andb_prop in H as [Hc Hs].
  rewrite (Hfg _ Hc), IH by exact Hs. reflexivity.
Qed.

(** The text of a rune is one byte, the rune itself, when the rune is
    below 128, and bytes from 128 in every other case. *)
Lemma encode_bytes (r : Utf8.rune) :
  (0 <= r < 128 /\ Utf8.encode r = String (Str.ofByte r) EmptyString)
  \/ allBytes (fun n => 128 <=? n) (Utf8.encode r) = true.
Proof.
  unfold Utf8.encode.
  set (r' := if (r <? 0) || (Utf8.MaxRune <? r) || ((0xD800 <=? r) && (r <=? 0xDFFF))
             then Utf8.RuneError else r).
  assert (Hr' : r' = r /\ 0 <= r \/ 128 <= r').
  { unfold r', Utf8.RuneError, Utf8.MaxRune.
    destruct (Z.ltb_spec r 0); simpl; [right; lia|].
    destruct (Z.ltb_spec 0x10FFFF r); simpl; [right; lia|].
    destruct ((0xD800 <=? r) && (r <=? 0xDFFF)); [right; lia | left; lia]. }
  assert (Hhigh : forall k y, Z.testbit k 7 = true ->
                              (128 <=? Str.byteOf (Str.ofByte (Z.lor k y))) = true).
  { intros k y Hk. apply Z.leb_le. apply lor_high. exact Hk. }
  destruct (Z.leb_spec r' 0x7F) as [Hle | Hgt].
  - left. destruct Hr' as [[-> H0] | H]; [|lia]. split; [lia | reflexivity].
  - right. destruct (r' <=? 0x7FF); [|destruct (r' <=? 0xFFFF)];
      unfold Utf8.b; cbn [allBytes append];
      rewrite !Hhigh by reflexivity; reflexivity.
Qed.

End ByteFacts.

(** ** The escaped-fragment token *)

Module TokenFacts.

Local Arguments ascii_dec : simpl never.

Lemma QueryUnescape_cons c s :
  Url.QueryUnescape (String c s) =
  if Str.byteOf c =? 37 then
    match s with
    | String h1 (String h2 s3) =>
      if Url.ishex (Str.byteOf h1) && Url.ishex (Str.byteOf h2) then
        r <- Url.QueryUnescape s3 ;;
        Ok (String (Str.ofByte (Z.lor (Z.shiftl (Url.unhex (Str.byteOf h1)) 4)
                                      (Url.unhex (Str.byteOf h2)))) r)
      else Err (EscapeError (Url.escapeErrorText (String c s)))
    | _ => Err (EscapeError (Url.escapeErrorText (String c s)))
    end
  else if Str.byteOf c =? 43 then
    r <- Url.QueryUnescape s ;; Ok (String " " r)
  else
    r <- Url.QueryUnescape s ;; Ok (String c r).
Proof. reflexivity. Qed.

(** Decoding goes through a text that decodes. *)
Lemma QueryUnescape_append a : forall a' b,
  Url.QueryUnescape a = Ok a' ->
  Url.QueryUnescape (a ++ b) = (b' <- Url.QueryUnescape b ;; Ok (a' ++ b')).
Proof.
  assert (H : forall n a, (String.length a <= n)%nat -> forall a' b,
               Url.QueryUnescape a = Ok a' ->
               Url.QueryUnescape (a ++ b)
               = (b' <- Url.QueryUnescape b ;; Ok (a' ++ b'))).
  { induction n as [|n IH]; intros a0 Hlen a' b Ha.
    - destruct a0; [|simpl in Hlen; lia].
      injection Ha as <-. simpl. destruct (Url.QueryUnescape b); reflexivity.
    - destruct a0 as [|c a1].
      { injection Ha as <-. simpl. destruct (Url.QueryUnescape b); reflexivity. }
      change (String c a1 ++ b) with (String c (a1 ++ b)).
      rewrite QueryUnescape_cons in Ha. rewrite QueryUnescape_cons.
      simpl in Hlen.
      destruct (Str.byteOf c =? 37).
      + destruct a1 as [|h1 [|h2 a3]]; try discriminate Ha.
        cbn [append].
        destruct (Url.ishex (Str.byteOf h1) && Url.ishex (Str.byteOf h2));
          [|discriminate Ha].
        destruct (Url.QueryUnescape a3) as [r3| |] eqn:H3; try discriminate Ha.
        injection Ha as <-.
        rewrite (IH a3) with (a' := r3) by (simpl in Hlen; lia || exact H3).
        destruct (Url.QueryUnescape b); reflexivity.
      + destruct (Str.byteOf c =? 43);
          destruct (Url.QueryUnescape a1) as [r1| |] eqn:H1; try discriminate Ha;
          injection Ha as <-;
          rewrite (IH a1) with (a' := r1) by (lia || exact H1);
          destruct (Url.QueryUnescape b); reflexivity. }
  intros a' b. apply (H (String.length a)). lia.
Qed.

Lemma escapeOne_decodes (c : ascii) :
  Url.QueryUnescape (Url.escapeOne c) = Ok (String c EmptyString).
Proof. destruct c as [[] [] [] [] [] [] [] []]; vm_compute; reflexivity. Qed.

(** [url.QueryUnescape] undoes [url.QueryEscape]. *)
Lemma QueryUnescape_QueryEscape (s : string) :
  Url.QueryUnescape (Url.QueryEscape s) = Ok s.
Proof.
  induction s as [|c s IH]; [reflexivity|].
  cbn [Url.QueryEscape].
  rewrite (QueryUnescape_append _ _ _ (escapeOne_decodes c)), IH. reflexivity.
Qed.

(** A text without [%] and [+] decodes to itself. *)
Lemma QueryUnescape_plain (s : string) :
  allBytes (fun n => negb (n =? 37) && negb (n =? 43)) s = true ->
  Url.QueryUnescape s = Ok s.
Proof.
  induction s as [|c s IH]; [reflexivity|].
  cbn [allBytes]. intros H. apply andb_prop in H as [Hc Hs].
  apply andb_prop in Hc as [H37 H43].
  rewrite QueryUnescape_cons.
  destruct (Str.byteOf c =? 37); [discriminate|].
  destruct (Str.byteOf c =? 43); [discriminate|].
  rewrite IH by exact Hs. reflexivity.
Qed.

Lemma concat_cons x xs : Str.concat (x :: xs) = x ++ Str.concat xs.
Proof.
  unfold Str.concat. simpl. destruct xs; simpl;
    [now rewrite StrFacts.append_nil_r | reflexivity].
Qed.

(** What is left of a rune that is not skipped, and why it is harmless
    in a query: the low byte of a rune kept as it is is a printable ASCII
    byte other than the five escaped ones. *)
Lemma literal_low_byte (r : Utf8.rune) :
  avoidByte (Utf8.byteOfRune r) = false ->
  escapeByte (Utf8.byteOfRune r) = false ->
  33 <= Utf8.byteOfRune r <= 126
  /\ Utf8.byteOfRune r <> 35 /\ Utf8.byteOfRune r <> 37
  /\ Utf8.byteOfRune r <> 38 /\ Utf8.byteOfRune r <> 43.
Proof.
  unfold avoidByte, escapeByte, Utf8.byteOfRune.
  assert (Hb : 0 <= r mod 256 < 256) by (apply Z.mod_pos_bound; lia).
  set (b := r mod 256) in *.
  destruct (Z.eqb_spec b 127); destruct (Z.leb_spec 0 b); destruct (Z.leb_spec b 31);
    destruct (Z.eqb_spec b 32); destruct (Z.eqb_spec b 35);
    destruct (Z.eqb_spec b 37); destruct (Z.eqb_spec b 38);
    destruct (Z.eqb_spec b 43); destruct (Z.leb_spec 127 b);
    destruct (Z.leb_spec b 255); simpl; intros; try discriminate; lia.
Qed.

Lemma literal_bytes (f : Z -> bool) (r : Utf8.rune) :
  avoidByte (Utf8.byteOfRune r) = false ->
  escapeByte (Utf8.byteOfRune r) = false ->
  (forall n, 128 <= n -> f n = true) ->
  (forall n, 33 <= n <= 126 -> n <> 35 -> n <> 37 -> n <> 38 -> n <> 43 -> f n = true) ->
  allBytes f (Utf8.encode r) = true.
Proof.
  intros Ha He Hhigh Hlow.
  destruct (literal_low_byte r Ha He) as (Hr & H35 & H37 & H38 & H43).
  destruct (ByteFacts.encode_bytes r) as [[Hsmall ->] | Hall].
  - unfold Utf8.byteOfRune in *. rewrite Z.mod_small in * by lia.
    cbn [allBytes]. rewrite ByteFacts.byteOf_ofByte, Z.mod_small by lia.
    rewrite Hlow by assumption. reflexivity.
  - revert Hall. apply ByteFacts.allBytes_weaken.
    intros n Hn. apply Hhigh. apply Z.leb_le. exact Hn.
Qed.

Lemma escapeRune_decodes (r : Utf8.rune) :
  Url.QueryUnescape (escapeRune r) = Ok (if kept r then Utf8.encode r else "").
Proof.
  unfold escapeRune, kept.
  destruct (avoidByte (Utf8.byteOfRune r)) eqn:Ha; [reflexivity|].
  destruct (escapeByte (Utf8.byteOfRune r)) eqn:He; simpl.
  - apply QueryUnescape_QueryEscape.
  - apply QueryUnescape_plain. apply literal_bytes; try assumption.
    + intros n Hn. destruct (Z.eqb_spec n 37); destruct (Z.eqb_spec n 43);
        simpl; try reflexivity; lia.
    + intros n _ _ H37 _ H43. destruct (Z.eqb_spec n 37); destruct (Z.eqb_spec n 43);
        simpl; try reflexivity; contradiction.
Qed.

Lemma escapeOne_querySafe (c : ascii) :
  allBytes querySafe (Url.escapeOne c) = true.
Proof. destruct c as [[] [] [] [] [] [] [] []]; vm_compute; reflexivity. Qed.

Lemma QueryEscape_querySafe (s : string) :
  allBytes querySafe (Url.QueryEscape s) = true.
Proof.
  induction s as [|c s IH]; [reflexivity|].
  cbn [Url.QueryEscape]. rewrite ByteFacts.allBytes_append, escapeOne_querySafe, IH.
  reflexivity.
Qed.

Lemma escapeRune_querySafe (r : Utf8.rune) :
  allBytes querySafe (escapeRune r) = true.
Proof.
  unfold escapeRune.
  destruct (avoidByte (Utf8.byteOfRune r)) eqn:Ha; [reflexivity|].
  destruct (escapeByte (Utf8.byteOfRune r)) eqn:He.
  - apply QueryEscape_querySafe.
  - apply literal_bytes; try assumption; intros n; unfold querySafe;
      intros; destruct (Z.leb_spec n 32); destruct (Z.eqb_spec n 35);
      destruct (Z.eqb_spec n 38); destruct (Z.eqb_spec n 127);
      simpl; try reflexivity; lia.
Qed.

Lemma runes_ascii c s :
  Str.byteOf c < 128 -> Utf8.runes (String c s) = Str.byteOf c :: Utf8.runes s.
Proof.
  intros H. cbn [Utf8.runes]. cbv zeta.
  destruct (Z.ltb_spec (Str.byteOf c) 128); [reflexivity | lia].
Qed.

Lemma escapeRune_plainAscii (c : ascii) :
  plainAscii (Str.byteOf c) = true ->
  escapeRune (Str.byteOf c) =
  (let n := Str.byteOf c in
   if ((0 <=? n) && (n <=? 31)) || (n =? 127) then ""
   else if (n =? 32) || (n =? 35) || (n =? 37) || (n =? 38) || (n =? 43) || (127 <=? n)
        then SpecWords.percentEncode c
        else String c EmptyString).
Proof.
  destruct c as [[] [] [] [] [] [] [] []]; vm_compute; intros H;
    first [reflexivity | discriminate H].
Qed.

End TokenFacts.

(** X1.  Decoding the payload of the token gives back the fragment without
    the runes that were skipped: [url.QueryUnescape] of the rewritten
    runes is the text of the runes whose low byte is not a control byte,
    in their order. *)
Theorem X1_token_decodes_to_fragment :
  forall rs : list Utf8.rune,
    Url.QueryUnescape (Str.concat (map escapeRune rs))
    = Ok (Str.concat (map Utf8.encode (filter kept rs))).
Proof.
  induction rs as [|r rs IH]; [reflexivity|].
  cbn [map filter]. rewrite TokenFacts.concat_cons.
  rewrite (TokenFacts.QueryUnescape_append _ _ _ (TokenFacts.escapeRune_decodes r)).
  rewrite IH. cbn [bind].
  destruct (kept r); [cbn [map]; rewrite TokenFacts.concat_cons|]; reflexivity.
Qed.

(** X2.  The token never holds a byte that would end or split the query
    parameter it is put in: no control byte, no space, no [#], no [&],
    whatever runes the fragment is made of. *)
Theorem X2_token_stays_in_its_parameter :
  forall rs : list Utf8.rune,
    allBytes querySafe (escapeRunes rs EscapedFragment) = true.
Proof.
  intros rs. rewrite FragmentFacts.escapeRunes_concat, ByteFacts.allBytes_append.
  apply andb_true_intro. split; [reflexivity|].
  induction rs as [|r rs IH]; [reflexivity|].
  cbn [map]. rewrite TokenFacts.concat_cons, ByteFacts.allBytes_append.
  rewrite TokenFacts.escapeRune_querySafe, IH. reflexivity.
Qed.

(** X3.  On a fragment of ASCII bytes without a space the loop of
    [toFragmentUrl] builds what the byte-wise rule gives: drop the control
    bytes, write [#], [%], [&], [+] as percent escapes, keep the rest. *)
Theorem X3_token_on_ascii_without_space :
  forall payload : string,
    allBytes plainAscii payload = true ->
    escapeRunes (Utf8.runes payload) EscapedFragment
    = SpecWords.escapedFragmentToken payload.
Proof.
  intros payload H. rewrite FragmentFacts.escapeRunes_concat.
  unfold SpecWords.escapedFragmentToken. f_equal.
  induction payload as [|c s IH]; [reflexivity|].
  cbn [allBytes] in H. apply andb_prop in H as [Hc Hs].
  assert (Hlt : Str.byteOf c < 128).
  { unfold plainAscii in Hc. apply andb_prop in Hc as [Hc _]. lia. }
  rewrite TokenFacts.runes_ascii by exact Hlt.
  cbn [map]. rewrite TokenFacts.concat_cons, IH by exact Hs.
  rewrite TokenFacts.escapeRune_plainAscii by exact Hc. reflexivity.
Qed.

Lemma X3_witness :
  escapeRunes (Utf8.runes "a=1&b#c") EscapedFragment
  = SpecWords.escapedFragmentToken "a=1&b#c".
Proof.
  apply X3_token_on_ascii_without_space. vm_compute. reflexivity.
Defined.

(** ** What a scan keeps *)

Section ScanInvariants.

Variable lib : GoLib.
Variable scraper : Scraper.

Lemma grows_refl st : grows st st.
Proof. unfold grows. auto. Qed.

Lemma grows_trans st1 st2 st3 : grows st1 st2 -> grows st2 st3 -> grows st1 st3.
Proof. unfold grows. intros (L1 & A1 & B1 & C1 & D1) (L2 & A2 & B2 & C2 & D2).
  repeat split; auto. congruence. Qed.

Lemma grows_withPreview st p : grows st (withPreview st p).
Proof. unfold grows. simpl. auto. Qed.

Lemma linkAttrs_grows attrs : forall v st st1,
  linkAttrs lib attrs v st = Ok st1 -> grows st st1.
Proof.
  induction attrs as [|attr attrs IH]; intros v st st1 H; simpl in H.
  - injection H as <-. apply grows_refl.
  - match type of H with
    | (st' <- ?c ;; _) = _ => destruct c as [st2| |] eqn:Hc; try discriminate H
    end.
    simpl in H. apply IH in H.
    assert (H2 : grows st st2).
    { destruct (_ && negb (link st =? _)%string) in Hc.
      - match type of Hc with
        | (_ <- ?c ;; _) = _ => destruct c; try discriminate Hc
        end.
        injection Hc as <-. unfold grows. simpl. auto.
      - injection Hc as <-. apply grows_refl. }
    apply (grows_trans st st2 st1 H2).
    destruct (_ && _) in H; [|exact H].
    exact (grows_trans _ _ _ (grows_withPreview st2 _) H).
Qed.

Lemma linkAttrs_canonicalSet attrs : forall v st st1,
  linkAttrs lib attrs v st = Ok st1 -> canonicalSet st -> canonicalSet st1.
Proof.
  induction attrs as [|attr attrs IH]; intros v st st1 H Hst; simpl in H.
  - injection H as <-. exact Hst.
  - match type of H with
    | (st' <- ?c ;; _) = _ => destruct c as [st2| |] eqn:Hc; try discriminate H
    end.
    simpl in H.
    assert (H2 : canonicalSet st2).
    { destruct (_ && negb (link st =? _)%string) in Hc.
      - match type of Hc with
        | (_ <- ?c ;; _) = _ => destruct c; try discriminate Hc
        end.
        injection Hc as Heq. subst st2. unfold canonicalSet. simpl. discriminate.
      - injection Hc as Heq. subst st2. exact Hst. }
    apply IH in H; [exact H|].
    match goal with
    | |- canonicalSet (if ?b then _ else _) => destruct b
    end; exact H2.
Qed.

Lemma imgAttrs_frame attrs : forall st st1,
  imgAttrs lib scraper attrs st = Ok st1 ->
  grows st st1 /\ canonicalUrl st1 = canonicalUrl st
  /\ hasCanonical st1 = hasCanonical st.
Proof.
  induction attrs as [|attr attrs IH]; intros st st1 H; simpl in H.
  - injection H as <-. auto using grows_refl.
  - destruct (isSrc lib attr).
    + destruct (imgSrc lib scraper (Val attr)); try discriminate H. simpl in H.
      apply IH in H as (Hg & Hc & Hh). simpl in *.
      split; [|auto]. eapply grows_trans; [apply grows_withPreview | exact Hg].
    + auto.
Qed.

Lemma caseMeta_frame st token st1 :
  caseMeta lib scraper st token = Ok st1 ->
  grows st st1 /\ canonicalUrl st1 = canonicalUrl st
  /\ hasCanonical st1 = hasCanonical st.
Proof.
  unfold caseMeta. destruct (negb _).
  - intros [= <-]. auto using grows_refl.
  - assert (Hm : grows st (marked lib scraper st token)
                 /\ canonicalUrl (marked lib scraper st token) = canonicalUrl st
                 /\ hasCanonical (marked lib scraper st token) = hasCanonical st).
    { unfold marked. destruct (_ && _); [|auto using grows_refl].
      unfold grows. simpl. auto 10. }
    destruct Hm as (Hg & Hc & Hh).
    set (m := marked lib scraper st token) in *.
    assert (Hw : forall p, grows st (withPreview m p)
                           /\ canonicalUrl (withPreview m p) = canonicalUrl st
                           /\ hasCanonical (withPreview m p) = hasCanonical st).
    { intros p. split; [|auto].
      eapply grows_trans; [exact Hg | apply grows_withPreview]. }
    repeat match goal with
           | |- (if ?b then _ else _) = _ -> _ => destruct b
           end;
      try (intros [= <-]; first [apply Hw | auto]).
    destruct (url_Parse lib _); try discriminate. simpl. intros [= <-].
    split; [|auto].
    eapply grows_trans; [exact Hg|]. unfold grows. simpl. auto.
Qed.

Lemma switchData_frame st token next st1 :
  switchData lib scraper st token next = Ok st1 ->
  grows st st1 /\ (canonicalSet st -> canonicalSet st1).
Proof.
  unfold switchData.
  destruct (Data token =? "head")%string.
  { intros [= <-]. destruct (TokenType_eqb _ _); split; auto using grows_refl.
    unfold grows. simpl. auto. }
  destruct (Data token =? "body")%string.
  { intros [= <-]. split; auto. unfold grows. simpl. auto. }
  destruct (Data token =? "link")%string.
  { intros H. split; [eapply linkAttrs_grows | eapply linkAttrs_canonicalSet];
      exact H. }
  destruct (Data token =? "meta")%string.
  { intros H. apply caseMeta_frame in H as (Hg & Hc & Hh). split; [exact Hg|].
    unfold canonicalSet. rewrite Hc, Hh. auto. }
  destruct (Data token =? "title")%string.
  { intros [= <-]. destruct (TokenType_eqb _ _); [|auto using grows_refl].
    unfold caseTitle. destruct (_ =? _); auto using grows_refl, grows_withPreview. }
  destruct (Data token =? "img")%string.
  { intros H. apply imgAttrs_frame in H as (Hg & Hc & Hh). split; [exact Hg|].
    unfold canonicalSet. rewrite Hc, Hh. auto. }
  intros [= <-]. auto using grows_refl.
Qed.






End ScanInvariants.

Section ScanResults.

Variable lib : GoLib.
Variable net : Transport.

Lemma endOfTurn_Finished scraper st rest st' rest' :
  endOfTurn lib scraper st rest = Some (Finished st' rest') ->
  st' = st /\ rest' = rest.
Proof.
  unfold endOfTurn.
  destruct (hasCanonical st && headPassed st && (MaxRedirect scraper >? 0)).
  - destruct (canonicalUrl st) as [cu|]; [|discriminate].
    destruct (negb (IsAbs cu)); [|discriminate].
    destruct (url_Parse lib _); discriminate.
  - destruct (hasFragment st && headPassed st && (MaxRedirect scraper >? 0));
      [discriminate|].
    destruct (enough st); [|discriminate]. intros [= <- <-]. auto.
Qed.

Lemma scanLoop_grows scraper t st :
  forall st' rest, scanLoop lib scraper st t = Finished st' rest -> grows st st'.
Proof.
  pattern st, t. revert st. revert t. apply scanLoop_ind'.
  - intros st st' rest [= <- _]. apply grows_refl.
  - intros st token rest Hty st' rest' H.
    rewrite scanLoop_error in H by assumption. injection H as <- _. apply grows_refl.
  - intros st token rest Hne Htag IH st' rest' H.
    rewrite scanLoop_skip in H by assumption. eauto.
  - intros st token rest Htag IH st' rest' H.
    rewrite scanLoop_tag in H by assumption.
    destruct (switchData lib scraper st token _) as [st1| |] eqn:Hsw;
      try discriminate H.
    apply switchData_frame in Hsw as [Hg _].
    destruct (endOfTurn lib scraper st1 _) as [out|] eqn:He.
    + subst out. apply endOfTurn_Finished in He as [-> _]. exact Hg.
    + eapply grows_trans; [exact Hg | eauto].
Qed.




End ScanResults.

(** X4.  A scan that returns keeps what it started with: the link saved
    before the loop is the one canonical links are compared with to the
    end, and none of the marks (og:image seen, head passed, fragment
    pending, canonical pending) that was set is taken back. *)
Theorem X4_scan_keeps_marks_and_link :
  forall (lib : GoLib) (scraper : Scraper) (st st' : ScanState)
         (t rest : list Token),
    scanLoop lib scraper st t = Finished st' rest ->
    link st' = link st
    /\ (ogImage st = true -> ogImage st' = true)
    /\ (headPassed st = true -> headPassed st' = true)
    /\ (hasFragment st = true -> hasFragment st' = true)
    /\ (hasCanonical st = true -> hasCanonical st' = true).
Proof.
  intros lib scraper st st' t rest H.
  exact (scanLoop_grows lib scraper t st st' rest H).
Qed.

Lemma X4_witness :
  exists st',
    scanLoop GoRef.lib (Pages.session 0)
      (initScan (Pages.session 0) (Pages.fetched Pages.ogThenImgs)) Pages.ogThenImgs
    = Finished st' []
    /\ link st' = "https://ex.com/p".
Proof.
  eexists. split; [vm_compute; reflexivity|].
  refine (proj1 (X4_scan_keeps_marks_and_link GoRef.lib (Pages.session 0)
                   (initScan (Pages.session 0) (Pages.fetched Pages.ogThenImgs))
                   _ Pages.ogThenImgs [] _)).
  vm_compute. reflexivity.
Defined.



(** ** Fetching *)

Section GetDocumentFacts.

Variable lib : GoLib.
Variable net : Transport.

Lemma userAgent_not_empty scraper : userAgent scraper <> "".
Proof.
  unfold userAgent. destruct (UserAgent (Options scraper)); simpl; discriminate.
Qed.

Lemma toFragmentUrl__frame scraper :
  Url (toFragmentUrl_ lib scraper) = Url scraper
  /\ Options (toFragmentUrl_ lib scraper) = Options scraper.
Proof.
  unfold toFragmentUrl_, toFragmentUrl.
  destruct (Url.QueryUnescape _) as [u| |]; simpl; auto.
  destruct (FindStringSubmatch u) as [[m0 m1]|];
    destruct (url_Parse lib _); simpl; auto.
Qed.

Lemma prepare_frame scraper :
  Url (prepare lib scraper) = Url scraper
  /\ Options (prepare lib scraper) = Options scraper
  /\ MaxRedirect (prepare lib scraper) = wrapInt (MaxRedirect scraper - 1).
Proof.
  unfold prepare.
  repeat match goal with
         | |- context [if ?b then _ else _] => destruct b
         end; simpl;
    rewrite ?toFragmentUrl__MaxRedirect;
    pose proof (toFragmentUrl__frame
                  (setMaxRedirect scraper (wrapInt (MaxRedirect scraper - 1))))
      as [Hu Ho]; simpl in *; auto.
Qed.

Lemma headProbe_log w scraper :
  (fst (headProbe lib net w scraper) = w
   \/ (0 < MaxDocumentLength (Options scraper)
       /\ fst (headProbe lib net w scraper) = (w ++ [headRequest lib scraper])%list)).
Proof.
  unfold headProbe.
  destruct (Z.gtb_spec (MaxDocumentLength (Options scraper)) 0) as [Hpos|_];
    [|auto].
  destruct (http_NewRequest net "HEAD" _); [auto|].
  fold (headRequest lib scraper).
  destruct (http_Do net w _) as [resp| |]; simpl; auto.
  destruct (ContentLength resp >? _); simpl; auto.
Qed.

Lemma getDocument_eq w scraper :
  getDocument lib net w scraper = fetch lib net w (prepare lib scraper).
Proof. reflexivity. Qed.

Lemma getDocument_log w scraper :
  exists reqs,
    fst (fst (getDocument lib net w scraper)) = (w ++ reqs)%list
    /\ OneFetch lib (prepare lib scraper) reqs.
Proof.
  rewrite getDocument_eq. unfold fetch.
  set (s := prepare lib scraper).
  pose proof (headProbe_log w s) as Hh.
  destruct (headProbe lib net w s) as [w1 [e|]]; simpl in Hh.
  - destruct Hh as [-> | [Hpos ->]]; simpl.
    + exists []. rewrite app_nil_r. split; [reflexivity | constructor].
    + eexists. split; [reflexivity | constructor; exact Hpos].
  - assert (Hw1 : exists pre, w1 = (w ++ pre)%list
                              /\ (pre = [] \/ (0 < MaxDocumentLength (Options s)
                                               /\ pre = [headRequest lib s]))).
    { destruct Hh as [-> | [Hpos ->]].
      - exists []. rewrite app_nil_r. auto.
      - eexists. split; [reflexivity | auto]. }
    destruct Hw1 as (pre & -> & Hpre).
    assert (Hend : exists reqs, ((w ++ pre) ++ [getRequest lib s])%list = (w ++ reqs)%list
                                /\ OneFetch lib s reqs).
    { exists (pre ++ [getRequest lib s])%list. split; [symmetry; apply app_assoc|].
      destruct Hpre as [-> | [Hpos ->]]; simpl; constructor; assumption. }
    assert (Hnone : exists reqs, (w ++ pre)%list = (w ++ reqs)%list /\ OneFetch lib s reqs).
    { exists pre. split; [reflexivity|].
      destruct Hpre as [-> | [Hpos ->]]; constructor; assumption. }
    destruct (http_NewRequest net "GET" _); simpl; [exact Hnone|].
    destruct (http_Do net _ _) as [resp| |]; simpl; try exact Hend.
    destruct (convertUTF8 _ resp); simpl; exact Hend.
Qed.

Lemma getDocument_Options w scraper :
  Options (snd (fst (getDocument lib net w scraper))) = Options scraper.
Proof.
  pose proof (prepare_frame scraper) as (_ & Ho & _).
  unfold getDocument. fold (prepare lib scraper).
  unfold getDocument.
  repeat match goal with
         | |- context [match ?x with _ => _ end] => destruct x; simpl
         end;
    pose proof (toFragmentUrl__frame
                  (setMaxRedirect scraper (wrapInt (MaxRedirect scraper - 1))))
      as [_ Hf]; simpl in *; auto.
Qed.

Lemma OneFetch_counts scraper reqs :
  OneFetch lib scraper reqs ->
  (gets reqs <= 1)%nat /\ (List.length reqs <= 2)%nat
  /\ (MaxDocumentLength (Options scraper) <= 0 -> (List.length reqs <= 1)%nat).
Proof.
  intros H. destruct H; unfold gets; simpl; repeat split; intros; lia.
Qed.

End GetDocumentFacts.

Section FetchResults.

Variable lib : GoLib.
Variable net : Transport.

Lemma headProbe_passes w scraper w1 :
  headProbe lib net w scraper = (w1, None) ->
  forall resp,
    0 < MaxDocumentLength (Options scraper) ->
    http_NewRequest net "HEAD" (getUrl lib scraper) = None ->
    http_Do net w (headRequest lib scraper) = Ok resp ->
    ContentLength resp <= MaxDocumentLength (Options scraper).
Proof.
  unfold headProbe. intros H resp Hpos Hnew Hdo.
  assert (Hgt : (MaxDocumentLength (Options scraper) >? 0) = true) by lia.
  rewrite Hgt, Hnew in H. fold (headRequest lib scraper) in H. rewrite Hdo in H.
  destruct (Z.gtb_spec (ContentLength resp) (MaxDocumentLength (Options scraper)));
    [discriminate H | lia].
Qed.

Lemma getDocument_Ok w scraper w' scraper' doc :
  getDocument lib net w scraper = (w', scraper', Ok doc) ->
  exists w1 resp,
    http_Do net w1 (getRequest lib (prepare lib scraper)) = Ok resp
    /\ headProbe lib net w (prepare lib scraper) = (w1, None)
    /\ (0 < MaxDocumentLength (Options scraper) ->
        BodyLength resp <= MaxDocumentLength (Options scraper))
    /\ Body doc = BodyTokens resp
    /\ ContentType (ResHeader doc) = HeaderContentType resp
    /\ getUrl lib scraper' = url_String lib (RequestURL resp)
    /\ Preview doc = emptyPreview (url_String lib (Url scraper'))
    /\ (scraper' = prepare lib scraper
        \/ scraper' = setUrl (setEscapedFragmentUrl (prepare lib scraper) None)
                             (RequestURL resp)).
Proof.
  rewrite getDocument_eq. unfold fetch.
  pose proof (prepare_frame lib scraper) as (_ & Hopt & _).
  set (s := prepare lib scraper) in *.
  destruct (headProbe lib net w s) as [w1 [e|]]; [discriminate|].
  destruct (http_NewRequest net "GET" _); [discriminate|].
  destruct (http_Do net w1 _) as [resp| |] eqn:Hdo; try discriminate.
  set (s' := if negb _ then _ else _).
  assert (Hs' : Options s' = Options scraper).
  { unfold s'. destruct (negb _); simpl; exact Hopt. }
  assert (Hurl : getUrl lib s' = url_String lib (RequestURL resp)).
  { unfold s'.
    destruct (url_String lib (RequestURL resp) =? getUrl lib s)%string eqn:He; simpl.
    - apply String.eqb_eq in He. symmetry. exact He.
    - reflexivity. }
  assert (Hor : s' = s \/ s' = setUrl (setEscapedFragmentUrl s None) (RequestURL resp)).
  { unfold s'. destruct (negb _); auto. }
  destruct (convertUTF8 _ resp) as [b| |] eqn:Hconv; try discriminate.
  intros [= <- <- <-]. exists w1, resp. simpl.
  repeat split; auto.
  - intros Hpos. unfold convertUTF8 in Hconv. rewrite Hs' in Hconv.
    destruct (Z.ltb_spec 0 (MaxDocumentLength (Options scraper))); [|lia].
    destruct (Z.ltb_spec (MaxDocumentLength (Options scraper)) (BodyLength resp));
      [discriminate Hconv | lia].
  - unfold convertUTF8 in Hconv. destruct (_ && _); [discriminate|].
    destruct (BodyError resp); [discriminate|]. injection Hconv as <-. reflexivity.
Qed.

Lemma gets_app a b : gets (a ++ b) = (gets a + gets b)%nat.
Proof. unfold gets. rewrite filter_app, length_app. reflexivity. Qed.

Lemma endOfTurn_Refetch_Options scraper st rest s' :
  endOfTurn lib scraper st rest = Some (Refetch s') -> Options s' = Options scraper.
Proof.
  unfold endOfTurn.
  destruct (hasCanonical st && headPassed st && (MaxRedirect scraper >? 0)).
  - destruct (canonicalUrl st) as [cu|]; [|discriminate].
    destruct (negb (IsAbs cu)).
    + destruct (url_Parse lib _); intros [= <-]; reflexivity.
    + intros [= <-]. reflexivity.
  - destruct (hasFragment st && headPassed st && (MaxRedirect scraper >? 0)).
    + intros [= <-]. apply toFragmentUrl__frame.
    + destruct (enough st); discriminate.
Qed.

Lemma scanLoop_Refetch_Options scraper t st s' :
  scanLoop lib scraper st t = Refetch s' -> Options s' = Options scraper.
Proof.
  revert s'. pattern st, t. revert st. revert t. apply scanLoop_ind'.
  - intros st s' H. discriminate.
  - intros st token rest Hty s' H. rewrite scanLoop_error in H by assumption.
    discriminate.
  - intros st token rest Hne Htag IH s' H.
    rewrite scanLoop_skip in H by assumption. auto.
  - intros st token rest Htag IH s' H.
    rewrite scanLoop_tag in H by assumption.
    destruct (switchData lib scraper st token _) as [st1| |]; try discriminate.
    destruct (endOfTurn lib scraper st1 _) as [out|] eqn:He.
    + subst out. eapply endOfTurn_Refetch_Options; eassumption.
    + eauto.
Qed.

(** The requests of the scans that follow one another under a budget. *)
Lemma parseDocument_requests fuel : forall w scraper doc w' scraper' r,
  parseDocument lib net fuel w scraper doc = Some (w', scraper', r) ->
  exists reqs,
    w' = (w ++ reqs)%list
    /\ (gets reqs <= Z.to_nat (MaxRedirect scraper))%nat
    /\ (List.length reqs <= 2 * Z.to_nat (MaxRedirect scraper))%nat
    /\ (MaxDocumentLength (Options scraper) <= 0 ->
        (List.length reqs <= Z.to_nat (MaxRedirect scraper))%nat)
    /\ Options scraper' = Options scraper.
Proof.
  induction fuel as [|fuel IH]; intros w scraper doc w' scraper' r H;
    [discriminate|].
  simpl in H.
  assert (Hnone : exists reqs,
             w = (w ++ reqs)%list
             /\ (gets reqs <= Z.to_nat (MaxRedirect scraper))%nat
             /\ (List.length reqs <= 2 * Z.to_nat (MaxRedirect scraper))%nat
             /\ (MaxDocumentLength (Options scraper) <= 0 ->
                 (List.length reqs <= Z.to_nat (MaxRedirect scraper))%nat)
             /\ Options scraper = Options scraper).
  { exists []. rewrite app_nil_r. unfold gets. simpl. repeat split; intros; lia. }
  destruct (scanLoop lib scraper _ _) as [st rest|e|m|s1] eqn:Hscan;
    try (injection H as <- <- <-; exact Hnone).
  pose proof (scanLoop_Refetch_Options _ _ _ _ Hscan) as Hopt1.
  apply scanLoop_Refetch in Hscan as [Hpos Hsame].
  pose proof (getDocument_MaxRedirect lib net w s1) as Hdec.
  pose proof (getDocument_Options lib net w s1) as Hopt2.
  destruct (getDocument_log lib net w s1) as (reqs1 & Hw1 & Hone).
  apply OneFetch_counts in Hone as (Hg1 & Hl1 & Hlim1).
  pose proof (prepare_frame lib s1) as (_ & Hoptp & _).
  rewrite Hoptp, Hopt1 in Hlim1.
  pose proof (wrapInt_le (MaxRedirect scraper - 1)) as Hwrap.
  destruct (getDocument lib net w s1) as [[w1 s2] r1]. simpl in *.
  rewrite Hsame in Hdec. subst w1.
  assert (Hbudget : (Z.to_nat (MaxRedirect s2) + 1 <= Z.to_nat (MaxRedirect scraper))%nat)
    by lia.
  destruct r1 as [fdoc|e|m].
  - apply IH in H as (reqs2 & -> & Hg2 & Hl2 & Hlim2 & Ho2).
    exists (reqs1 ++ reqs2)%list. rewrite gets_app, length_app.
    split; [symmetry; apply app_assoc|]. rewrite Hopt2, Hopt1 in *.
    split; [lia|]. split; [lia|]. split; [|exact Ho2].
    intros Hle. specialize (Hlim1 Hle). specialize (Hlim2 Hle). lia.
  - injection H as <- <- <-. exists reqs1. rewrite Hopt2, Hopt1.
    split; [reflexivity|]. split; [lia|]. split; [lia|]. split; [|reflexivity].
    intros Hle. specialize (Hlim1 Hle). lia.
  - injection H as <- <- <-. exists reqs1. rewrite Hopt2, Hopt1.
    split; [reflexivity|]. split; [lia|]. split; [lia|]. split; [|reflexivity].
    intros Hle. specialize (Hlim1 Hle). lia.
Qed.

End FetchResults.

(** X6.  One call of [getDocument] adds to the log nothing, or a HEAD
    request, or a GET request, or a HEAD request and then a GET request;
    the HEAD request is sent only under a length limit.  Every request is
    for the URL of the prepared scraper (the escaped-fragment URL when
    there is one) and carries a User-Agent that is not empty. *)
Theorem X6_one_fetch_at_most_head_then_get :
  forall (lib : GoLib) (net : Transport) (w : World) (scraper : Scraper),
    exists reqs,
      fst (fst (getDocument lib net w scraper)) = (w ++ reqs)%list
      /\ OneFetch lib (prepare lib scraper) reqs
      /\ Forall (fun req =>
                   RequestURI req = getUrl lib (prepare lib scraper)
                   /\ HeaderUserAgent req <> "") reqs.
Proof.
  intros lib net w scraper.
  destruct (getDocument_log lib net w scraper) as (reqs & Hw & Hone).
  exists reqs. split; [exact Hw|]. split; [exact Hone|].
  destruct Hone; repeat constructor; simpl; apply userAgent_not_empty.
Qed.

(** X7.  When [getDocument] returns a document, the GET request was
    answered; under a length limit the body is not longer than the limit,
    and neither is the Content-Length of an answered HEAD probe; the body
    and the content type of the document are those of the answer; the URL
    the scraper will ask next is the URL the transport ended at; the
    preview is empty but for its link, which is the URL the scraper holds;
    and the scraper is the prepared one, or the prepared one moved to the
    URL the transport ended at, with no escaped-fragment URL. *)
Theorem X7_fetched_document :
  forall (lib : GoLib) (net : Transport) (w w' : World)
         (scraper scraper' : Scraper) (doc : Document),
    getDocument lib net w scraper = (w', scraper', Ok doc) ->
    exists w1 resp,
      http_Do net w1 (getRequest lib (prepare lib scraper)) = Ok resp
      /\ (0 < MaxDocumentLength (Options scraper) ->
          BodyLength resp <= MaxDocumentLength (Options scraper)
          /\ forall probe,
              http_NewRequest net "HEAD" (getUrl lib (prepare lib scraper)) = None ->
              http_Do net w (headRequest lib (prepare lib scraper)) = Ok probe ->
              ContentLength probe <= MaxDocumentLength (Options scraper))
      /\ Body doc = BodyTokens resp
      /\ ContentType (ResHeader doc) = HeaderContentType resp
      /\ getUrl lib scraper' = url_String lib (RequestURL resp)
      /\ Preview doc = emptyPreview (url_String lib (Url scraper'))
      /\ (scraper' = prepare lib scraper
          \/ scraper' = setUrl (setEscapedFragmentUrl (prepare lib scraper) None)
                               (RequestURL resp)).
Proof.
  intros lib net w w' scraper scraper' doc H.
  apply getDocument_Ok in H
    as (w1 & resp & Hdo & Hprobe & Hlen & Hbody & Hct & Hurl & Hprev & Hs).
  exists w1, resp. repeat split; auto.
  intros probe Hnew Hhead.
  pose proof (prepare_frame lib scraper) as (_ & Hopt & _).
  rewrite <- Hopt in *.
  eapply headProbe_passes; eassumption.
Qed.

Lemma X7_witness :
  exists w1 resp,
    http_Do (GoRef.serve Pages.titled) w1
            (getRequest GoRef.lib (prepare GoRef.lib (Pages.session 3))) = Ok resp
    /\ BodyTokens resp = Pages.titled.
Proof.
  destruct (X7_fetched_document GoRef.lib (GoRef.serve Pages.titled) []
              [Pages.get "https://ex.com/p"] (Pages.session 3) (Pages.session 2)
              (Pages.fetched Pages.titled))
    as (w1 & resp & Hdo & _ & Hbody & _).
  - vm_compute. reflexivity.
  - exists w1, resp. split; [exact Hdo|]. symmetry. exact Hbody.
Defined.

(** X8.  The budget bounds the requests.  The scans of [ParseDocument]
    send at most as many GET requests as the budget they start with, and
    at most twice as many requests (as many, without a length limit).  A
    scrape whose budget is not the smallest integer sends at most one GET
    request more than its budget less one allows: at most [max 1 budget]. *)
Theorem X8_budget_bounds_requests :
  forall (lib : GoLib) (net : Transport) (w w' : World)
         (scraper scraper' : Scraper) (r : result Document),
    (forall doc,
        ParseDocument lib net w scraper doc = Some (w', scraper', r) ->
        exists reqs,
          w' = (w ++ reqs)%list
          /\ (gets reqs <= Z.to_nat (MaxRedirect scraper))%nat
          /\ (List.length reqs <= 2 * Z.to_nat (MaxRedirect scraper))%nat
          /\ (MaxDocumentLength (Options scraper) <= 0 ->
              (List.length reqs <= Z.to_nat (MaxRedirect scraper))%nat))
    /\ (minInt < MaxRedirect scraper ->
        Scrape_ lib net w scraper = Some (w', scraper', r) ->
        exists reqs,
          w' = (w ++ reqs)%list
          /\ (gets reqs <= Z.to_nat (Z.max 1 (MaxRedirect scraper)))%nat
          /\ (List.length reqs <= 2 * Z.to_nat (Z.max 1 (MaxRedirect scraper)))%nat).
Proof.
  intros lib net w w' scraper scraper' r. split.
  - intros doc H. unfold ParseDocument in H.
    apply parseDocument_requests in H as (reqs & Hw & Hg & Hl & Hlim & _).
    exists reqs. auto.
  - intros Hmin H. unfold Scrape_ in H.
    pose proof (getDocument_MaxRedirect lib net w scraper) as Hdec.
    destruct (getDocument_log lib net w scraper) as (reqs1 & Hw1 & Hone).
    apply (OneFetch_counts lib) in Hone as (Hg1 & Hl1 & _).
    destruct (getDocument lib net w scraper) as [[w1 s1] r1]. simpl in *.
    subst w1.
    assert (Hs1 : MaxRedirect s1 <= MaxRedirect scraper - 1).
    { rewrite Hdec. unfold wrapInt, minInt in *.
      destruct (Z_le_gt_dec (MaxRedirect scraper) (2 ^ 63)).
      - rewrite Z.mod_small by lia. lia.
      - assert (Hm : (MaxRedirect scraper - 1 + 2 ^ 63) mod 2 ^ 64 < 2 ^ 64)
          by (apply Z.mod_pos_bound; lia).
        lia. }
    destruct r1 as [fdoc|e|m].
    + unfold ParseDocument in H.
      apply parseDocument_requests in H as (reqs2 & -> & Hg2 & Hl2 & _).
      exists (reqs1 ++ reqs2)%list. rewrite gets_app, length_app.
      split; [symmetry; apply app_assoc|]. split; lia.
    + injection H as <- <- <-. exists reqs1. split; [reflexivity|]. split; lia.
    + injection H as <- <- <-. exists reqs1. split; [reflexivity|]. split; lia.
Qed.

Lemma X8_witness :
  exists reqs,
    [Pages.get Pages.badQuery; Pages.get Pages.badQuery; Pages.get Pages.badQuery]
    = ([] ++ reqs)%list
    /\ (gets reqs <= 3)%nat.
Proof.
  edestruct (fun s' r =>
               proj2 (X8_budget_bounds_requests GoRef.lib
                        (GoRef.serve Pages.crawlable) []
                        [Pages.get Pages.badQuery; Pages.get Pages.badQuery;
                         Pages.get Pages.badQuery]
                        (Pages.visiting badQueryUrl 3) s' r))
    as (reqs & Hreqs & Hg & _).
  - simpl. unfold minInt. lia.
  - vm_compute. reflexivity.
  - exists reqs. split; [exact Hreqs | exact Hg].
Defined.

(** ** Pages without metadata, and the description *)

Section PlainPages.

Variable lib : GoLib.
Variable scraper : Scraper.

Lemma switchData_plain st token next :
  plainTag token = true ->
  switchData lib scraper st token next = Ok st
  \/ switchData lib scraper st token next = Ok (setHeadPassed st).
Proof.
  unfold plainTag, switchData. intros H. apply negb_true_iff in H.
  apply orb_false_elim in H as [H Himg]. apply orb_false_elim in H as [H Htitle].
  apply orb_false_elim in H as [Hlink Hmeta].
  rewrite Hlink, Hmeta, Htitle, Himg.
  destruct (Data token =? "head")%string;
    [destruct (TokenType_eqb _ _); auto|].
  destruct (Data token =? "body")%string; auto.
Qed.

Lemma plainTag_not_title token : plainTag token = true -> isTitleStart token = false.
Proof.
  unfold plainTag, isTitleStart. intros H. apply negb_true_iff in H.
  apply orb_false_elim in H as [H _]. apply orb_false_elim in H as [_ H].
  rewrite H. reflexivity.
Qed.

Lemma endOfTurn_quiet st rest : quiet st -> endOfTurn lib scraper st rest = None.
Proof.
  intros (Ho & Hc & Hf). unfold endOfTurn, enough. rewrite Ho, Hc, Hf. simpl.
  rewrite andb_false_r. reflexivity.
Qed.

Lemma scanLoop_plain t st :
  plainPage t = true -> quiet st ->
  exists st', scanLoop lib scraper st t = Finished st' []
              /\ preview st' = preview st.
Proof.
  pattern st, t. revert st. revert t. apply scanLoop_ind'.
  - intros st _ _. exists st. auto.
  - intros st token rest Hty _ _. rewrite scanLoop_error by assumption. eauto.
  - intros st token rest Hne Htag IH Hp Hq. rewrite scanLoop_skip by assumption.
    simpl in Hp. apply andb_prop in Hp as [_ Hp]. auto.
  - intros st token rest Htag IH Hp Hq. rewrite scanLoop_tag by assumption.
    simpl in Hp. apply andb_prop in Hp as [Ht Hp].
    rewrite Htag in Ht. simpl in Ht.
    unfold remaining, lookahead in *. rewrite (plainTag_not_title token Ht) in *.
    destruct (switchData_plain st token token Ht) as [-> | ->].
    + rewrite endOfTurn_quiet by exact Hq. auto.
    + assert (Hq' : quiet (setHeadPassed st)) by exact Hq.
      rewrite endOfTurn_quiet by exact Hq'.
      destruct (IH (setHeadPassed st) Hp Hq') as (st' & Hs & Hpre). eauto.
Qed.

Lemma caseMeta_ogDescription st token :
  isMeta lib "og:description" token ->
  caseMeta lib scraper st token =
  Ok (withPreview (marked lib scraper st token)
                  (setDescription (preview (marked lib scraper st token))
                                  (metaContent lib token))).
Proof.
  intros (_ & Hlen & Hprop). unfold caseMeta. rewrite Hlen, Hprop. reflexivity.
Qed.

Lemma caseMeta_description st token :
  isMeta lib "description" token ->
  caseMeta lib scraper st token =
  Ok (if (Description (preview st) =? "")%string
      then withPreview (marked lib scraper st token)
                       (setDescription (preview (marked lib scraper st token))
                                       (metaContent lib token))
      else marked lib scraper st token).
Proof.
  intros (_ & Hlen & Hprop). unfold caseMeta. rewrite Hlen, Hprop. simpl.
  assert (Hp : preview (marked lib scraper st token) = preview st).
  { unfold marked. destruct (_ && _); reflexivity. }
  rewrite Hp. destruct (Description (preview st)); reflexivity.
Qed.

End PlainPages.

(** X9.  A page whose tags are none of [link], [meta], [title] and [img]
    is scanned to its end without a request, whatever the budget, and the
    preview returned is the one of the document with no image, the host as
    the site name and the favicon of the site as the icon. *)
Theorem X9_page_without_metadata :
  forall (lib : GoLib) (net : Transport) (w : World) (scraper : Scraper)
         (doc : Document),
    plainPage (Body doc) = true ->
    ParseDocument lib net w scraper doc =
    Some (w, scraper,
          Ok (setPreview doc
                (setIcon (setName (setImages (Preview doc) []) (Host (Url scraper)))
                         (Scheme (Url scraper) ++ "://" ++ Host (Url scraper)
                          ++ "/favicon.ico")))).
Proof.
  intros lib net w scraper doc Hp.
  destruct (scanLoop_plain lib scraper (Body doc) (initScan scraper doc) Hp)
    as (st' & Hs & Hpre).
  { unfold quiet. simpl. auto. }
  unfold ParseDocument, scans. simpl. rewrite Hs, Hpre. reflexivity.
Qed.

Lemma X9_witness :
  Pages.previewOf 5 [GoRef.start "html" []; GoRef.start "head" [];
                     GoRef.close "head"; GoRef.start "body" [];
                     GoRef.text "title"; GoRef.close "body"]
  = Some {| Icon := "https://ex.com/favicon.ico"; Name := "ex.com";
            Title := ""; Description := ""; PreviewType := "";
            Images := []; Link := "https://ex.com/p" |}.
Proof.
  unfold Pages.previewOf.
  rewrite X9_page_without_metadata by (vm_compute; reflexivity).
  reflexivity.
Defined.

(** X10.  The Open Graph description wins in both orders: when an
    [og:description] with a content that is not empty and a generic
    [description] meta tag are handled one after the other, whichever
    comes first, the description is the Open Graph one. *)
Theorem X10_og_description_wins :
  forall (lib : GoLib) (scraper : Scraper) (st : ScanState)
         (og generic next : Token),
    isMeta lib "og:description" og ->
    isMeta lib "description" generic ->
    metaContent lib og <> "" ->
    (exists st1 st2,
        switchData lib scraper st og next = Ok st1
        /\ switchData lib scraper st1 generic next = Ok st2
        /\ Description (preview st2) = metaContent lib og)
    /\ (exists st1 st2,
           switchData lib scraper st generic next = Ok st1
           /\ switchData lib scraper st1 og next = Ok st2
           /\ Description (preview st2) = metaContent lib og).
Proof.
  intros lib scraper st og generic next Hog Hgen Hne.
  assert (Hdo : Data og = "meta") by apply Hog.
  assert (Hdg : Data generic = "meta") by apply Hgen.
  split; eexists; eexists.
  - split; [rewrite switchData_meta by exact Hdo;
            apply caseMeta_ogDescription; exact Hog|].
    split; [rewrite switchData_meta by exact Hdg;
            apply caseMeta_description; exact Hgen|].
    simpl. destruct (metaContent lib og) as [|a s]; [congruence|].
    simpl. unfold marked at 1. destruct (_ && _); reflexivity.
  - split; [rewrite switchData_meta by exact Hdg;
            apply caseMeta_description; exact Hgen|].
    split; [rewrite switchData_meta by exact Hdo;
            apply caseMeta_ogDescription; exact Hog|].
    reflexivity.
Qed.

Lemma X10_witness :
  exists st1 st2,
    switchData GoRef.lib (Pages.session 0)
      (initScan (Pages.session 0) (Pages.fetched []))
      (GoRef.start "meta" [("name", "description"); ("content", "plain")])
      (GoRef.close "head") = Ok st1
    /\ switchData GoRef.lib (Pages.session 0) st1
         (Pages.meta "og:description" "D") (GoRef.close "head") = Ok st2
    /\ Description (preview st2) = "D".
Proof.
  refine (proj2 (X10_og_description_wins GoRef.lib (Pages.session 0)
                   (initScan (Pages.session 0) (Pages.fetched []))
                   (Pages.meta "og:description" "D")
                   (GoRef.start "meta" [("name", "description"); ("content", "plain")])
                   (GoRef.close "head") _ _ _)).
  - repeat split; vm_compute; reflexivity.
  - repeat split; vm_compute; reflexivity.
  - vm_compute. discriminate.
Defined.

(** ** The URL that is asked for *)

Section FragmentUrlFacts.

Variable lib : GoLib.

Lemma FindStringSubmatch_None s :
  Str.Contains s "#!" = false -> FindStringSubmatch s = None.
Proof.
  induction s as [|c s IH]; intros H; rewrite FragmentFacts.FindStringSubmatch_eq.
  - reflexivity.
  - cbn [Str.Contains] in H. apply orb_false_elim in H as [Hp Hs].
    rewrite Hp. apply IH. exact Hs.
Qed.

Lemma toFragmentUrl_setMaxRedirect scraper n :
  toFragmentUrl lib (setMaxRedirect scraper n) =
  (s <- toFragmentUrl lib scraper ;; Ok (setMaxRedirect s n)).
Proof.
  unfold toFragmentUrl. simpl.
  destruct (Url.QueryUnescape _) as [u| |]; simpl; try reflexivity.
  destruct (FindStringSubmatch u) as [[m0 m1]|];
    destruct (url_Parse lib _); reflexivity.
Qed.

Lemma toFragmentUrl_Ok scraper scraper' :
  toFragmentUrl lib scraper = Ok scraper' ->
  exists u, scraper' = setEscapedFragmentUrl scraper (Some u).
Proof.
  unfold toFragmentUrl.
  destruct (Url.QueryUnescape _) as [s| |]; simpl; try discriminate.
  destruct (FindStringSubmatch s) as [[m0 m1]|];
    destruct (url_Parse lib _) as [u| |]; simpl; try discriminate;
    intros [= <-]; eauto.
Qed.

End FragmentUrlFacts.

(** X11.  [toFragmentUrl] touches the escaped-fragment URL only: when it
    returns without an error, that URL is set and the URL, the budget and
    the options of the scraper are as they were.  When the URL does not
    decode it returns the decoding error.  When the decoded URL has no
    [#!], the candidate it parses is the decoded URL followed by
    [?_escaped_fragment_=], or by [&_escaped_fragment_=] when the parsed
    query has a key, whether or not the marker is already there. *)
Theorem X11_toFragmentUrl_sets_one_field :
  forall (lib : GoLib) (scraper : Scraper),
    (forall scraper',
        toFragmentUrl lib scraper = Ok scraper' ->
        Url scraper' = Url scraper
        /\ MaxRedirect scraper' = MaxRedirect scraper
        /\ Options scraper' = Options scraper
        /\ EscapedFragmentUrl scraper' <> None)
    /\ (forall e,
           Url.QueryUnescape (url_String lib (Url scraper)) = Err e ->
           toFragmentUrl lib scraper = Err e)
    /\ (forall s,
           Url.QueryUnescape (url_String lib (Url scraper)) = Ok s ->
           Str.Contains s "#!" = false ->
           toFragmentUrl lib scraper =
           (fragmentUrl <-
              url_Parse lib
                (s ++ (if url_Query_len lib (Url scraper) >? 0 then "&" else "?")
                   ++ "_escaped_fragment_=") ;;
            Ok (setEscapedFragmentUrl scraper (Some fragmentUrl)))).
Proof.
  intros lib scraper. split; [|split].
  - intros scraper' H. apply toFragmentUrl_Ok in H as [u ->]. simpl.
    repeat split; discriminate.
  - intros e H. unfold toFragmentUrl. rewrite H. reflexivity.
  - intros s H Hno. unfold toFragmentUrl. rewrite H. cbn [bind].
    rewrite FindStringSubmatch_None by exact Hno. reflexivity.
Qed.

Lemma X11_witness :
  toFragmentUrl GoRef.lib
    (Pages.visiting (GoRef.mkURL "http" "" "ex.com" "/a" false "x=1" "") 1) =
  (fragmentUrl <- GoRef.Parse ("http://ex.com/a?x=1" ++ "&" ++ "_escaped_fragment_=") ;;
   Ok (setEscapedFragmentUrl
         (Pages.visiting (GoRef.mkURL "http" "" "ex.com" "/a" false "x=1" "") 1)
         (Some fragmentUrl))).
Proof.
  refine (proj2 (proj2 (X11_toFragmentUrl_sets_one_field GoRef.lib
            (Pages.visiting (GoRef.mkURL "http" "" "ex.com" "/a" false "x=1" "") 1)))
            "http://ex.com/a?x=1" _ _).
  - vm_compute. reflexivity.
  - vm_compute. reflexivity.
Defined.

(** X12.  The URL [getDocument] asks for.  A URL that holds
    [_escaped_fragment_=] is asked for as it is, whatever escaped-fragment
    URL the scraper held.  Otherwise a URL with [#!] that
    [toFragmentUrl] rewrites is asked for in its rewritten form; and a URL
    without [#!], or one the rewrite fails on, leaves the scraper asking
    what it asked before. *)
Theorem X12_url_asked_for :
  forall (lib : GoLib) (scraper : Scraper),
    (Str.Contains (url_String lib (Url scraper)) EscapedFragment = true ->
     getUrl lib (prepare lib scraper) = url_String lib (Url scraper))
    /\ (Str.Contains (url_String lib (Url scraper)) EscapedFragment = false ->
        Str.Contains (url_String lib (Url scraper)) "#!" = true ->
        forall scraper',
          toFragmentUrl lib scraper = Ok scraper' ->
          getUrl lib (prepare lib scraper) = getUrl lib scraper')
    /\ (Str.Contains (url_String lib (Url scraper)) EscapedFragment = false ->
        Str.Contains (url_String lib (Url scraper)) "#!" = false
        \/ (forall scraper', toFragmentUrl lib scraper <> Ok scraper') ->
        getUrl lib (prepare lib scraper) = getUrl lib scraper).
Proof.
  intros lib scraper.
  set (s1 := setMaxRedirect scraper (wrapInt (MaxRedirect scraper - 1))).
  assert (Hp : prepare lib scraper =
               let s2 := if Str.Contains (url_String lib (Url scraper)) "#!"
                         then toFragmentUrl_ lib s1 else s1 in
               if Str.Contains (url_String lib (Url scraper)) EscapedFragment
               then setEscapedFragmentUrl s2 (Some (Url scraper)) else s2).
  { unfold prepare. fold s1. change (Url s1) with (Url scraper). cbv zeta.
    destruct (Str.Contains (url_String lib (Url scraper)) "#!"); [|reflexivity].
    destruct (toFragmentUrl__frame lib s1) as [-> _]. reflexivity. }
  rewrite Hp. cbv zeta. clear Hp.
  assert (Hs1 : toFragmentUrl lib s1 =
                (s <- toFragmentUrl lib scraper ;;
                 Ok (setMaxRedirect s (wrapInt (MaxRedirect scraper - 1)))))
    by apply toFragmentUrl_setMaxRedirect.
  split; [|split].
  - intros Hef. rewrite Hef. reflexivity.
  - intros Hef Hhb scraper' H. rewrite Hef, Hhb. unfold toFragmentUrl_.
    rewrite Hs1, H. reflexivity.
  - intros Hef Hor. rewrite Hef.
    destruct (Str.Contains _ "#!") eqn:Hhb; [|reflexivity].
    destruct Hor as [Hor | Hor]; [discriminate|].
    unfold toFragmentUrl_. rewrite Hs1.
    destruct (toFragmentUrl lib scraper) as [s'| |] eqn:Hs; try reflexivity.
    elim (Hor s'). reflexivity.
Qed.

Lemma X12_witness :
  getUrl GoRef.lib (prepare GoRef.lib (Pages.visiting Pages.hashBang 1))
  = "http://ex.com/?_escaped_fragment_=a+b".
Proof.
  destruct (toFragmentUrl GoRef.lib (Pages.visiting Pages.hashBang 1))
    as [scraper'| |] eqn:H; [|vm_compute in H; discriminate H..].
  rewrite (proj1 (proj2 (X12_url_asked_for GoRef.lib
                           (Pages.visiting Pages.hashBang 1)))
             eq_refl eq_refl scraper' H).
  vm_compute in H. injection H as <-. reflexivity.
Defined.

(** ** The builder and the default User-Agent *)

Section Wire.

Variable lib : GoLib.
Variable net : Transport.

Lemma sameWire_getUrl s1 s2 : sameWire s1 s2 -> getUrl lib s1 = getUrl lib s2.
Proof. intros (Hu & He & _). unfold getUrl. rewrite Hu, He. reflexivity. Qed.

Lemma sameWire_toFragmentUrl_ s1 s2 :
  sameWire s1 s2 -> sameWire (toFragmentUrl_ lib s1) (toFragmentUrl_ lib s2).
Proof.
  intros H. pose proof H as (Hu & He & Hm & Hl & Ha).
  unfold toFragmentUrl_, toFragmentUrl. rewrite Hu.
  destruct (Url.QueryUnescape _) as [u| |]; simpl; try exact H.
  destruct (FindStringSubmatch u) as [[m0 m1]|];
    destruct (url_Parse lib _); simpl; try exact H;
    unfold sameWire; simpl; auto.
Qed.

Lemma sameWire_prepare s1 s2 :
  sameWire s1 s2 -> sameWire (prepare lib s1) (prepare lib s2).
Proof.
  intros H. pose proof H as (Hu & He & Hm & Hl & Ha).
  assert (H1 : sameWire (setMaxRedirect s1 (wrapInt (MaxRedirect s1 - 1)))
                        (setMaxRedirect s2 (wrapInt (MaxRedirect s2 - 1)))).
  { unfold sameWire. simpl. rewrite Hm. auto. }
  unfold prepare. cbn [Url setMaxRedirect]. rewrite Hu.
  destruct (Str.Contains (url_String lib (Url s2)) "#!").
  - pose proof (sameWire_toFragmentUrl_ _ _ H1) as H2.
    pose proof H2 as (Hu2 & _). rewrite Hu2.
    destruct (Str.Contains _ EscapedFragment); [|exact H2].
    destruct H2 as (_ & _ & Hm2 & Hl2 & Ha2). unfold sameWire. simpl. auto.
  - cbn [Url setMaxRedirect]. rewrite Hu.
    destruct (Str.Contains _ EscapedFragment); [|exact H1].
    unfold sameWire. simpl. rewrite Hm. auto.
Qed.

Lemma sameWire_fetch w s1 s2 :
  sameWire s1 s2 ->
  sameRun (Some (fetch lib net w s1)) (Some (fetch lib net w s2)).
Proof.
  intros H. pose proof H as (Hu & He & Hm & Hl & Ha).
  pose proof (sameWire_getUrl _ _ H) as Hg.
  assert (Hh : headRequest lib s1 = headRequest lib s2).
  { unfold headRequest. rewrite Hg, Ha. reflexivity. }
  assert (Hr : getRequest lib s1 = getRequest lib s2).
  { unfold getRequest. rewrite Hg, Ha. reflexivity. }
  assert (Hp : headProbe lib net w s1 = headProbe lib net w s2).
  { unfold headProbe. fold (headRequest lib s1) (headRequest lib s2).
    rewrite Hl, Hg, Hh. reflexivity. }
  unfold fetch. rewrite Hp, Hg, Hr.
  destruct (headProbe lib net w s2) as [w1 [e|]]; [simpl; auto|].
  destruct (http_NewRequest net "GET" _); [simpl; auto|].
  destruct (http_Do net w1 _) as [resp| |]; try (simpl; auto).
  set (t1 := if negb _ then setUrl (setEscapedFragmentUrl s1 None) _ else s1).
  set (t2 := if negb _ then setUrl (setEscapedFragmentUrl s2 None) _ else s2).
  assert (Ht : sameWire t1 t2).
  { unfold t1, t2. destruct (negb _); [|exact H]. unfold sameWire. simpl. auto. }
  pose proof Ht as (Htu & _ & _ & Htl & _). rewrite Htl, Htu.
  destruct (convertUTF8 _ resp); simpl; auto.
Qed.

Lemma sameWire_getDocument w s1 s2 :
  sameWire s1 s2 ->
  sameRun (Some (getDocument lib net w s1)) (Some (getDocument lib net w s2)).
Proof.
  intros H. rewrite !getDocument_eq. apply sameWire_fetch.
  apply sameWire_prepare. exact H.
Qed.

Lemma sameWire_imgAttrs s1 s2 attrs : forall st,
  Url s1 = Url s2 -> imgAttrs lib s1 attrs st = imgAttrs lib s2 attrs st.
Proof.
  intros st Hu. revert st.
  induction attrs as [|attr attrs IH]; intros st; simpl; [reflexivity|].
  unfold imgSrc. rewrite Hu. destruct (isSrc lib attr); [|apply IH].
  destruct (url_Parse lib _) as [u| |]; simpl; try reflexivity.
  destruct (negb (IsAbs u)); simpl; [|apply IH].
  destruct (Path u); simpl; [reflexivity|].
  destruct (_ =? _)%string; simpl; apply IH.
Qed.

Lemma sameWire_switchData s1 s2 st token next :
  sameWire s1 s2 ->
  switchData lib s1 st token next = switchData lib s2 st token next.
Proof.
  intros (Hu & He & _). unfold switchData, caseImg, caseMeta, marked.
  rewrite (sameWire_imgAttrs s1 s2 (Attr token) st Hu), Hu, He. reflexivity.
Qed.

Lemma sameWire_endOfTurn s1 s2 st rest :
  sameWire s1 s2 ->
  match endOfTurn lib s1 st rest, endOfTurn lib s2 st rest with
  | Some o1, Some o2 => sameOutcome o1 o2
  | None, None => True
  | _, _ => False
  end.
Proof.
  intros H. pose proof H as (Hu & He & Hm & Hl & Ha).
  unfold endOfTurn. rewrite Hm, Hu.
  destruct (hasCanonical st && headPassed st && (MaxRedirect s2 >? 0)).
  - destruct (canonicalUrl st) as [cu|]; [|reflexivity].
    destruct (negb (IsAbs cu)).
    + destruct (url_Parse lib _); simpl; try reflexivity.
      unfold sameWire. simpl. auto.
    + simpl. unfold sameWire. simpl. auto.
  - destruct (hasFragment st && headPassed st && (MaxRedirect s2 >? 0)).
    + simpl. apply sameWire_toFragmentUrl_. exact H.
    + destruct (enough st); simpl; auto.
Qed.

Lemma sameWire_scanLoop s1 s2 t st :
  sameWire s1 s2 ->
  sameOutcome (scanLoop lib s1 st t) (scanLoop lib s2 st t).
Proof.
  intros H. pattern st, t. revert st. revert t. apply scanLoop_ind'.
  - intros st. reflexivity.
  - intros st token rest Hty. rewrite !scanLoop_error by assumption. reflexivity.
  - intros st token rest Hne Htag IH. rewrite !scanLoop_skip by assumption. exact IH.
  - intros st token rest Htag IH. rewrite !scanLoop_tag by assumption.
    rewrite (sameWire_switchData s1 s2 st token _ H).
    destruct (switchData lib s2 st token _) as [st1| |]; try reflexivity.
    pose proof (sameWire_endOfTurn s1 s2 st1 (remaining token rest) H) as He.
    destruct (endOfTurn lib s1 st1 _) as [o1|];
      destruct (endOfTurn lib s2 st1 _) as [o2|]; try contradiction; auto.
Qed.

Lemma sameWire_parseDocument fuel : forall w s1 s2 doc,
  sameWire s1 s2 ->
  sameRun (parseDocument lib net fuel w s1 doc) (parseDocument lib net fuel w s2 doc).
Proof.
  induction fuel as [|fuel IH]; intros w s1 s2 doc H; [exact I|].
  simpl. pose proof H as (Hu & _).
  assert (Hi : initScan s1 doc = initScan s2 doc).
  { unfold initScan. rewrite Hu. reflexivity. }
  rewrite Hi.
  pose proof (sameWire_scanLoop s1 s2 (Body doc) (initScan s2 doc) H) as Hs.
  destruct (scanLoop lib s1 _ _) as [st1 r1|e1|m1|a1];
    destruct (scanLoop lib s2 _ _) as [st2 r2|e2|m2|a2];
    simpl in Hs; try contradiction; try discriminate Hs.
  - injection Hs as <- _. simpl. auto.
  - injection Hs as <-. simpl. auto.
  - injection Hs as <-. simpl. auto.
  - pose proof (sameWire_getDocument w a1 a2 Hs) as Hg.
    destruct (getDocument lib net w a1) as [[w1 b1] d1].
    destruct (getDocument lib net w a2) as [[w2 b2] d2].
    simpl in Hg. destruct Hg as (<- & Hb & <-).
    destruct d1; simpl; auto.
Qed.

Lemma sameWire_Scrape_ w s1 s2 :
  sameWire s1 s2 -> sameRun (Scrape_ lib net w s1) (Scrape_ lib net w s2).
Proof.
  intros H. unfold Scrape_.
  pose proof (sameWire_getDocument w s1 s2 H) as Hg.
  destruct (getDocument lib net w s1) as [[w1 b1] d1].
  destruct (getDocument lib net w s2) as [[w2 b2] d2].
  simpl in Hg. destruct Hg as (<- & Hb & <-).
  destruct d1; simpl; auto.
  unfold ParseDocument, scans. pose proof Hb as (_ & _ & -> & _).
  apply sameWire_parseDocument. exact Hb.
Qed.

End Wire.

(** X13.  The two ways in agree.  A scraper built from a new builder with
    a URL, a budget and a length limit, and no user agent set, makes the
    requests and returns the result of [Scrape] on the same URL, budget
    and limit with an empty user agent: the builder's default "GoScraper"
    is what an empty user agent is sent as.  And [Build] fails with the
    error of [url.Parse], as [Scrape] does, before any request. *)
Theorem X13_builder_agrees_with_Scrape :
  forall (lib : GoLib) (net : Transport) (w : World)
         (uri : string) (maxRedirect maxLength : Z),
    let b := Builder.SetMaxDocumentLength maxLength
               (Builder.SetMaxRedirect maxRedirect
                  (Builder.SetUrl uri Builder.NewScrapeBuilder)) in
    let options := {| MaxDocumentLength := maxLength; UserAgent := "" |} in
    (forall scraper,
        Builder.Build lib b = Ok scraper ->
        forget (Scrape_ lib net w scraper)
        = Scrape lib net w uri maxRedirect options)
    /\ (forall e,
           Builder.Build lib b = Err e ->
           Scrape lib net w uri maxRedirect options = Some (w, Err e)).
Proof.
  intros lib net w uri maxRedirect maxLength b options. split.
  - intros scraper H. unfold Builder.Build in H. simpl in H.
    unfold Scrape.
    destruct (url_Parse lib uri) as [u| |]; simpl in H; try discriminate H.
    injection H as <-.
    match goal with
    | |- forget (Scrape_ _ _ _ ?s1) = match Scrape_ _ _ _ ?s2 with _ => _ end =>
      pose proof (sameWire_Scrape_ lib net w s1 s2) as Hrun
    end.
    assert (Hsame : sameRun
                      (Scrape_ lib net w
                         {| Url := u; EscapedFragmentUrl := None;
                            MaxRedirect := maxRedirect;
                            Options := {| MaxDocumentLength := maxLength;
                                          UserAgent := "GoScraper" |} |})
                      (Scrape_ lib net w
                         {| Url := u; EscapedFragmentUrl := None;
                            MaxRedirect := maxRedirect; Options := options |})).
    { apply Hrun. unfold sameWire. simpl. auto. }
    clear Hrun.
    destruct (Scrape_ lib net w _) as [[[w1 s1] d1]|];
      destruct (Scrape_ lib net w _) as [[[w2 s2] d2]|];
      simpl in *; try contradiction; [|reflexivity].
    destruct Hsame as (-> & _ & ->). reflexivity.
  - intros e H. unfold Builder.Build in H. simpl in H. unfold Scrape.
    destruct (url_Parse lib uri) as [u| |]; simpl in H; try discriminate H.
    injection H as <-. reflexivity.
Qed.

Lemma X13_witness :
  forget (Scrape_ GoRef.lib (GoRef.serve Pages.titled) []
            {| Url := Pages.site; EscapedFragmentUrl := None; MaxRedirect := 2;
               Options := {| MaxDocumentLength := 0; UserAgent := "GoScraper" |} |})
  = Scrape GoRef.lib (GoRef.serve Pages.titled) [] "https://ex.com/p" 2
           {| MaxDocumentLength := 0; UserAgent := "" |}.
Proof.
  refine (proj1 (X13_builder_agrees_with_Scrape GoRef.lib (GoRef.serve Pages.titled)
                   [] "https://ex.com/p" 2 0) _ _).
  vm_compute. reflexivity.
Defined.

(** ** Re-fetches that are not asked for *)

Lemma switchData_link' lib scraper st token next :
  Data token = "link" ->
  switchData lib scraper st token next = caseLink lib st token.
Proof. intros H. unfold switchData. rewrite H. reflexivity. Qed.

Section NoRefetch.

Variable lib : GoLib.
Variable scraper : Scraper.

Lemma linkAttrs_hasFragment attrs : forall v st st1,
  linkAttrs lib attrs v st = Ok st1 -> hasFragment st1 = hasFragment st.
Proof.
  induction attrs as [|attr attrs IH]; intros v st st1 H; simpl in H.
  - injection H as <-. reflexivity.
  - match type of H with
    | (st' <- ?c ;; _) = _ => destruct c as [st2| |] eqn:Hc; try discriminate H
    end.
    simpl in H. apply IH in H.
    assert (H2 : hasFragment st2 = hasFragment st).
    { destruct (_ && negb (link st =? _)%string) in Hc.
      - match type of Hc with
        | (_ <- ?c ;; _) = _ => destruct c; try discriminate Hc
        end.
        injection Hc as Heq. subst st2. reflexivity.
      - injection Hc as Heq. subst st2. reflexivity. }
    rewrite <- H2, H.
    match goal with
    | |- hasFragment (if ?b then _ else _) = _ => destruct b
    end; reflexivity.
Qed.

Lemma imgAttrs_hasFragment attrs : forall st st1,
  imgAttrs lib scraper attrs st = Ok st1 -> hasFragment st1 = hasFragment st.
Proof.
  induction attrs as [|attr attrs IH]; intros st st1 H; simpl in H.
  - injection H as <-. reflexivity.
  - destruct (isSrc lib attr); [|eauto].
    destruct (imgSrc lib scraper (Val attr)); try discriminate H. simpl in H.
    apply IH in H. exact H.
Qed.

Lemma switchData_hasFragment st token next st1 :
  EscapedFragmentUrl scraper <> None ->
  switchData lib scraper st token next = Ok st1 ->
  hasFragment st1 = hasFragment st.
Proof.
  intros He. unfold switchData.
  destruct (Data token =? "head")%string.
  { intros [= <-]. destruct (TokenType_eqb _ _); reflexivity. }
  destruct (Data token =? "body")%string; [intros [= <-]; reflexivity|].
  destruct (Data token =? "link")%string; [apply linkAttrs_hasFragment|].
  destruct (Data token =? "meta")%string.
  { unfold caseMeta, marked.
    destruct (EscapedFragmentUrl scraper) as [f|]; [|congruence].
    rewrite andb_false_r.
    destruct (negb _); [intros [= <-]; reflexivity|].
    repeat match goal with
           | |- (if ?b then _ else _) = _ -> _ => destruct b
           end; try (intros [= <-]; reflexivity).
    destruct (url_Parse lib _); try discriminate. intros [= <-]. reflexivity. }
  destruct (Data token =? "title")%string.
  { intros [= <-]. destruct (TokenType_eqb _ _); [|reflexivity].
    unfold caseTitle. destruct (_ =? _); reflexivity. }
  destruct (Data token =? "img")%string; [apply imgAttrs_hasFragment|].
  intros [= <-]. reflexivity.
Qed.

(** What a re-fetch can be when no fragment is pending, and when no
    canonical link is. *)
Lemma endOfTurn_no_fragment st rest s' :
  hasFragment st = false ->
  endOfTurn lib scraper st rest = Some (Refetch s') ->
  EscapedFragmentUrl s' = None.
Proof.
  intros Hf. unfold endOfTurn. rewrite Hf. simpl.
  destruct (hasCanonical st && headPassed st && (MaxRedirect scraper >? 0)).
  - destruct (canonicalUrl st) as [cu|]; [|discriminate].
    destruct (negb (IsAbs cu)).
    + destruct (url_Parse lib _); intros [= <-]; reflexivity.
    + intros [= <-]. reflexivity.
  - destruct (enough st); discriminate.
Qed.

Lemma endOfTurn_no_canonical st rest s' :
  hasCanonical st = false ->
  endOfTurn lib scraper st rest = Some (Refetch s') ->
  s' = toFragmentUrl_ lib scraper.
Proof.
  intros Hc. unfold endOfTurn. rewrite Hc. simpl.
  destruct (hasFragment st && headPassed st && (MaxRedirect scraper >? 0)).
  - intros [= <-]. reflexivity.
  - destruct (enough st); discriminate.
Qed.

Lemma scanLoop_no_fragment t st :
  EscapedFragmentUrl scraper <> None ->
  hasFragment st = false ->
  match scanLoop lib scraper st t with
  | Finished st' _ => hasFragment st' = false
  | Refetch s' => EscapedFragmentUrl s' = None
  | _ => True
  end.
Proof.
  intros He. pattern st, t. revert st. revert t. apply scanLoop_ind'.
  - intros st Hf. exact Hf.
  - intros st token rest Hty Hf. rewrite scanLoop_error by assumption. exact Hf.
  - intros st token rest Hne Htag IH Hf. rewrite scanLoop_skip by assumption.
    apply IH. exact Hf.
  - intros st token rest Htag IH Hf. rewrite scanLoop_tag by assumption.
    destruct (switchData lib scraper st token _) as [st1| |] eqn:Hsw; try exact I.
    apply (switchData_hasFragment _ _ _ _ He) in Hsw. rewrite Hf in Hsw.
    destruct (endOfTurn lib scraper st1 _) as [[st2 r2|e|m|s2]|] eqn:Hend;
      try exact I.
    + apply endOfTurn_Finished in Hend as [-> _]. exact Hsw.
    + eapply endOfTurn_no_fragment; eassumption.
    + apply IH. exact Hsw.
Qed.

Lemma linkAttrs_namesItself attrs : forall v st,
  href v = "" \/ href v = link st ->
  forallb (fun attr => negb (cleanStr lib (Key attr) =? "href")%string
                       || (Val attr =? link st)%string) attrs = true ->
  exists st1,
    linkAttrs lib attrs v st = Ok st1
    /\ hasCanonical st1 = hasCanonical st
    /\ link st1 = link st.
Proof.
  induction attrs as [|attr attrs IH]; intros v st Hv Hall; simpl.
  - eauto.
  - simpl in Hall. apply andb_prop in Hall as [Ha Hall].
    set (h := if (cleanStr lib (Key attr) =? "href")%string
              then Val attr else href v).
    assert (Hh : h = "" \/ h = link st).
    { unfold h. destruct (cleanStr lib (Key attr) =? "href")%string; [|exact Hv].
      simpl in Ha. apply String.eqb_eq in Ha. auto. }
    assert (Hcond : forall c, (Str.len h >? 0) && c && negb (link st =? h)%string
                              = false).
    { intros c. destruct Hh as [-> | ->].
      - reflexivity.
      - rewrite String.eqb_refl. simpl. apply andb_false_r. }
    rewrite Hcond. simpl.
    match goal with
    | |- exists st1, linkAttrs lib attrs ?v' ?st' = Ok st1 /\ _ =>
      destruct (IH v' st') as (st1 & Hrun & Hc & Hl)
    end.
    + simpl. destruct (_ && _); simpl; exact Hh.
    + destruct (_ && _); simpl; exact Hall.
    + exists st1. split; [exact Hrun|].
      destruct (_ && _) in Hc, Hl; simpl in *; auto.
Qed.

Lemma switchData_namesItself st token next st1 :
  (Data token = "link" -> namesItself lib (link st) token = true) ->
  switchData lib scraper st token next = Ok st1 ->
  hasCanonical st1 = hasCanonical st /\ link st1 = link st.
Proof.
  intros Hself Hsw.
  destruct (Data token =? "link")%string eqn:Hd.
  - apply String.eqb_eq in Hd. specialize (Hself Hd).
    rewrite (switchData_link' lib scraper st token next Hd) in Hsw.
    destruct (linkAttrs_namesItself (Attr token)
                {| canonical := false; hasIcon := false; href := "" |} st
                (or_introl eq_refl) Hself) as (st2 & Hrun & Hc & Hl).
    unfold caseLink in Hsw. rewrite Hrun in Hsw. injection Hsw as <-. auto.
  - pose proof (switchData_frame lib scraper st token next st1 Hsw) as [(Hl & _) _].
    split; [|exact Hl].
    revert Hsw. unfold switchData. rewrite Hd.
    destruct (Data token =? "head")%string.
    { intros [= <-]. destruct (TokenType_eqb _ _); reflexivity. }
    destruct (Data token =? "body")%string; [intros [= <-]; reflexivity|].
    destruct (Data token =? "meta")%string.
    { intros H. apply caseMeta_frame in H. tauto. }
    destruct (Data token =? "title")%string.
    { intros [= <-]. destruct (TokenType_eqb _ _); [|reflexivity].
      unfold caseTitle. destruct (_ =? _); reflexivity. }
    destruct (Data token =? "img")%string.
    { intros H. apply imgAttrs_frame in H. tauto. }
    intros [= <-]. reflexivity.
Qed.

Lemma remaining_In token rest x : In x (remaining token rest) -> In x rest.
Proof.
  unfold remaining, advance. destruct (isTitleStart token); [|auto].
  destruct rest as [|y r]; [auto|]. destruct (Type_ y); simpl; auto.
Qed.

Lemma scanLoop_namesItself t st :
  selfCanonical lib (link st) t ->
  hasCanonical st = false ->
  match scanLoop lib scraper st t with
  | Finished st' _ => hasCanonical st' = false
  | Refetch s' => s' = toFragmentUrl_ lib scraper
  | _ => True
  end.
Proof.
  pattern st, t. revert st. revert t. apply scanLoop_ind'.
  - intros st _ Hc. exact Hc.
  - intros st token rest Hty _ Hc. rewrite scanLoop_error by assumption. exact Hc.
  - intros st token rest Hne Htag IH Hs Hc. rewrite scanLoop_skip by assumption.
    apply IH; [|exact Hc]. intros x Hx. apply Hs. right. exact Hx.
  - intros st token rest Htag IH Hs Hc. rewrite scanLoop_tag by assumption.
    destruct (switchData lib scraper st token _) as [st1| |] eqn:Hsw; try exact I.
    apply switchData_namesItself in Hsw as [Hc1 Hl1];
      [|intros Hd; apply Hs; [left; reflexivity | exact Hd]].
    rewrite Hc in Hc1.
    destruct (endOfTurn lib scraper st1 _) as [[st2 r2|e|m|s2]|] eqn:Hend;
      try exact I.
    + apply (endOfTurn_Finished lib) in Hend as [-> _]. exact Hc1.
    + eapply endOfTurn_no_canonical; eassumption.
    + apply IH; [|exact Hc1]. rewrite Hl1.
      intros x Hx. apply Hs. right. eapply remaining_In. exact Hx.
Qed.

End NoRefetch.

Section Accounting.

Variable lib : GoLib.
Variable net : Transport.

Lemma parseDocument_accounts fuel : forall w scraper doc w' scraper' r,
  minInt <= MaxRedirect scraper <= maxInt ->
  parseDocument lib net fuel w scraper doc = Some (w', scraper', r) ->
  exists reqs,
    w' = (w ++ reqs)%list
    /\ Z.of_nat (gets reqs) <= MaxRedirect scraper - MaxRedirect scraper'
    /\ (0 <= MaxRedirect scraper -> 0 <= MaxRedirect scraper').
Proof.
  induction fuel as [|fuel IH]; intros w scraper doc w' scraper' r Hint H;
    [discriminate|].
  simpl in H.
  assert (Hnone : exists reqs,
             w = (w ++ reqs)%list
             /\ Z.of_nat (gets reqs) <= MaxRedirect scraper - MaxRedirect scraper
             /\ (0 <= MaxRedirect scraper -> 0 <= MaxRedirect scraper)).
  { exists []. rewrite app_nil_r. unfold gets. simpl. repeat split; lia. }
  destruct (scanLoop lib scraper _ _) as [st rest|e|m|s1] eqn:Hscan;
    try (injection H as <- <- <-; exact Hnone).
  apply scanLoop_Refetch in Hscan as [Hpos Hsame].
  pose proof (getDocument_MaxRedirect lib net w s1) as Hdec.
  destruct (getDocument_log lib net w s1) as (reqs1 & Hw1 & Hone).
  apply (OneFetch_counts lib) in Hone as (Hg1 & _ & _).
  destruct (getDocument lib net w s1) as [[w1 s2] r1]. simpl in *.
  rewrite Hsame in Hdec.
  rewrite wrapInt_id in Hdec by (unfold minInt, maxInt in *; lia).
  subst w1.
  destruct r1 as [fdoc|e|m].
  - apply IH in H as (reqs2 & -> & Hg2 & Hf2);
      [|unfold minInt, maxInt in *; lia].
    exists (reqs1 ++ reqs2)%list. rewrite gets_app.
    split; [symmetry; apply app_assoc|]. split; lia.
  - injection H as <- <- <-. exists reqs1. split; [reflexivity|]. split; lia.
  - injection H as <- <- <-. exists reqs1. split; [reflexivity|]. split; lia.
Qed.

End Accounting.

(** X14.  Every GET request of the scans of [ParseDocument] is paid with
    a unit of the budget, and the budget is not overdrawn: for a budget
    that is an [int], the number of GET requests sent is at most the
    budget at the start less the budget at the end, and a budget that
    starts at zero or more ends at zero or more. *)
Theorem X14_budget_accounts_for_requests :
  forall (lib : GoLib) (net : Transport) (w w' : World)
         (scraper scraper' : Scraper) (doc : Document) (r : result Document),
    minInt <= MaxRedirect scraper <= maxInt ->
    ParseDocument lib net w scraper doc = Some (w', scraper', r) ->
    exists reqs,
      w' = (w ++ reqs)%list
      /\ Z.of_nat (gets reqs) <= MaxRedirect scraper - MaxRedirect scraper'
      /\ (0 <= MaxRedirect scraper -> 0 <= MaxRedirect scraper').
Proof.
  intros lib net w w' scraper scraper' doc r Hint H.
  eapply parseDocument_accounts; eassumption.
Qed.

Lemma X14_witness :
  exists reqs,
    [Pages.get "https://other.example/x"] = ([] ++ reqs)%list
    /\ Z.of_nat (gets reqs) <= 1 - 0.
Proof.
  edestruct (fun s' r =>
               X14_budget_accounts_for_requests GoRef.lib
                 (GoRef.serve Pages.canonicalPage) []
                 [Pages.get "https://other.example/x"]
                 (Pages.session 1) s' (Pages.fetched Pages.canonicalPage) r)
    as (reqs & Hreqs & Hg & _).
  - simpl. unfold minInt, maxInt. lia.
  - vm_compute. reflexivity.
  - exists reqs. split; [exact Hreqs | exact Hg].
Defined.

(** X15.  Under an escaped-fragment URL the AJAX-crawling marker is not
    acted on: a scan by a scraper that holds such a URL never marks a
    fragment as pending, and the only re-fetch it can ask for is the
    canonical one, which drops the escaped-fragment URL. *)
Theorem X15_marker_ignored_under_escaped_fragment :
  forall (lib : GoLib) (scraper : Scraper) (doc : Document),
    EscapedFragmentUrl scraper <> None ->
    match scanLoop lib scraper (initScan scraper doc) (Body doc) with
    | Finished st' _ => hasFragment st' = false
    | Refetch scraper' => EscapedFragmentUrl scraper' = None
    | _ => True
    end.
Proof.
  intros lib scraper doc He.
  apply scanLoop_no_fragment; [exact He | reflexivity].
Qed.

Lemma X15_witness :
  exists st',
    scanLoop GoRef.lib
      (setEscapedFragmentUrl (Pages.session 3) (Some Pages.site))
      (initScan (setEscapedFragmentUrl (Pages.session 3) (Some Pages.site))
                (Pages.fetched Pages.crawlable))
      Pages.crawlable = Finished st' []
    /\ hasFragment st' = false.
Proof.
  pose proof (X15_marker_ignored_under_escaped_fragment GoRef.lib
                (setEscapedFragmentUrl (Pages.session 3) (Some Pages.site))
                (Pages.fetched Pages.crawlable)) as H.
  destruct (scanLoop GoRef.lib _ _ _) as [st' rest| | |] eqn:Hs;
    try (vm_compute in Hs; discriminate Hs).
  exists st'. split.
  - vm_compute in Hs. injection Hs as <- <-. reflexivity.
  - apply H. simpl. discriminate.
Defined.

(** X16.  A page that names itself as canonical is not fetched again for
    it: when the [href] of every [link] tag of the document is the link
    of its preview, no canonical link is ever pending, and the only
    re-fetch the scan can ask for is the one of the fragment marker.  If
    the scraper holds an escaped-fragment URL as well, [ParseDocument]
    sends no request at all and returns the scan of the document. *)
Theorem X16_self_canonical_page :
  forall (lib : GoLib) (net : Transport) (w : World) (scraper : Scraper)
         (doc : Document),
    selfCanonical lib (Link (Preview doc)) (Body doc) ->
    match scanLoop lib scraper (initScan scraper doc) (Body doc) with
    | Finished st' _ => hasCanonical st' = false
    | Refetch scraper' => scraper' = toFragmentUrl_ lib scraper
    | _ => True
    end
    /\ (EscapedFragmentUrl scraper <> None ->
        ParseDocument lib net w scraper doc =
        Some (w, scraper,
              scanResult doc (scanLoop lib scraper (initScan scraper doc) (Body doc)))
        /\ isRefetch (scanLoop lib scraper (initScan scraper doc) (Body doc)) = false).
Proof.
  intros lib net w scraper doc Hself.
  pose proof (scanLoop_namesItself lib scraper (Body doc) (initScan scraper doc)
                Hself eq_refl) as Hc.
  split; [exact Hc|].
  intros He.
  pose proof (scanLoop_no_fragment lib scraper (Body doc) (initScan scraper doc)
                He eq_refl) as Hf.
  assert (Hno : isRefetch (scanLoop lib scraper (initScan scraper doc) (Body doc))
                = false).
  { destruct (scanLoop lib scraper _ _) as [| | |s']; try reflexivity.
    exfalso. subst s'. unfold toFragmentUrl_ in Hf.
    destruct (toFragmentUrl lib scraper) as [s1| |] eqn:Hs; try contradiction.
    apply toFragmentUrl_Ok in Hs as [u ->]. discriminate Hf. }
  split; [|exact Hno].
  unfold ParseDocument, scans. simpl.
  destruct (scanLoop lib scraper _ _); try reflexivity. discriminate Hno.
Qed.

Lemma X16_witness :
  isRefetch
    (scanLoop GoRef.lib (setEscapedFragmentUrl (Pages.session 3) (Some Pages.site))
       (initScan (setEscapedFragmentUrl (Pages.session 3) (Some Pages.site))
                 (Pages.fetched
                    [GoRef.start "link" [("rel", "canonical");
                                         ("href", "https://ex.com/p")];
                     GoRef.close "head"]))
       [GoRef.start "link" [("rel", "canonical"); ("href", "https://ex.com/p")];
        GoRef.close "head"]) = false.
Proof.
  refine (proj2 (proj2 (X16_self_canonical_page GoRef.lib (GoRef.serve []) []
                          (setEscapedFragmentUrl (Pages.session 3) (Some Pages.site))
                          (Pages.fetched
                             [GoRef.start "link" [("rel", "canonical");
                                                  ("href", "https://ex.com/p")];
                              GoRef.close "head"]) _) _)).
  - intros token [<- | [<- | []]] Hd; [vm_compute; reflexivity | discriminate Hd].
  - simpl. discriminate.
Defined.
